(** * App Release Copilot: command parsing, response extraction, session
      manager and interrupt protocol

    A shallow embedding of the TypeScript sources
    ([ui/prompts.ts], [utils/export.ts], [utils/appstore.ts],
    [services/copilot.ts], [index.ts]) together with the properties the
    specification states about them.

    Strings are [string]s whose characters stand for UTF-16 code units in
    the Latin-1 range (U+0000 to U+00FF): white space, digits and case
    mapping are the ECMAScript ones restricted to that range. *)

From Stdlib Require Import ZArith NArith Bool List Ascii String Lia.
From stdpp Require Import gmap strings.
Import ListNotations.

Local Open Scope string_scope.
Set Warnings "-register-all".

(** ** ECMAScript string primitives used by the sources *)

Module JsString.

Definition code (c : ascii) : N := N_of_ascii c.

(** [WhiteSpace] and [LineTerminator] code units below U+0100: TAB, LF,
    VT, FF, CR, SP and NBSP.  This is the set removed by [trim] and
    matched by the regular expression class [\s]. *)
Definition isWhiteSpace (c : ascii) : bool :=
  let n := code c in
  ((9 <=? n) && (n <=? 13) || (n =? 32) || (n =? 160))%N.

(** The regular expression class [\d]. *)
Definition isDigit (c : ascii) : bool :=
  let n := code c in ((48 <=? n) && (n <=? 57))%N.

Definition newline : ascii := ascii_of_N 10.

Definition isNewline (c : ascii) : bool := (code c =? 10)%N.

(** [String.prototype.toLowerCase] on one code unit: A-Z, and the
    Latin-1 capitals U+00C0..U+00DE without the multiplication sign. *)
Definition lowerChar (c : ascii) : ascii :=
  let n := code c in
  if ((65 <=? n) && (n <=? 90)
      || (192 <=? n) && (n <=? 222) && negb (n =? 215))%N
  then ascii_of_N (n + 32) else c.

Fixpoint toLowerCase (s : string) : string :=
  match s with
  | EmptyString => EmptyString
  | String c s' => String (lowerChar c) (toLowerCase s')
  end.

Definition isEmpty (s : string) : bool :=
  match s with EmptyString => true | String _ _ => false end.

Fixpoint trimStart (s : string) : string :=
  match s with
  | EmptyString => EmptyString
  | String c s' => if isWhiteSpace c then trimStart s' else s
  end.

Fixpoint trimEnd (s : string) : string :=
  match s with
  | EmptyString => EmptyString
  | String c s' =>
      let t := trimEnd s' in
      if isWhiteSpace c && isEmpty t then EmptyString else String c t
  end.

(** [s.trim()] *)
Definition trim (s : string) : string := trimEnd (trimStart s).

(** [s.startsWith(p)] *)
Fixpoint startsWith (p s : string) : bool :=
  match p, s with
  | EmptyString, _ => true
  | String a p', String b s' => Ascii.eqb a b && startsWith p' s'
  | String _ _, EmptyString => false
  end.

(** [s.slice(n)] and [s.substring(n)] for a non-negative index [n]. *)
Fixpoint slice (n : nat) (s : string) : string :=
  match n, s with
  | O, _ => s
  | S n', String _ s' => slice n' s'
  | S _, EmptyString => EmptyString
  end.

(** [s.includes(needle)] *)
Fixpoint includes (needle s : string) : bool :=
  startsWith needle s
  || match s with
     | EmptyString => false
     | String _ s' => includes needle s'
     end.

(** [s.split("\n")]: never the empty list. *)
Fixpoint splitLines (s : string) : list string :=
  match s with
  | EmptyString => [EmptyString]
  | String c s' =>
      let r := splitLines s' in
      if isNewline c then EmptyString :: r
      else match r with
           | h :: t => String c h :: t
           | [] => [String c EmptyString]
           end
  end.

(** [lines.join("\n")] *)
Fixpoint joinLines (l : list string) : string :=
  match l with
  | [] => EmptyString
  | [x] => x
  | x :: rest => x ++ String newline (joinLines rest)
  end.

(** Truthiness of a string value: only the empty string is falsy. *)
Definition truthy (s : string) : bool := negb (isEmpty s).

(** [a || undefined] on a string. *)
Definition orUndefined (s : string) : option string :=
  if truthy s then Some s else None.

Fixpoint allDigits (s : string) : bool :=
  match s with
  | EmptyString => true
  | String c s' => isDigit c && allDigits s'
  end.

End JsString.

(** ** ui/prompts.ts: the command language *)

Module Prompts.
Import JsString.

Inductive ContentType : Set :=
| title | subtitle | description | keywords
| releaseNotes | promoText | full.

Inductive Command : Set :=
| CContent (contentType : ContentType)
| CModel | CCopy | CLast | CClear | CHelp | CQuit | CExport
| CScore (keyword : string)
| CUrl
| CIcon (prompt : option string)
| CFeature (prompt : option string)
| CChat (message : string).

Definition COMMAND_MAP : list (string * Command) :=
  [ ("/title", CContent title);
    ("/subtitle", CContent subtitle);
    ("/sub", CContent subtitle);
    ("/description", CContent description);
    ("/desc", CContent description);
    ("/keywords", CContent keywords);
    ("/kw", CContent keywords);
    ("/release", CContent releaseNotes);
    ("/whatsnew", CContent releaseNotes);
    ("/promo", CContent promoText);
    ("/tagline", CContent promoText);
    ("/full", CContent full);
    ("/all", CContent full);
    ("/model", CModel);
    ("/copy", CCopy);
    ("/last", CLast);
    ("/back", CLast);
    ("/clear", CClear);
    ("/cls", CClear);
    ("/help", CHelp);
    ("/h", CHelp);
    ("/?", CHelp);
    ("/quit", CQuit);
    ("/exit", CQuit);
    ("/q", CQuit);
    ("/export", CExport);
    ("/save", CExport);
    ("/url", CUrl);
    ("/import", CUrl);
    ("/icon", CIcon None);
    ("/feature", CFeature None);
    ("/graphic", CFeature None) ].

(** What [parseCommand] hands back.  [COMMAND_MAP] is a plain object
    literal, so the property read [COMMAND_MAP[lowered]] also finds the
    two all-lower-case members of [Object.prototype]; both are truthy
    and are returned as they are. *)
Inductive Parsed : Set :=
| Cmd (c : Command)
| Inherited (property : string).

Fixpoint ownProperty (m : list (string * Command)) (k : string)
  : option Command :=
  match m with
  | [] => None
  | (k', v) :: m' => if String.eqb k' k then Some v else ownProperty m' k
  end.

(** [COMMAND_MAP[key]], [None] standing for [undefined]. *)
Definition commandMapGet (key : string) : option Parsed :=
  match ownProperty COMMAND_MAP key with
  | Some c => Some (Cmd c)
  | None =>
      if String.eqb key "constructor" || String.eqb key "__proto__"
      then Some (Inherited key) else None
  end.

Definition parseCommand (input : string) : Parsed :=
  let trimmed := trim input in
  let lowered := toLowerCase trimmed in
  let keyword := trim (slice 7 trimmed) in
  if startsWith "/score " lowered && truthy keyword then
    Cmd (CScore keyword)
  else if startsWith "/icon " lowered then
    Cmd (CIcon (orUndefined (trim (slice 6 trimmed))))
  else if startsWith "/feature " lowered || startsWith "/graphic " lowered then
    let cmdLen := if startsWith "/feature" lowered then 9 else 9 in
    Cmd (CFeature (orUndefined (trim (slice cmdLen trimmed))))
  else
    match commandMapGet lowered with
    | Some r => r
    | None =>
        if negb (truthy trimmed) then Cmd (CChat "")
        else if startsWith "/" trimmed then Cmd (CChat trimmed)
        else Cmd (CChat trimmed)
    end.

End Prompts.

(** ** utils/export.ts: response extraction and the exported configuration *)

Module StoreExport.
Import JsString.

(** [line.match(/^\s*\(Character count:/i)]: the ignore-case flag folds
    A-Z only, since no other code unit canonicalizes to an ASCII one. *)
Definition isCharCountLine (line : string) : bool :=
  startsWith "(character count:" (toLowerCase (trimStart line)).

Definition isHeadingLine (line : string) : bool := startsWith "#" line.

(** The [for] loop of [extractDescription], with its [inBody] flag. *)
Fixpoint collectBody (inBody : bool) (lines : list string) : list string :=
  match lines with
  | [] => []
  | line :: rest =>
      if isHeadingLine line then collectBody true rest
      else if isCharCountLine line then collectBody inBody rest
      else if inBody then line :: collectBody inBody rest
      else collectBody inBody rest
  end.

Definition extractDescription (content : string) : option string :=
  let lines := splitLines content in
  let bodyLines := collectBody false lines in
  let body := trim (joinLines bodyLines) in
  if (10 <? String.length body)%nat then Some body else None.

(** The lines the loop can keep at all: those after the first heading. *)
Fixpoint afterFirstHeading (lines : list string) : list string :=
  match lines with
  | [] => []
  | line :: rest =>
      if isHeadingLine line then rest else afterFirstHeading rest
  end.

Definition keptLine (line : string) : bool :=
  negb (isHeadingLine line) && negb (isCharCountLine line).

(** The description as the specification words it: every heading line
    and every character-count line dropped, all the other lines of the
    input joined and trimmed, absent at 10 characters or fewer. *)
Definition extractDescription_spec (content : string) : option string :=
  let body := trim (joinLines (List.filter keptLine (splitLines content))) in
  if (10 <? String.length body)%nat then Some body else None.

(** JavaScript values as far as the export needs them; an object is its
    own properties in creation order, and a property may hold
    [undefined]. *)
Inductive JsValue : Set :=
| JsUndefined
| JsNumber (n : Z)
| JsStr (s : string)
| JsArray (items : list JsValue)
| JsObject (props : list (string * JsValue)).

Record GeneratedMetadata : Set := {
  md_title : option string;
  md_subtitle : option string;
  md_description : option string;
  md_keywords : option (list string);
  md_releaseNotes : option string;
  md_promoText : option string;
  md_iconPath : option string;
  md_featureGraphicPath : option string
}.

Definition optStr (o : option string) : JsValue :=
  match o with Some s => JsStr s | None => JsUndefined end.

Definition optStrs (o : option (list string)) : JsValue :=
  match o with Some l => JsArray (List.map JsStr l) | None => JsUndefined end.

Definition buildStoreConfig (metadata : GeneratedMetadata) : JsValue :=
  JsObject
    [ ("configVersion", JsNumber 0);
      ("apple", JsObject
         [ ("info", JsObject
              [ ("en-US", JsObject
                   [ ("title", optStr (md_title metadata));
                     ("subtitle", optStr (md_subtitle metadata));
                     ("description", optStr (md_description metadata));
                     ("keywords", optStrs (md_keywords metadata));
                     ("releaseNotes", optStr (md_releaseNotes metadata));
                     ("promoText", optStr (md_promoText metadata)) ]) ]) ]) ].

(** The JSON document [JSON.stringify] writes, as a tree. *)
Inductive Json : Set :=
| JNull
| JNumber (n : Z)
| JString (s : string)
| JArray (items : list Json)
| JObject (members : list (string * Json)).

(** [JSON.stringify] on a value: [None] is [undefined] (nothing is
    written); a property holding [undefined] is left out of its object,
    an array element holding [undefined] is written as [null]. *)
Fixpoint stringify (v : JsValue) : option Json :=
  match v with
  | JsUndefined => None
  | JsNumber n => Some (JNumber n)
  | JsStr s => Some (JString s)
  | JsArray items =>
      Some (JArray (List.map (fun x =>
                                match stringify x with
                                | Some j => j
                                | None => JNull
                                end) items))
  | JsObject props =>
      Some (JObject
              ((fix members (ps : list (string * JsValue)) :=
                  match ps with
                  | [] => []
                  | (k, x) :: ps' =>
                      match stringify x with
                      | Some j => (k, j) :: members ps'
                      | None => members ps'
                      end
                  end) props))
  end.

(** What [exportStoreConfig] hands to [writeFile]. *)
Definition exportedJson (metadata : GeneratedMetadata) : option Json :=
  stringify (buildStoreConfig metadata).

(** [k in obj] for own properties, and member look-up in a JSON object. *)
Definition hasOwn (k : string) (v : JsValue) : bool :=
  match v with
  | JsObject props => existsb (fun p => String.eqb (fst p) k) props
  | _ => false
  end.

Fixpoint member (k : string) (ms : list (string * Json)) : option Json :=
  match ms with
  | [] => None
  | (k', j) :: ms' => if String.eqb k' k then Some j else member k ms'
  end.

Definition getMember (k : string) (j : Json) : option Json :=
  match j with JObject ms => member k ms | _ => None end.

(** The object at [apple.info["en-US"]] of an exported document. *)
Definition localeInfo (doc : option Json) : option Json :=
  match doc with
  | Some d =>
      match getMember "apple" d with
      | Some a =>
          match getMember "info" a with
          | Some i => getMember "en-US" i
          | None => None
          end
      | None => None
      end
  | None => None
  end.

(** [v !== undefined] for an optional field. *)
Definition defined {A : Type} (o : option A) : bool :=
  match o with Some _ => true | None => false end.

(** Whether [k] names an exported field that the accumulator holds. *)
Definition populated (k : string) (metadata : GeneratedMetadata) : bool :=
  if String.eqb "title" k then defined (md_title metadata)
  else if String.eqb "subtitle" k then defined (md_subtitle metadata)
  else if String.eqb "description" k then defined (md_description metadata)
  else if String.eqb "keywords" k then defined (md_keywords metadata)
  else if String.eqb "releaseNotes" k then defined (md_releaseNotes metadata)
  else if String.eqb "promoText" k then defined (md_promoText metadata)
  else false.

End StoreExport.

(** ** utils/appstore.ts: competitor look-up *)

Module AppStore.
Import JsString.

Fixpoint takeDigits (s : string) : string :=
  match s with
  | EmptyString => EmptyString
  | String c s' => if isDigit c then String c (takeDigits s') else EmptyString
  end.

(** [url.match(/\/id(\d+)/)]: the capture of the leftmost match. *)
Fixpoint matchSlashId (s : string) : option string :=
  match s with
  | EmptyString => None
  | String _ s' =>
      let digits := takeDigits (slice 3 s) in
      if startsWith "/id" s && truthy digits then Some digits
      else matchSlashId s'
  end.

(** [/^\d{9,10}$/.test(s)] *)
Definition isBareId (s : string) : bool :=
  allDigits s
  && ((String.length s =? 9)%nat || (String.length s =? 10)%nat).

Definition extractAppStoreId (url : string) : option string :=
  match matchSlashId url with
  | Some id => Some id
  | None => if isBareId url then Some url else None
  end.

Definition isAppStoreUrl (url : string) : bool :=
  includes "apps.apple.com" url
  || includes "itunes.apple.com" url
  || isBareId url.

Section Lookup.
(** The record of one app in the look-up answer; [fetchAppStoreMetadata]
    copies its fields one by one. *)
Variable AppStoreMetadata : Type.

Record LookupData : Type := {
  resultCount : Z;
  results : list AppStoreMetadata
}.

(** What [fetch] and [response.json()] can do. *)
Inductive FetchOutcome : Type :=
| FetchThrows
| Response (ok : bool) (json : option LookupData).

Variable fetch : string -> FetchOutcome.

Definition lookupUrl (appId : string) : string :=
  "https://itunes.apple.com/lookup?id=" ++ appId ++ "&country=us".

(** The answer together with the requests made, in order. *)
Definition fetchAppStoreMetadata (url : string)
  : option AppStoreMetadata * list string :=
  match extractAppStoreId url with
  | None => (None, [])
  | Some appId =>
      if negb (truthy appId) then (None, [])
      else
        let request := lookupUrl appId in
        (match fetch request with
         | FetchThrows => None
         | Response false _ => None
         | Response true None => None
         | Response true (Some data) =>
             if (resultCount data =? 0)%Z then None
             else match results data with
                  | [] => None
                  | app :: _ => Some app
                  end
         end, [request])
  end.
End Lookup.

End AppStore.

(** ** index.ts: the double-interrupt protocol *)

Module CtrlC.

Definition DOUBLE_CTRL_C_WINDOW_MS : Z := 1000.

(** The module-level [lastCtrlCTime], initially 0. *)
Definition initialLastCtrlCTime : Z := 0.

(** [shouldExitOnCtrlC()], given the reading of [Date.now()]: the answer
    and the new [lastCtrlCTime]. *)
Definition shouldExitOnCtrlC (now lastCtrlCTime : Z) : bool * Z :=
  if (now - lastCtrlCTime <? DOUBLE_CTRL_C_WINDOW_MS)%Z
  then (true, lastCtrlCTime)
  else (false, now).

Inductive Effect : Set :=
| ConsoleLogBlank
| PrintGoodbye
| ServiceCleanup
| ProcessExit (code : Z)
| PrintPressAgain.

(** [handleCtrlC()]: the effects in program order and the new
    [lastCtrlCTime].  [hasService] says whether [state.service] is set. *)
Definition handleCtrlC (hasService : bool) (now lastCtrlCTime : Z)
  : list Effect * Z :=
  let '(exit, last) := shouldExitOnCtrlC now lastCtrlCTime in
  if exit then
    (([ConsoleLogBlank; PrintGoodbye]
        ++ (if hasService then [ServiceCleanup] else [])
        ++ [ProcessExit 0])%list, last)
  else ([ConsoleLogBlank; PrintPressAgain], last).

Definition exits (effects : list Effect) : bool :=
  existsb (fun e => match e with ProcessExit _ => true | _ => false end)
          effects.

(** The interrupts of one run of the interactive loop, at the given
    clock readings: all effects, up to and including the exit. *)
Fixpoint interrupts (hasService : bool) (times : list Z) (lastCtrlCTime : Z)
  : list Effect :=
  match times with
  | [] => []
  | now :: later =>
      let '(effects, last) := handleCtrlC hasService now lastCtrlCTime in
      if exits effects then effects
      else (effects ++ interrupts hasService later last)%list
  end.

End CtrlC.

(** ** services/copilot.ts: the session manager *)

Module Copilot.
Import JsString Prompts.

Definition ModelId : Set := string.

#[global] Instance ContentType_eq_dec : EqDecision ContentType.
Proof. solve_decision. Defined.

Definition ContentType_index (c : ContentType) : nat :=
  match c with
  | title => 0 | subtitle => 1 | description => 2 | keywords => 3
  | releaseNotes => 4 | promoText => 5 | full => 6
  end.

Definition ContentType_of_index (n : nat) : ContentType :=
  match n with
  | 0 => title | 1 => subtitle | 2 => description | 3 => keywords
  | 4 => releaseNotes | 5 => promoText | _ => full
  end.

#[global] Instance ContentType_countable : Countable ContentType.
Proof.
  apply (inj_countable' ContentType_index ContentType_of_index).
  intros []; reflexivity.
Defined.

(** *** Values exchanged with the SDK *)

Record McpServer : Set := {
  mcp_type : string;
  mcp_url : string;
  mcp_tools : list string
}.

Definition MCP_SERVERS : list (string * McpServer) :=
  [ ("aso-keywords",
     {| mcp_type := "http";
        mcp_url := "https://aso-mcp.vercel.app/api/mcp";
        mcp_tools := ["*"] |}) ].

Record SystemMessage : Set := {
  sm_mode : string;
  sm_content : string
}.

Record SessionConfig : Set := {
  cfg_model : ModelId;
  cfg_streaming : bool;
  cfg_mcpServers : list (string * McpServer);
  cfg_systemMessage : SystemMessage
}.

(** A session object: what it was created with, and whether a call of
    its [destroy()] has gone through. *)
Record Session : Set := {
  session_config : SessionConfig;
  session_destroyed : bool
}.

Record CopilotClient : Set := {
  autoStart : bool;
  autoRestart : bool
}.

(** The result of awaiting a call: it returns, or it throws an error with
    a message. *)
Inductive Outcome (A : Type) : Type :=
| Returns (a : A)
| Throws (message : string).
Arguments Returns {A} a.
Arguments Throws {A} message.

(** Quota numbers are carried from the event to [quotaInfo] unchanged. *)
Record QuotaSnapshot : Set := {
  isUnlimitedEntitlement : bool;
  entitlementRequests : Z;
  usedRequests : Z;
  remainingPercentage : Z;
  resetDate : option string
}.

Record QuotaInfo : Set := {
  q_model : option string;
  q_usedRequests : Z;
  q_totalRequests : Z;
  q_remainingPercentage : Z;
  q_resetDate : option string;
  q_isUnlimited : bool
}.

(** The events a session delivers.  An absent optional component stands
    for a [data] object without that key; [quotaSnapshots] lists the
    record in [Object.keys] order. *)
Inductive SessionEvent : Set :=
| assistant_message_delta (deltaContent : option string)
| tool_execution_start (toolName : option string)
| tool_execution_complete (success : option bool)
| assistant_usage (quotaSnapshots : option (list (string * QuotaSnapshot)))
                  (model : option string)
| session_idle
| session_error (message : option string)
| other_event (type : string).

(** What the backend does with one [send]: the call returns or throws,
    and these events reach the handler before [streamGeneration] goes on
    after [await done]. *)
Record Reply : Set := {
  send_outcome : Outcome unit;
  delivered : list SessionEvent
}.

Inductive SdkCall : Set :=
| CallStart
| CallGetAuthStatus
| CallCreateSession (config : SessionConfig)
| CallDestroy
| CallSend (prompt : string).

(** The SDK and the backend behind it.  Every answer may depend on all
    the calls made so far. *)
Record Sdk : Type := {
  sdk_start : list SdkCall -> Outcome unit;
  sdk_getAuthStatus : list SdkCall -> Outcome bool;
  sdk_createSession : list SdkCall -> SessionConfig -> Outcome unit;
  sdk_destroy : list SdkCall -> Session -> Outcome unit;
  sdk_send : list SdkCall -> string -> Reply
}.

(** *** The spinner: the side channel for the current activity *)

Inductive SpinnerText : Set :=
| TextConnecting
| TextCheckingAuth
| TextCreatingSession
| TextConnected (model : ModelId)
| TextFailedToConnect
| TextSwitchingTo (model : ModelId)
| TextSwitchedTo (model : ModelId)
| TextFailedToSwitch
| TextSpinner (contentType : ContentType)
| TextSuccess (contentType : ContentType)
| TextFailedToGenerate (contentType : ContentType)
| TextWriting (contentType : ContentType)
| TextWritingLines (contentType : ContentType) (lines : nat)
| TextTool (isKeywordTool : bool) (toolName : string)
| TextToolCompleted (toolsCompleted : nat).

Inductive SpinnerCall : Set :=
| SpinStart (text : SpinnerText)
| SpinText (text : SpinnerText)
| SpinSucceed (text : SpinnerText)
| SpinFail (text : SpinnerText).

(** [toolName.toLowerCase().replace(/-/g, "_")] *)
Fixpoint dashesToUnderscores (s : string) : string :=
  match s with
  | EmptyString => EmptyString
  | String c s' =>
      String (if Ascii.eqb c "-"%char then "_"%char else c)
             (dashesToUnderscores s')
  end.

Definition getToolFriendlyName (toolName : string) : SpinnerText :=
  let normalizedName := dashesToUnderscores (toLowerCase toolName) in
  TextTool (includes "keyword" normalizedName) toolName.

(** *** [cleanOutput] *)

Definition isHash (c : ascii) : bool := Ascii.eqb c "#"%char.

(** Inside [\s+[^\n]+], once one white-space character is taken: the
    rest matches here, or after more white space. *)
Fixpoint afterSpaces (s : string) : bool :=
  match s with
  | EmptyString => false
  | String c s' => negb (isNewline c) || (isWhiteSpace c && afterSpaces s')
  end.

Definition spacesThenText (s : string) : bool :=
  match s with
  | EmptyString => false
  | String c s' => isWhiteSpace c && afterSpaces s'
  end.

(** [/(#{1,2}\s+[^\n]+)/] matches at the start of [s]. *)
Definition headingAt (s : string) : bool :=
  match s with
  | EmptyString => false
  | String h rest =>
      isHash h
      && (match rest with
          | String h2 rest2 => isHash h2 && spacesThenText rest2
          | EmptyString => false
          end
          || spacesThenText rest)
  end.

(** [text.substring(headingMatch.index)], when there is a match. *)
Fixpoint fromHeading (text : string) : option string :=
  match text with
  | EmptyString => None
  | String _ text' =>
      if headingAt text then Some text else fromHeading text'
  end.

Definition cleanOutput (text : string) : string :=
  match fromHeading text with
  | Some fromHeading => trim fromHeading
  | None => trim text
  end.

(** *** The service object *)

Section Service.

(** The app description record and the prompt templates, which the
    manager only passes on. *)
Context {AppInfo : Type}.
Variable getContentPrompt : ContentType -> AppInfo -> string.
Variable SYSTEM_PROMPT_ASO : string.
Variable sdk : Sdk.

Record CopilotService : Type := {
  client : option CopilotClient;
  session : option Session;
  spinner : list SpinnerCall;
  appInfo : AppInfo;
  generatedContent : gmap ContentType string;
  currentModel : ModelId;
  quotaInfo : option QuotaInfo;
  (** every call made on the SDK so far, oldest first *)
  calls : list SdkCall
}.

(** [new CopilotService(appInfo, model)] *)
Definition newService (info : AppInfo) (model : ModelId) : CopilotService :=
  {| client := None; session := None; spinner := [];
     appInfo := info; generatedContent := ∅;
     currentModel := model; quotaInfo := None; calls := [] |}.

Definition setClient (c : option CopilotClient) (s : CopilotService) :=
  {| client := c; session := session s; spinner := spinner s;
     appInfo := appInfo s; generatedContent := generatedContent s;
     currentModel := currentModel s; quotaInfo := quotaInfo s;
     calls := calls s |}.

Definition setSession (x : option Session) (s : CopilotService) :=
  {| client := client s; session := x; spinner := spinner s;
     appInfo := appInfo s; generatedContent := generatedContent s;
     currentModel := currentModel s; quotaInfo := quotaInfo s;
     calls := calls s |}.

Definition spin (c : SpinnerCall) (s : CopilotService) :=
  {| client := client s; session := session s;
     spinner := (spinner s ++ [c])%list;
     appInfo := appInfo s; generatedContent := generatedContent s;
     currentModel := currentModel s; quotaInfo := quotaInfo s;
     calls := calls s |}.

Definition setGeneratedContent (m : gmap ContentType string)
  (s : CopilotService) :=
  {| client := client s; session := session s; spinner := spinner s;
     appInfo := appInfo s; generatedContent := m;
     currentModel := currentModel s; quotaInfo := quotaInfo s;
     calls := calls s |}.

Definition setCurrentModel (m : ModelId) (s : CopilotService) :=
  {| client := client s; session := session s; spinner := spinner s;
     appInfo := appInfo s; generatedContent := generatedContent s;
     currentModel := m; quotaInfo := quotaInfo s; calls := calls s |}.

Definition setQuotaInfo (q : option QuotaInfo) (s : CopilotService) :=
  {| client := client s; session := session s; spinner := spinner s;
     appInfo := appInfo s; generatedContent := generatedContent s;
     currentModel := currentModel s; quotaInfo := q; calls := calls s |}.

Definition called (c : SdkCall) (s : CopilotService) :=
  {| client := client s; session := session s; spinner := spinner s;
     appInfo := appInfo s; generatedContent := generatedContent s;
     currentModel := currentModel s; quotaInfo := quotaInfo s;
     calls := (calls s ++ [c])%list |}.

(** The prompts sent to the backend so far. *)
Definition sentPrompts (s : CopilotService) : list string :=
  omap (fun c => match c with CallSend p => Some p | _ => None end) (calls s).

(** *** [streamGeneration]: one streamed request *)

(** The promise [done]; it settles once. *)
Inductive PromiseState : Set :=
| Pending
| Fulfilled
| Rejected (message : string).

(** The variables the event handler closes over. *)
Record StreamState : Set := {
  output : string;
  isGeneratingContent : bool;
  toolsCompleted : nat;
  done : PromiseState
}.

Definition streamStart : StreamState :=
  {| output := ""; isGeneratingContent := false; toolsCompleted := 0;
     done := Pending |}.

Definition settle (p : PromiseState) (h : StreamState) : StreamState :=
  match done h with
  | Pending =>
      {| output := output h; isGeneratingContent := isGeneratingContent h;
         toolsCompleted := toolsCompleted h; done := p |}
  | _ => h
  end.

Definition firstSnapshot (model : option string) (s : CopilotService)
  (snapshots : list (string * QuotaSnapshot)) : CopilotService :=
  match snapshots with
  | [] => s
  | (firstKey, snapshot) :: _ =>
      if truthy firstKey then
        setQuotaInfo
          (Some {| q_model := Some (match model with
                                    | Some m => m
                                    | None => currentModel s
                                    end);
                   q_usedRequests := usedRequests snapshot;
                   q_totalRequests := entitlementRequests snapshot;
                   q_remainingPercentage := remainingPercentage snapshot;
                   q_resetDate := resetDate snapshot;
                   q_isUnlimited := isUnlimitedEntitlement snapshot |}) s
      else s
  end.

(** The callback given to [session.on]. *)
Definition onEvent (contentType : ContentType) (event : SessionEvent)
  (hs : StreamState * CopilotService) : StreamState * CopilotService :=
  let '(h, s) := hs in
  match event with
  | assistant_message_delta (Some deltaContent) =>
      if truthy deltaContent then
        let output' := output h ++ deltaContent in
        let s1 := if isGeneratingContent h then s
                  else spin (SpinText (TextWriting contentType)) s in
        let lines := List.length (splitLines output') in
        let s2 := if (3 <? lines)%nat
                  then spin (SpinText (TextWritingLines contentType lines)) s1
                  else s1 in
        ({| output := output'; isGeneratingContent := true;
            toolsCompleted := toolsCompleted h; done := done h |}, s2)
      else (h, s)
  | assistant_message_delta None => (h, s)
  | tool_execution_start (Some toolName) =>
      (h, spin (SpinText (getToolFriendlyName toolName)) s)
  | tool_execution_start None => (h, s)
  | tool_execution_complete (Some true) =>
      let n := S (toolsCompleted h) in
      ({| output := output h; isGeneratingContent := isGeneratingContent h;
          toolsCompleted := n; done := done h |},
       spin (SpinText (TextToolCompleted n)) s)
  | tool_execution_complete _ => (h, s)
  | assistant_usage (Some snapshots) model =>
      (h, firstSnapshot model s snapshots)
  | assistant_usage None _ => (h, s)
  | session_idle => (settle Fulfilled h, s)
  | session_error (Some message) => (settle (Rejected message) h, s)
  | session_error None => (settle (Rejected "Session error occurred") h, s)
  | other_event _ => (h, s)
  end.

Definition deliver (contentType : ContentType) (events : list SessionEvent)
  (hs : StreamState * CopilotService) : StreamState * CopilotService :=
  fold_left (fun acc event => onEvent contentType event acc) events hs.

(** How the promise [streamGeneration] returns ends. *)
Inductive StreamResult : Set :=
| StreamResolved (text : string)
| StreamRejected (message : string)
| StreamPending.

(** The [TypeError] of [this.session.send] on a service without session. *)
Definition noSessionError : string :=
  "Cannot read properties of undefined (reading 'send')".

Definition streamGeneration (prompt : string) (contentType : ContentType)
  (s : CopilotService) : StreamResult * CopilotService :=
  match session s with
  | None => (StreamRejected noSessionError, s)
  | Some _ =>
      let reply := sdk_send sdk (calls s) prompt in
      let '(h, s') :=
        deliver contentType (delivered reply)
                (streamStart, called (CallSend prompt) s) in
      match send_outcome reply with
      | Throws message => (StreamRejected message, s')
      | Returns _ =>
          match done h with
          | Fulfilled => (StreamResolved (output h), s')
          | Rejected message => (StreamRejected message, s')
          | Pending => (StreamPending, s')
          end
      end
  end.

(** *** [generate] *)

Record GenerationResult : Set := {
  content : string;
  success : bool;
  error : option string
}.

(** [this.context.generatedContent.get(contentType)] as a condition. *)
Definition cachedTruthy (contentType : ContentType) (s : CopilotService)
  : option string :=
  match generatedContent s !! contentType with
  | Some cached => if truthy cached then Some cached else None
  | None => None
  end.

(** [generate(contentType, { regenerate })]; no result when the stream
    never settles. *)
Definition generate (contentType : ContentType) (regenerate : bool)
  (s0 : CopilotService) : option GenerationResult * CopilotService :=
  let s := if regenerate
           then setGeneratedContent (delete contentType (generatedContent s0)) s0
           else s0 in
  match cachedTruthy contentType s, regenerate with
  | Some cached, false =>
      (Some {| content := cached; success := true; error := None |}, s)
  | _, _ =>
      let prompt := getContentPrompt contentType (appInfo s) in
      let s1 := spin (SpinStart (TextSpinner contentType)) s in
      match streamGeneration prompt contentType s1 with
      | (StreamResolved text, s2) =>
          let content := cleanOutput text in
          let s3 := setGeneratedContent
                      (<[contentType := content]> (generatedContent s2)) s2 in
          (Some {| content := content; success := true; error := None |},
           spin (SpinSucceed (TextSuccess contentType)) s3)
      | (StreamRejected errorMessage, s2) =>
          (Some {| content := ""; success := false;
                   error := Some errorMessage |},
           spin (SpinFail (TextFailedToGenerate contentType)) s2)
      | (StreamPending, s2) => (None, s2)
      end
  end.

(** *** [initialize] and [switchModel] *)

Definition destroyed (x : Session) : Session :=
  {| session_config := session_config x; session_destroyed := true |}.

Definition notAuthenticated : string :=
  "Not authenticated with GitHub Copilot.

  Run 'copilot auth' in your terminal to log in.".

Definition initialize (s0 : CopilotService) : Outcome unit * CopilotService :=
  let s1 := spin (SpinStart TextConnecting) s0 in
  let s2 := setClient (Some {| autoStart := true; autoRestart := true |}) s1 in
  let failed message s :=
    (Throws message, spin (SpinFail TextFailedToConnect) s) in
  match sdk_start sdk (calls s2) with
  | Throws message => failed message (called CallStart s2)
  | Returns _ =>
      let s3 := spin (SpinText TextCheckingAuth) (called CallStart s2) in
      match sdk_getAuthStatus sdk (calls s3) with
      | Throws message => failed message (called CallGetAuthStatus s3)
      | Returns false => failed notAuthenticated (called CallGetAuthStatus s3)
      | Returns true =>
          let s4 := spin (SpinText TextCreatingSession)
                         (called CallGetAuthStatus s3) in
          let config :=
            {| cfg_model := currentModel s4;
               cfg_streaming := true;
               cfg_mcpServers := MCP_SERVERS;
               cfg_systemMessage :=
                 {| sm_mode := "append"; sm_content := SYSTEM_PROMPT_ASO |} |} in
          match sdk_createSession sdk (calls s4) config with
          | Throws message => failed message (called (CallCreateSession config) s4)
          | Returns _ =>
              let s5 := setSession
                          (Some {| session_config := config;
                                   session_destroyed := false |})
                          (called (CallCreateSession config) s4) in
              (Returns tt, spin (SpinSucceed (TextConnected (currentModel s5))) s5)
          end
      end
  end.

Definition notInitialized : string :=
  "Service not initialized. Call initialize() first.".

(** The inner [try] of [switchModel]: best-effort destroy. *)
Definition destroyBestEffort (s : CopilotService) : CopilotService :=
  match session s with
  | None => s
  | Some old =>
      match sdk_destroy sdk (calls s) old with
      | Returns _ => setSession (Some (destroyed old)) (called CallDestroy s)
      | Throws _ => called CallDestroy s
      end
  end.

Definition switchModel (newModel : ModelId) (s0 : CopilotService)
  : Outcome unit * CopilotService :=
  if String.eqb newModel (currentModel s0) then (Returns tt, s0)
  else
    let s1 := spin (SpinStart (TextSwitchingTo newModel)) s0 in
    let s2 := destroyBestEffort s1 in
    let s3 := setCurrentModel newModel s2 in
    let failed message s :=
      (Throws message, spin (SpinFail TextFailedToSwitch) s) in
    match client s3 with
    | None => failed notInitialized s3
    | Some _ =>
        let config :=
          {| cfg_model := currentModel s3;
             cfg_streaming := true;
             cfg_mcpServers := MCP_SERVERS;
             cfg_systemMessage :=
               {| sm_mode := "append"; sm_content := SYSTEM_PROMPT_ASO |} |} in
        match sdk_createSession sdk (calls s3) config with
        | Throws message => failed message (called (CallCreateSession config) s3)
        | Returns _ =>
            let s4 := setSession
                        (Some {| session_config := config;
                                 session_destroyed := false |})
                        (called (CallCreateSession config) s3) in
            (Returns tt, spin (SpinSucceed (TextSwitchedTo (currentModel s4))) s4)
        end
    end.

(** The session the manager holds is one it can still use. *)
Definition hasLiveSession (s : CopilotService) : bool :=
  match session s with
  | Some x => negb (session_destroyed x)
  | None => false
  end.

End Service.
End Copilot.

(** ** services/copilot.ts: refinement and keyword scoring *)

Module CopilotOps.
Import JsString Prompts Copilot.

(** The double quote, for the templates. *)
Definition quote : string := String (ascii_of_N 34) EmptyString.

(** [contentLabels] of [getRefinementPrompt]. *)
Definition refinementLabel (contentType : ContentType) : string :=
  match contentType with
  | title => "title options"
  | subtitle => "subtitle options"
  | description => "description"
  | keywords => "keywords"
  | releaseNotes => "release notes"
  | promoText => "promo text options"
  | full => "metadata package"
  end.

(** [getRefinementPrompt]; [name] and [appDescription] are the two fields
    of [appInfo] the template reads. *)
Definition getRefinementPrompt (contentType : ContentType)
  (currentContent feedback name appDescription : string) : string :=
  let label := refinementLabel contentType in
  "
The user wants to refine the " ++ label ++ ". Here is the current content:

---
" ++ currentContent ++ "
---

App Name: " ++ quote ++ name ++ quote ++ "
App Description: " ++ appDescription ++ "

USER FEEDBACK: " ++ quote ++ feedback ++ quote ++ "

Based on this feedback, generate an improved version of the " ++ label ++ ".
Remember to respect character limits and ASO best practices.

Output the refined " ++ label ++ " using the same format as before.
".

(** The prompt of [scoreKeyword]. *)
Definition scorePrompt (keyword : string) : string :=
  "
Call the get_keyword_scores tool to analyze this App Store keyword: "
  ++ quote ++ keyword ++ quote ++ "

Country: us (United States)

After getting the scores, provide a brief analysis:
- Traffic Score (1-10): How much search volume
- Difficulty Score (1-10): How hard to rank
- Difficulty Index (0-100): Industry-standard metric
- Recommendation: Is this keyword worth targeting?
".

(** What the two methods put on the spinner themselves: the text they
    start it with, before the stream, and the one they stop it with,
    after it. *)
Inductive Notice : Set :=
| Refining (contentType : ContentType)
| Refined (contentType : ContentType)
| FailedToRefine (contentType : ContentType)
| AnalyzingKeyword (keyword : string)
| KeywordAnalyzed (keyword : string)
| FailedToScoreKeyword.

Section Operations.
Context {AppInfo : Type}.
Variable appName : AppInfo -> string.
Variable appDescription : AppInfo -> string.
Variable sdk : Sdk.

(** [refineContent(contentType, currentContent, feedback)]: the result
    (none when the stream never settles), the service afterwards and the
    spinner texts of the method itself, in order. *)
Definition refineContent (contentType : ContentType)
  (currentContent feedback : string) (s : @CopilotService AppInfo)
  : option GenerationResult * @CopilotService AppInfo * list Notice :=
  let prompt := getRefinementPrompt contentType currentContent feedback
                  (appName (appInfo s)) (appDescription (appInfo s)) in
  match streamGeneration sdk prompt contentType s with
  | (StreamResolved text, s1) =>
      let content := cleanOutput text in
      (Some {| content := content; success := true; error := None |},
       setGeneratedContent
         (<[contentType := content]> (generatedContent s1)) s1,
       [Refining contentType; Refined contentType])
  | (StreamRejected errorMessage, s1) =>
      (Some {| content := ""; success := false;
               error := Some errorMessage |},
       s1, [Refining contentType; FailedToRefine contentType])
  | (StreamPending, s1) => (None, s1, [Refining contentType])
  end.

(** [scoreKeyword(keyword)] *)
Definition scoreKeyword (keyword : string) (s : @CopilotService AppInfo)
  : option GenerationResult * @CopilotService AppInfo * list Notice :=
  match streamGeneration sdk (scorePrompt keyword) keywords s with
  | (StreamResolved text, s1) =>
      (Some {| content := cleanOutput text; success := true;
               error := None |},
       s1, [AnalyzingKeyword keyword; KeywordAnalyzed keyword])
  | (StreamRejected errorMessage, s1) =>
      (Some {| content := ""; success := false;
               error := Some errorMessage |},
       s1, [AnalyzingKeyword keyword; FailedToScoreKeyword])
  | (StreamPending, s1) => (None, s1, [AnalyzingKeyword keyword])
  end.

End Operations.
End CopilotOps.

(** ** utils/export.ts and utils/clipboard.ts: the other extractors *)

Module ResponseExtractor.
Import JsString StoreExport.

(** The longest prefix of [s] without a character on which [stop] holds,
    and what follows it. *)
Fixpoint spanBefore (stop : ascii -> bool) (s : string) : string :=
  match s with
  | EmptyString => EmptyString
  | String c s' =>
      if stop c then EmptyString else String c (spanBefore stop s')
  end.

Fixpoint dropSpan (stop : ascii -> bool) (s : string) : string :=
  match s with
  | EmptyString => EmptyString
  | String c s' => if stop c then s else dropSpan stop s'
  end.

Definition isBacktick (c : ascii) : bool := Ascii.eqb c "`"%char.
Definition isComma (c : ascii) : bool := Ascii.eqb c ","%char.
Definition isStar (c : ascii) : bool := Ascii.eqb c "*"%char.
Definition isColon (c : ascii) : bool := Ascii.eqb c ":"%char.
Definition notWhiteSpace (c : ascii) : bool := negb (isWhiteSpace c).

(** Line terminators below U+0100: after one of them [^] matches under
    the [m] flag, and [.] matches neither. *)
Definition isLineTerminator (c : ascii) : bool :=
  ((code c =? 10) || (code c =? 13))%N.

(** [s.split(",")] *)
Fixpoint splitCommas (s : string) : list string :=
  match s with
  | EmptyString => [EmptyString]
  | String c s' =>
      let r := splitCommas s' in
      if isComma c then EmptyString :: r
      else match r with
           | h :: t => String c h :: t
           | [] => [String c EmptyString]
           end
  end.

(** [.split(",").map(k => k.trim()).filter(k => k.length > 0)] *)
Definition keywordTokens (s : string) : list string :=
  List.filter truthy (List.map trim (splitCommas s)).

(** The last character of [s] that is not a newline. *)
Fixpoint lastNonNewline (s : string) : option ascii :=
  match s with
  | EmptyString => None
  | String c s' =>
      match lastNonNewline s' with
      | Some x => Some x
      | None => if isNewline c then None else Some c
      end
  end.

(** *** [parseKeywordsFromContent] *)

(** [/`([^`]+)`/] matching at the start of [s]: a backtick, the longest
    run of other characters, which must not be empty, and a backtick. *)
Definition backtickSpanAt (s : string) : option string :=
  match s with
  | EmptyString => None
  | String c rest =>
      if isBacktick c
         && truthy (spanBefore isBacktick rest)
         && truthy (dropSpan isBacktick rest)
      then Some (spanBefore isBacktick rest)
      else None
  end.

(** The capture of the leftmost match of [/`([^`]+)`/]. *)
Fixpoint firstBacktickSpan (s : string) : option string :=
  match s with
  | EmptyString => None
  | String _ s' =>
      match backtickSpanAt s with
      | Some inner => Some inner
      | None => firstBacktickSpan s'
      end
  end.

Definition backtickOrNewline (c : ascii) : bool :=
  isBacktick c || isNewline c.

(** [\s*\n?\s*`?([^`\n]+)`?] on what follows the colon.  The white space
    is taken greedily; then comes an optional backtick and the capture,
    the longest run without backtick and newline, which needs one
    character.  When there is none there, the matcher gives back white
    space: the capture then starts at the last white-space character that
    is not a newline, and is that character alone. *)
Definition finalCapture (r : string) : option string :=
  let spaces := spanBefore notWhiteSpace r in
  let rest := dropSpan notWhiteSpace r in
  let fallback :=
    match lastNonNewline spaces with
    | Some c => Some (String c EmptyString)
    | None => None
    end in
  match rest with
  | EmptyString => fallback
  | String c rest' =>
      if negb (isBacktick c) then Some (spanBefore backtickOrNewline rest)
      else match rest' with
           | EmptyString => fallback
           | String c2 _ =>
               if backtickOrNewline c2 then fallback
               else Some (spanBefore backtickOrNewline rest')
           end
  end.

(** What follows the first colon of [s]. *)
Definition afterFirstColon (s : string) : option string :=
  match dropSpan isColon s with
  | EmptyString => None
  | String _ r => Some r
  end.

(** [/Final Keyword String[^:]*:\s*\n?\s*`?([^`\n]+)`?/i] matching at the
    start of [s]; [[^:]*] runs up to the first colon. *)
Definition finalKeywordAt (s : string) : option string :=
  if startsWith "final keyword string" (toLowerCase s) then
    match afterFirstColon (slice 20 s) with
    | Some r => finalCapture r
    | None => None
    end
  else None.

(** The capture of the leftmost match. *)
Fixpoint finalKeywordCapture (s : string) : option string :=
  match s with
  | EmptyString => None
  | String _ s' =>
      match finalKeywordAt s with
      | Some capture => Some capture
      | None => finalKeywordCapture s'
      end
  end.

Definition parseKeywordsFromContent (content : string) : list string :=
  match firstBacktickSpan content with
  | Some inner => keywordTokens inner
  | None =>
      match finalKeywordCapture content with
      | Some capture => keywordTokens capture
      | None => []
      end
  end.

(** *** [extractFirstOption] *)

(** [.replace(/\*\*/g, "")] and [.replace(/\*/g, "")] *)
Fixpoint removeStarPairs (s : string) : string :=
  match s with
  | EmptyString => EmptyString
  | String a s' =>
      match s' with
      | EmptyString => String a EmptyString
      | String b r =>
          if isStar a && isStar b then removeStarPairs r
          else String a (removeStarPairs s')
      end
  end.

Fixpoint removeStars (s : string) : string :=
  match s with
  | EmptyString => EmptyString
  | String c s' =>
      if isStar c then removeStars s' else String c (removeStars s')
  end.

Definition starOrNewline (c : ascii) : bool := isStar c || isNewline c.

(** Up to two leading stars dropped: what [\*?\*?] leaves. *)
Definition dropTwoStars (s : string) : string :=
  match s with
  | String a s' =>
      if isStar a then
        match s' with
        | String b s'' => if isStar b then s'' else s'
        | EmptyString => s'
        end
      else s
  | EmptyString => s
  end.

(** [\s*\*?\*?([^*\n]+)] on what follows [1.]: white space and up to two
    stars are taken greedily, the capture is the longest run without star
    and newline and needs one character.  When there is none there, the
    matcher gives back white space, as in [finalCapture]. *)
Definition optionCapture (r : string) : option string :=
  let spaces := spanBefore notWhiteSpace r in
  let rest := dropTwoStars (dropSpan notWhiteSpace r) in
  let fallback :=
    match lastNonNewline spaces with
    | Some c => Some (String c EmptyString)
    | None => None
    end in
  match rest with
  | EmptyString => fallback
  | String c _ =>
      if starOrNewline c then fallback
      else Some (spanBefore starOrNewline rest)
  end.

(** [/^\s*1\.\s*\*?\*?([^*\n]+)\*?\*?\s*\(?/m] matching at [s], a place
    where [^] holds.  What follows the capture is optional throughout. *)
Definition firstOptionAt (s : string) : option string :=
  let a := dropSpan notWhiteSpace s in
  if startsWith "1." a then optionCapture (slice 2 a) else None.

(** The capture of the leftmost match: the places tried are the start of
    the text and those after a line terminator. *)
Fixpoint firstOptionCapture (atLineStart : bool) (s : string)
  : option string :=
  match s with
  | EmptyString => None
  | String c s' =>
      match (if atLineStart then firstOptionAt s else None) with
      | Some capture => Some capture
      | None => firstOptionCapture (isLineTerminator c) s'
      end
  end.

(** [/^\s*\(\d+\s*chars?\)\s*$/i] on the whole of [s]. *)
Definition isCharCountNote (s : string) : bool :=
  match dropSpan notWhiteSpace s with
  | String p afterParen =>
      Ascii.eqb p "("%char
      && truthy (AppStore.takeDigits afterParen)
      && (let afterDigits :=
            dropSpan notWhiteSpace
              (slice (String.length (AppStore.takeDigits afterParen))
                     afterParen) in
          startsWith "char" (toLowerCase afterDigits)
          && (let afterChar := slice 4 afterDigits in
              let afterS :=
                if startsWith "s" (toLowerCase afterChar)
                then slice 1 afterChar else afterChar in
              match afterS with
              | String q tail =>
                  Ascii.eqb q ")"%char
                  && isEmpty (dropSpan notWhiteSpace tail)
              | EmptyString => false
              end))
  | EmptyString => false
  end.

(** [.replace(/\s*\(\d+\s*chars?\)\s*$/i, "")]: the text up to the
    leftmost place from which the pattern matches through the end. *)
Fixpoint stripCharCount (s : string) : string :=
  if isCharCountNote s then EmptyString
  else match s with
       | EmptyString => EmptyString
       | String c s' => String c (stripCharCount s')
       end.

Definition extractFirstOption (content : string) : option string :=
  match firstOptionCapture true content with
  | Some capture => Some (trim (stripCharCount (removeStarPairs capture)))
  | None => None
  end.

(** *** [extractNumberedItems] *)

(** [\*?\*?\s*$] on the whole of [s]. *)
Definition itemTail (s : string) : bool :=
  isEmpty (dropSpan notWhiteSpace s)
  || match s with
     | String a s' =>
         isStar a
         && (isEmpty (dropSpan notWhiteSpace s')
             || match s' with
                | String b s'' =>
                    isStar b && isEmpty (dropSpan notWhiteSpace s'')
                | EmptyString => false
                end)
     | EmptyString => false
     end.

(** [(.+?)\*?\*?\s*$] at the start of [s]: the shortest run of at least
    one character, none a line terminator, after which the rest of the
    line is the tail. *)
Fixpoint lazyItem (s : string) : option string :=
  match s with
  | EmptyString => None
  | String c s' =>
      if isLineTerminator c then None
      else if itemTail s' then Some (String c EmptyString)
      else match lazyItem s' with
           | Some item => Some (String c item)
           | None => None
           end
  end.

(** The capture starts after fewer white-space characters when nothing
    matches after all of them: the places are tried from the last one
    back to the first. *)
Fixpoint lazyItemBack (spaces : string) (rest : string) : option string :=
  match spaces with
  | EmptyString => None
  | String c spaces' =>
      match lazyItemBack spaces' rest with
      | Some item => Some item
      | None => lazyItem (spaces ++ rest)
      end
  end.

(** [\s*\*?\*?(.+?)\*?\*?\s*$] on what follows the number and its dot:
    all the white space and two stars, all the white space and one star,
    all the white space, then less white space. *)
Definition itemCapture (r : string) : option string :=
  let spaces := spanBefore notWhiteSpace r in
  let rest := dropSpan notWhiteSpace r in
  let twoStars :=
    match rest with
    | String a (String b rest2) =>
        if isStar a && isStar b then lazyItem rest2 else None
    | _ => None
    end in
  let oneStar :=
    match rest with
    | String a rest1 => if isStar a then lazyItem rest1 else None
    | EmptyString => None
    end in
  match twoStars with
  | Some item => Some item
  | None =>
      match oneStar with
      | Some item => Some item
      | None =>
          match lazyItem rest with
          | Some item => Some item
          | None => lazyItemBack spaces rest
          end
      end
  end.

(** [line.match(/^\d+\.\s*\*?\*?(.+?)\*?\*?\s*$/)], the capture. *)
Definition numberedLine (line : string) : option string :=
  let digits := AppStore.takeDigits line in
  if truthy digits then
    match slice (String.length digits) line with
    | String dot r => if Ascii.eqb dot "."%char then itemCapture r else None
    | EmptyString => None
    end
  else None.

(** [.replace(/^\[/, "")] and [.replace(/\]$/, "")] *)
Definition dropOpenBracket (s : string) : string :=
  match s with
  | String c s' => if Ascii.eqb c "["%char then s' else s
  | EmptyString => s
  end.

Fixpoint dropCloseBracket (s : string) : string :=
  match s with
  | EmptyString => EmptyString
  | String c s' =>
      if Ascii.eqb c "]"%char && isEmpty s' then EmptyString
      else String c (dropCloseBracket s')
  end.

Definition cleanItem (capture : string) : string :=
  trim (dropCloseBracket
          (dropOpenBracket (removeStars (removeStarPairs capture)))).

Fixpoint collectItems (lines : list string) : list string :=
  match lines with
  | [] => []
  | line :: rest =>
      match numberedLine line with
      | Some capture =>
          let item := cleanItem capture in
          if truthy item then item :: collectItems rest
          else collectItems rest
      | None => collectItems rest
      end
  end.

Definition extractNumberedItems (content : string) : list string :=
  collectItems (splitLines content).

(** *** [slugify] *)

Definition isSlugChar (c : ascii) : bool :=
  let n := code c in
  ((97 <=? n) && (n <=? 122) || (48 <=? n) && (n <=? 57))%N.

Definition isDash (c : ascii) : bool := Ascii.eqb c "-"%char.

(** [.replace(/[^a-z0-9]+/g, "-")]; [inRun] says that the character
    before belongs to a run already replaced. *)
Fixpoint dashRuns (inRun : bool) (s : string) : string :=
  match s with
  | EmptyString => EmptyString
  | String c s' =>
      if isSlugChar c then String c (dashRuns false s')
      else if inRun then dashRuns true s'
      else String "-"%char (dashRuns true s')
  end.

(** [.replace(/^-+|-+$/g, "")] *)
Fixpoint dropLeadingDashes (s : string) : string :=
  match s with
  | EmptyString => EmptyString
  | String c s' => if isDash c then dropLeadingDashes s' else s
  end.

Fixpoint dropTrailingDashes (s : string) : string :=
  match s with
  | EmptyString => EmptyString
  | String c s' =>
      let t := dropTrailingDashes s' in
      if isDash c && isEmpty t then EmptyString else String c t
  end.

(** [.substring(0, n)] *)
Fixpoint substringTo (n : nat) (s : string) : string :=
  match n, s with
  | O, _ => EmptyString
  | S n', String c s' => String c (substringTo n' s')
  | S _, EmptyString => EmptyString
  end.

Definition slugify (text : string) : string :=
  substringTo 30
    (dropTrailingDashes
       (dropLeadingDashes (dashRuns false (toLowerCase text)))).

End ResponseExtractor.

(** ** index.ts: the accumulator, last content and the export guard *)

Module Orchestrator.
Import JsString Prompts StoreExport ResponseExtractor Copilot CopilotOps.

Definition emptyMetadata : GeneratedMetadata :=
  {| md_title := None; md_subtitle := None; md_description := None;
     md_keywords := None; md_releaseNotes := None; md_promoText := None;
     md_iconPath := None; md_featureGraphicPath := None |}.

Definition setTitle (v : option string) (m : GeneratedMetadata) :=
  {| md_title := v; md_subtitle := md_subtitle m;
     md_description := md_description m; md_keywords := md_keywords m;
     md_releaseNotes := md_releaseNotes m; md_promoText := md_promoText m;
     md_iconPath := md_iconPath m;
     md_featureGraphicPath := md_featureGraphicPath m |}.

Definition setSubtitle (v : option string) (m : GeneratedMetadata) :=
  {| md_title := md_title m; md_subtitle := v;
     md_description := md_description m; md_keywords := md_keywords m;
     md_releaseNotes := md_releaseNotes m; md_promoText := md_promoText m;
     md_iconPath := md_iconPath m;
     md_featureGraphicPath := md_featureGraphicPath m |}.

Definition setDescription (v : option string) (m : GeneratedMetadata) :=
  {| md_title := md_title m; md_subtitle := md_subtitle m;
     md_description := v; md_keywords := md_keywords m;
     md_releaseNotes := md_releaseNotes m; md_promoText := md_promoText m;
     md_iconPath := md_iconPath m;
     md_featureGraphicPath := md_featureGraphicPath m |}.

Definition setKeywords (v : option (list string)) (m : GeneratedMetadata) :=
  {| md_title := md_title m; md_subtitle := md_subtitle m;
     md_description := md_description m; md_keywords := v;
     md_releaseNotes := md_releaseNotes m; md_promoText := md_promoText m;
     md_iconPath := md_iconPath m;
     md_featureGraphicPath := md_featureGraphicPath m |}.

Definition setReleaseNotes (v : option string) (m : GeneratedMetadata) :=
  {| md_title := md_title m; md_subtitle := md_subtitle m;
     md_description := md_description m; md_keywords := md_keywords m;
     md_releaseNotes := v; md_promoText := md_promoText m;
     md_iconPath := md_iconPath m;
     md_featureGraphicPath := md_featureGraphicPath m |}.

Definition setPromoText (v : option string) (m : GeneratedMetadata) :=
  {| md_title := md_title m; md_subtitle := md_subtitle m;
     md_description := md_description m; md_keywords := md_keywords m;
     md_releaseNotes := md_releaseNotes m; md_promoText := v;
     md_iconPath := md_iconPath m;
     md_featureGraphicPath := md_featureGraphicPath m |}.

(** [storeMetadata(contentType, content)] on [state.generatedMetadata]. *)
Definition storeMetadata (contentType : ContentType) (content : string)
  (m : GeneratedMetadata) : GeneratedMetadata :=
  match contentType with
  | title => setTitle (extractFirstOption content) m
  | subtitle => setSubtitle (extractFirstOption content) m
  | description => setDescription (extractDescription content) m
  | keywords => setKeywords (Some (parseKeywordsFromContent content)) m
  | releaseNotes => setReleaseNotes (extractDescription content) m
  | promoText => setPromoText (extractFirstOption content) m
  | full =>
      setKeywords (Some (parseKeywordsFromContent content))
        (setDescription (extractDescription content)
           (setTitle (extractFirstOption content) m))
  end.

(** [Object.values(state.generatedMetadata).some(v => v !== undefined)],
    the guard of [handleExport]. *)
Definition hasMetadata (m : GeneratedMetadata) : bool :=
  defined (md_title m) || defined (md_subtitle m)
  || defined (md_description m) || defined (md_keywords m)
  || defined (md_releaseNotes m) || defined (md_promoText m)
  || defined (md_iconPath m) || defined (md_featureGraphicPath m).

(** The name of the folder [exportStoreConfig] creates, for the date
    string [getDateString] gives. *)
Definition exportFolderName (appName date : string) : string :=
  "aso-export-" ++ slugify appName ++ "-" ++ date.

(** What the handlers print, in order. *)
Inductive Ui : Set :=
| UiBlank
| UiError (message : string)
| UiLine (text : string)
| UiDisplay (content : string) (contentType : ContentType).

(** [error || fallback] *)
Definition orElse (error : option string) (fallback : string) : string :=
  match error with
  | Some message => if truthy message then message else fallback
  | None => fallback
  end.

Section Handlers.
Context {AppInfo : Type}.
Variable getContentPrompt : ContentType -> AppInfo -> string.
Variable appName : AppInfo -> string.
Variable appDescription : AppInfo -> string.
Variable sdk : Sdk.

(** The part of [state] the content handlers read and write; the service
    is set by the time the loop runs. *)
Record AppState : Type := {
  service : @CopilotService AppInfo;
  lastContent : string;
  lastContentType : option ContentType;
  generatedMetadata : GeneratedMetadata
}.

(** [displayLastContent()]: which content is rendered, if any. *)
Definition displayLastContent (st : AppState) : list Ui :=
  match lastContentType st with
  | Some contentType =>
      if truthy (lastContent st)
      then [UiDisplay (lastContent st) contentType] else []
  | None => []
  end.

(** [handleContent(type)]; nothing when [generate] never returns. *)
Definition handleContent (contentType : ContentType) (st : AppState)
  : option (AppState * list Ui) :=
  match generate getContentPrompt sdk contentType false (service st) with
  | (None, _) => None
  | (Some result, service') =>
      if negb (success result) then
        Some ({| service := service'; lastContent := lastContent st;
                 lastContentType := lastContentType st;
                 generatedMetadata := generatedMetadata st |},
              [UiBlank; UiError (orElse (error result) "Generation failed")])
      else
        let st' :=
          {| service := service'; lastContent := content result;
             lastContentType := Some contentType;
             generatedMetadata :=
               storeMetadata contentType (content result)
                             (generatedMetadata st) |} in
        Some (st', (UiBlank :: displayLastContent st')%list)
  end.

Definition refineFirst : string :=
  "Generate some content first, then you can refine it with natural language.".

(** [handleChat(message)] *)
Definition handleChat (message : string) (st : AppState)
  : option (AppState * list Ui) :=
  match lastContentType st with
  | Some contentType =>
      if truthy (lastContent st) then
        match refineContent appName appDescription sdk contentType
                (lastContent st) message (service st) with
        | (None, _, _) => None
        | (Some result, service', _) =>
            if negb (success result) then
              Some ({| service := service'; lastContent := lastContent st;
                       lastContentType := lastContentType st;
                       generatedMetadata := generatedMetadata st |},
                    [UiBlank;
                     UiError (orElse (error result) "Refinement failed")])
            else
              let st' :=
                {| service := service'; lastContent := content result;
                   lastContentType := lastContentType st;
                   generatedMetadata :=
                     storeMetadata contentType (content result)
                                   (generatedMetadata st) |} in
              Some (st', (UiBlank :: displayLastContent st')%list)
        end
      else
        Some (st, [UiError refineFirst;
                   UiLine "  Try /title or /desc to get started.";
                   UiBlank])
  | None =>
      Some (st, [UiError refineFirst;
                 UiLine "  Try /title or /desc to get started.";
                 UiBlank])
  end.

End Handlers.
End Orchestrator.

(** * Properties *)

(** ** Facts about the string primitives *)

Module JsStringFacts.
Import JsString.

(** The last character, if any, is not white space. *)
Fixpoint endsNonSpace (s : string) : bool :=
  match s with
  | EmptyString => true
  | String c s' =>
      if isEmpty s' then negb (isWhiteSpace c) else endsNonSpace s'
  end.

Lemma startsWith_app p s :
  startsWith p s = true -> exists r, s = p ++ r.
Proof.
  revert s; induction p as [|a p IH]; intros s H.
  - exists s; reflexivity.
  - destruct s as [|b s]; [discriminate|].
    simpl in H. apply andb_prop in H as [Hab Hp].
    apply Ascii.eqb_eq in Hab; subst b.
    destruct (IH _ Hp) as [r ->]. exists r; reflexivity.
Qed.

Lemma lowerChar_space c :
  Ascii.eqb " " (lowerChar c) = true -> isWhiteSpace c = true.
Proof.
  destruct c as [[] [] [] [] [] [] [] []]; vm_compute; congruence.
Qed.

Lemma trimEnd_endsNonSpace s : endsNonSpace (trimEnd s) = true.
Proof.
  induction s as [|c s IH]; [reflexivity|].
  simpl. destruct (isWhiteSpace c) eqn:Hc; simpl.
  - destruct (trimEnd s) eqn:Ht; simpl; [reflexivity|exact IH].
  - destruct (trimEnd s) eqn:Ht; simpl; [now rewrite Hc|exact IH].
Qed.

Lemma trim_endsNonSpace s : endsNonSpace (trim s) = true.
Proof. apply trimEnd_endsNonSpace. Qed.

Lemma endsNonSpace_trimEnd s : endsNonSpace s = true -> trimEnd s = s.
Proof.
  induction s as [|c s IH]; [reflexivity|].
  simpl. destruct s as [|d s]; simpl in *.
  - intros H. apply negb_true_iff in H. now rewrite H.
  - intros H. specialize (IH H). rewrite IH. simpl.
    now rewrite andb_false_r.
Qed.

Lemma endsNonSpace_trimStart s :
  endsNonSpace s = true -> s <> "" ->
  endsNonSpace (trimStart s) = true /\ trimStart s <> "".
Proof.
  induction s as [|c s IH]; [congruence|].
  intros H _. simpl. destruct (isWhiteSpace c) eqn:Hc.
  - destruct s as [|d s]; [simpl in H; rewrite Hc in H; discriminate|].
    apply IH; [exact H|discriminate].
  - split; [exact H|discriminate].
Qed.

(** Trimming what does not end in white space cannot empty it. *)
Lemma trim_nonempty s : endsNonSpace s = true -> s <> "" -> trim s <> "".
Proof.
  intros H Hne. destruct (endsNonSpace_trimStart s H Hne) as [H1 H2].
  unfold trim. now rewrite endsNonSpace_trimEnd.
Qed.

Lemma truthy_nonempty s : s <> "" -> truthy s = true.
Proof. destruct s; [congruence|reflexivity]. Qed.

(** A line without trailing white space that starts, up to case, with a
    prefix ending in a space has something after that prefix. *)
Lemma payload_after_prefix p t :
  startsWith (p ++ " ") (toLowerCase t) = true ->
  endsNonSpace t = true ->
  endsNonSpace (slice (String.length (p ++ " ")) t) = true
  /\ slice (String.length (p ++ " ")) t <> "".
Proof.
  revert t; induction p as [|a p IH]; intros [|c t]; simpl; try discriminate.
  - intros H Hend. apply andb_prop in H as [H _].
    apply lowerChar_space in H.
    destruct t as [|d t]; [simpl in Hend; rewrite H in Hend; discriminate|].
    split; [exact Hend|discriminate].
  - intros H Hend. apply andb_prop in H as [_ H].
    destruct t as [|d t].
    + destruct p; discriminate.
    + apply IH; assumption.
Qed.

Lemma payload_truthy p t :
  startsWith (p ++ " ") (toLowerCase t) = true ->
  endsNonSpace t = true ->
  truthy (trim (slice (String.length (p ++ " ")) t)) = true.
Proof.
  intros H Hend. destruct (payload_after_prefix p t H Hend) as [H1 H2].
  apply truthy_nonempty, trim_nonempty; assumption.
Qed.

End JsStringFacts.

(** ** The command parser *)

Module PromptsFacts.
Import JsString JsStringFacts Prompts.

(** C5, as the source has it.  For a line whose trimmed form starts, up to
    case, with [/score ], [/icon ], [/feature ] or [/graphic ] (the prefix
    with its space), [parseCommand] returns that command with the trimmed
    rest of the line as payload, in its original casing, and this payload
    is never empty.  The no-argument forms of icon and feature come from
    the alias table, for a line that is exactly [/icon], [/feature] or
    [/graphic] up to case and surrounding white space.  The score command
    has no such form: [/score] followed only by white space is a chat
    command with message [/score]. *)
Theorem parseCommand_parameterized (input : string) :
  let trimmed := trim input in
  let lowered := toLowerCase trimmed in
  (startsWith "/score " lowered = true ->
     trim (slice 7 trimmed) <> ""
     /\ parseCommand input = Cmd (CScore (trim (slice 7 trimmed))))
  /\ (startsWith "/icon " lowered = true ->
     trim (slice 6 trimmed) <> ""
     /\ parseCommand input = Cmd (CIcon (Some (trim (slice 6 trimmed)))))
  /\ (startsWith "/feature " lowered = true
      \/ startsWith "/graphic " lowered = true ->
     trim (slice 9 trimmed) <> ""
     /\ parseCommand input = Cmd (CFeature (Some (trim (slice 9 trimmed)))))
  /\ (lowered = "/icon" -> parseCommand input = Cmd (CIcon None))
  /\ (lowered = "/feature" \/ lowered = "/graphic" ->
     parseCommand input = Cmd (CFeature None))
  /\ (lowered = "/score" -> parseCommand input = Cmd (CChat trimmed)).
Proof.
  intros trimmed lowered.
  assert (Hend : endsNonSpace trimmed = true) by apply trim_endsNonSpace.
  assert (Hne : forall s, truthy s = true -> s <> "")
    by (intros [|? ?]; [discriminate|congruence]).
  refine (conj _ (conj _ (conj _ (conj _ (conj _ _))))).
  - intros H.
    assert (Ht : truthy (trim (slice 7 trimmed)) = true)
      by exact (payload_truthy "/score" trimmed H Hend).
    split; [now apply Hne|].
    unfold parseCommand. fold trimmed. fold lowered.
    now rewrite H, Ht.
  - intros H.
    assert (Ht : truthy (trim (slice 6 trimmed)) = true)
      by exact (payload_truthy "/icon" trimmed H Hend).
    split; [now apply Hne|].
    destruct (startsWith_app _ _ H) as [r Hr].
    assert (Hs : startsWith "/score " lowered = false)
      by (rewrite Hr; reflexivity).
    unfold parseCommand. fold trimmed. fold lowered.
    rewrite Hs, H. cbn [andb]. unfold orUndefined. now rewrite Ht.
  - intros H.
    assert (Ht : truthy (trim (slice 9 trimmed)) = true).
    { destruct H as [H|H].
      - exact (payload_truthy "/feature" trimmed H Hend).
      - exact (payload_truthy "/graphic" trimmed H Hend). }
    split; [now apply Hne|].
    assert (Hs : startsWith "/score " lowered = false
                 /\ startsWith "/icon " lowered = false).
    { destruct H as [H|H]; destruct (startsWith_app _ _ H) as [r Hr];
        rewrite Hr; split; reflexivity. }
    destruct Hs as [Hs Hi].
    assert (Hfg : startsWith "/feature " lowered
                  || startsWith "/graphic " lowered = true)
      by (destruct H as [H|H]; rewrite H; [reflexivity|apply orb_true_r]).
    unfold parseCommand. fold trimmed. fold lowered.
    rewrite Hs, Hi, Hfg. cbn [andb]. cbv zeta.
    destruct (startsWith "/feature" lowered);
      unfold orUndefined; now rewrite Ht.
  - intros H. unfold parseCommand. fold trimmed. fold lowered.
    rewrite H. reflexivity.
  - intros [H|H]; unfold parseCommand; fold trimmed; fold lowered;
      rewrite H; reflexivity.
  - intros H. unfold parseCommand. fold trimmed. fold lowered.
    rewrite H. cbn [startsWith Ascii.eqb Bool.eqb andb orb].
    change (commandMapGet "/score") with (@None Parsed). cbv iota.
    assert (Ht : truthy trimmed = true)
      by (subst lowered; destruct trimmed; [discriminate|reflexivity]).
    rewrite Ht. cbn [negb].
    match goal with |- (if ?b then _ else _) = _ => destruct b end;
      reflexivity.
Qed.

(** A use of [parseCommand_parameterized] on concrete lines. *)
Lemma parseCommand_parameterized_witness :
  parseCommand "  /Score  Fitness App " = Cmd (CScore "Fitness App")
  /\ parseCommand "/ICON a red Fox" = Cmd (CIcon (Some "a red Fox"))
  /\ parseCommand "/graphic  Sunset " = Cmd (CFeature (Some "Sunset"))
  /\ parseCommand " /Feature" = Cmd (CFeature None)
  /\ parseCommand "/SCORE" = Cmd (CChat "/SCORE").
Proof.
  split; [|split; [|split; [|split]]].
  - apply (parseCommand_parameterized "  /Score  Fitness App ").
    reflexivity.
  - apply (parseCommand_parameterized "/ICON a red Fox"). reflexivity.
  - apply (parseCommand_parameterized "/graphic  Sunset ").
    right; reflexivity.
  - apply (parseCommand_parameterized " /Feature"). left; reflexivity.
  - apply (parseCommand_parameterized "/SCORE"). reflexivity.
Defined.

(** C5 as written fails: [/score] followed only by white space is a chat
    command, and so is a line that starts with [/icon] without a space
    after it. *)
Lemma parseCommand_score_blank_counterexample :
  parseCommand "/score   " = Cmd (CChat "/score")
  /\ parseCommand "/iconfoo" = Cmd (CChat "/iconfoo").
Proof. split; reflexivity. Qed.

End PromptsFacts.

(** ** The response extractor and the exported configuration *)

Module StoreExportFacts.
Import JsString StoreExport.

Lemma collectBody_inBody lines :
  collectBody true lines = List.filter keptLine lines.
Proof.
  induction lines as [|line rest IH]; [reflexivity|].
  simpl. unfold keptLine.
  destruct (isHeadingLine line); simpl; [exact IH|].
  destruct (isCharCountLine line); simpl; [exact IH|].
  now rewrite IH.
Qed.

Lemma collectBody_before lines :
  collectBody false lines = List.filter keptLine (afterFirstHeading lines).
Proof.
  induction lines as [|line rest IH]; [reflexivity|].
  simpl. destruct (isHeadingLine line); [apply collectBody_inBody|].
  destruct (isCharCountLine line); exact IH.
Qed.

Definition heading5 : string := "## Description
short".

Definition heading50 : string := "## Description
Track meals, count calories and reach your goals.!
(Character count: 50)".

(** C6, as the source has it.  [extractDescription] keeps only lines that
    come after the first heading line; of those it drops every heading
    line and every character-count line, joins the rest with newlines and
    trims; the result is absent at 10 characters or fewer.  A heading
    with a 5-character body gives absent, a heading with a 50-character
    body gives that body. *)
Theorem extractDescription_after_first_heading (content : string) :
  extractDescription content =
    (let body :=
       trim (joinLines
               (List.filter keptLine (afterFirstHeading (splitLines content)))) in
     if (10 <? String.length body)%nat then Some body else None)
  /\ extractDescription heading5 = None
  /\ extractDescription heading50 =
       Some "Track meals, count calories and reach your goals.!".
Proof.
  split; [|split; reflexivity].
  unfold extractDescription. now rewrite collectBody_before.
Qed.

(** C6 as written fails: lines before the first heading are not part of
    the body, so a long preamble does not lift a short body over the
    floor, and text without any heading gives absent. *)
Lemma extractDescription_preamble_counterexample :
  extractDescription "Here is the description you asked for:
# Description
short" = None
  /\ extractDescription_spec "Here is the description you asked for:
# Description
short" = Some "Here is the description you asked for:
short"
  /\ extractDescription "A plain paragraph without any heading." = None
  /\ extractDescription_spec "A plain paragraph without any heading."
     = Some "A plain paragraph without any heading.".
Proof. repeat split; reflexivity. Qed.

(** The object [buildStoreConfig] returns carries all six keys, populated
    or not; leaving the others out is the work of [JSON.stringify]. *)
Lemma buildStoreConfig_locale_keys metadata :
  exists info,
    buildStoreConfig metadata =
      JsObject [ ("configVersion", JsNumber 0);
                 ("apple", JsObject [("info", JsObject [("en-US", info)])]) ]
    /\ hasOwn "title" info = true /\ hasOwn "subtitle" info = true
    /\ hasOwn "description" info = true /\ hasOwn "keywords" info = true
    /\ hasOwn "releaseNotes" info = true /\ hasOwn "promoText" info = true.
Proof. eexists; split; [reflexivity|]. repeat split. Qed.

Definition titleAndKeywords : GeneratedMetadata :=
  {| md_title := Some "Snap & Track";
     md_subtitle := None;
     md_description := None;
     md_keywords := Some ["fitness"; "tracker"];
     md_releaseNotes := None;
     md_promoText := None;
     md_iconPath := None;
     md_featureGraphicPath := None |}.

(** C7.  The exported document has [configVersion] 0 and, at
    [apple.info["en-US"]], an object whose keys are exactly the populated
    fields of the accumulator, none of them [null]; with only title and
    keywords set, these two are its only keys. *)
Theorem exportedJson_only_populated (metadata : GeneratedMetadata) :
  (exists fields,
     exportedJson metadata =
       Some (JObject
               [ ("configVersion", JNumber 0);
                 ("apple",
                  JObject [("info", JObject [("en-US", JObject fields)])]) ])
     /\ (forall k, is_Some (member k fields) <-> populated k metadata = true)
     /\ (forall k, member k fields <> Some JNull))
  /\ localeInfo (exportedJson titleAndKeywords) =
       Some (JObject [ ("title", JString "Snap & Track");
                       ("keywords",
                        JArray [JString "fitness"; JString "tracker"]) ]).
Proof.
  split; [|reflexivity].
  destruct metadata as [t st d kw rn pt ip fg].
  destruct t, st, d, kw, rn, pt;
    match goal with
    | |- exists _, ?doc = _ /\ _ =>
        let j := fresh "j" in
        set (j := doc); cbv in j; subst j
    end;
    eexists; (split; [reflexivity|]);
    (split; intros k; unfold populated, defined; cbn [member md_title
       md_subtitle md_description md_keywords md_releaseNotes md_promoText];
     repeat match goal with
       | |- context [String.eqb ?a k] =>
           destruct (String.eqb_spec a k);
           [subst k; cbn [String.eqb Ascii.eqb Bool.eqb]|]
       end).
  all: try discriminate.
  all: try (split; [intros _; reflexivity | intros _; eexists; reflexivity]).
  all: try (split; [intros [? ?]; discriminate | discriminate]).
Qed.

End StoreExportFacts.

(** ** The competitor look-up *)

Module AppStoreFacts.
Import JsString AppStore.

(** A string of digits contains no text that starts with a non-digit. *)
Lemma allDigits_includes c needle s :
  isDigit c = false -> allDigits s = true ->
  includes (String c needle) s = false.
Proof.
  intros Hc. induction s as [|d s IH]; [reflexivity|].
  simpl. intros H. apply andb_prop in H as [Hd Hs].
  rewrite (IH Hs), orb_false_r.
  destruct (Ascii.eqb_spec c d) as [->|]; [congruence|reflexivity].
Qed.

Lemma storeUrl_not_bareId url :
  includes "apps.apple.com" url || includes "itunes.apple.com" url = true ->
  isBareId url = false.
Proof.
  intros H. unfold isBareId.
  destruct (allDigits url) eqn:Hd; [|reflexivity].
  rewrite !allDigits_includes in H by (assumption || reflexivity).
  discriminate.
Qed.

(** C10.  [isAppStoreUrl] can accept a string from which no id can be
    taken: every string that contains [apps.apple.com] or
    [itunes.apple.com] but no [/id] followed by a digit is accepted while
    [extractAppStoreId] gives nothing, and whenever [extractAppStoreId]
    gives nothing, [fetchAppStoreMetadata] answers nothing without making
    a request. *)
Theorem isAppStoreUrl_without_id :
  (forall url,
     includes "apps.apple.com" url || includes "itunes.apple.com" url = true ->
     matchSlashId url = None ->
     isAppStoreUrl url = true /\ extractAppStoreId url = None)
  /\ (forall (Metadata : Type) (fetch : string -> FetchOutcome Metadata) url,
        extractAppStoreId url = None ->
        fetchAppStoreMetadata Metadata fetch url = (None, [])).
Proof.
  split.
  - intros url H Hid. split.
    + unfold isAppStoreUrl. now rewrite H.
    + unfold extractAppStoreId. now rewrite Hid, storeUrl_not_bareId.
  - intros Metadata fetch url H. unfold fetchAppStoreMetadata. now rewrite H.
Qed.

(** A use of [isAppStoreUrl_without_id] on a store page address without
    id, with a look-up service that would answer any request. *)
Lemma isAppStoreUrl_without_id_witness :
  isAppStoreUrl "https://apps.apple.com/us/app/snap-track" = true
  /\ extractAppStoreId "https://apps.apple.com/us/app/snap-track" = None
  /\ fetchAppStoreMetadata nat
       (fun _ => Response nat true
                   (Some {| resultCount := 1; results := [7] |}))
       "https://apps.apple.com/us/app/snap-track" = (None, []).
Proof.
  destruct isAppStoreUrl_without_id as [H1 H2].
  destruct (H1 "https://apps.apple.com/us/app/snap-track") as [Ha Hb];
    [reflexivity|reflexivity|].
  split; [exact Ha|split; [exact Hb|]].
  apply H2. exact Hb.
Defined.

End AppStoreFacts.

(** ** The double-interrupt protocol *)

Module CtrlCFacts.
Import CtrlC.
Local Open Scope Z_scope.

Lemma shouldExitOnCtrlC_iff now last :
  fst (shouldExitOnCtrlC now last) = true
  <-> now - last < DOUBLE_CTRL_C_WINDOW_MS.
Proof.
  unfold shouldExitOnCtrlC.
  destruct (Z.ltb_spec (now - last) DOUBLE_CTRL_C_WINDOW_MS); simpl;
    split; intros; try assumption; try reflexivity; try discriminate; lia.
Qed.

(** C8.  With a clock that reads at least one second past its origin, the
    first interrupt of the process prints the press-again hint, does not
    exit and arms the window at its own time.  After an interrupt at
    [t1], an interrupt at [t2] less than 1000 ms later prints the
    goodbye, runs the clean-up and exits with code 0; one more than
    1000 ms later prints the hint again, does not exit and arms the
    window at [t2]. *)
Theorem double_interrupt_protocol (t1 t2 : Z) :
  DOUBLE_CTRL_C_WINDOW_MS <= t1 ->
  handleCtrlC true t1 initialLastCtrlCTime
    = ([ConsoleLogBlank; PrintPressAgain], t1)
  /\ (t2 - t1 < 1000 ->
      handleCtrlC true t2 t1
        = ([ConsoleLogBlank; PrintGoodbye; ServiceCleanup; ProcessExit 0], t1)
      /\ interrupts true [t1; t2] initialLastCtrlCTime
        = [ConsoleLogBlank; PrintPressAgain;
           ConsoleLogBlank; PrintGoodbye; ServiceCleanup; ProcessExit 0])
  /\ (1000 < t2 - t1 ->
      handleCtrlC true t2 t1 = ([ConsoleLogBlank; PrintPressAgain], t2)
      /\ exits (interrupts true [t1; t2] initialLastCtrlCTime) = false).
Proof.
  intros Hclock.
  assert (H1 : handleCtrlC true t1 initialLastCtrlCTime
               = ([ConsoleLogBlank; PrintPressAgain], t1)).
  { unfold handleCtrlC, shouldExitOnCtrlC, initialLastCtrlCTime.
    destruct (Z.ltb_spec (t1 - 0) DOUBLE_CTRL_C_WINDOW_MS); [lia|reflexivity]. }
  split; [exact H1|split]; intros H.
  - assert (H2 : handleCtrlC true t2 t1
                 = ([ConsoleLogBlank; PrintGoodbye; ServiceCleanup;
                     ProcessExit 0], t1)).
    { unfold handleCtrlC, shouldExitOnCtrlC, DOUBLE_CTRL_C_WINDOW_MS.
      destruct (Z.ltb_spec (t2 - t1) 1000); [reflexivity|lia]. }
    split; [exact H2|].
    cbn [interrupts]. rewrite H1. cbn [exits existsb orb].
    rewrite H2. reflexivity.
  - assert (H2 : handleCtrlC true t2 t1
                 = ([ConsoleLogBlank; PrintPressAgain], t2)).
    { unfold handleCtrlC, shouldExitOnCtrlC, DOUBLE_CTRL_C_WINDOW_MS.
      destruct (Z.ltb_spec (t2 - t1) 1000); [lia|reflexivity]. }
    split; [exact H2|].
    cbn [interrupts]. rewrite H1. cbn [exits existsb orb].
    rewrite H2. reflexivity.
Qed.

(** A use of [double_interrupt_protocol]: two interrupts half a second
    apart, and two interrupts a second and a half apart. *)
Lemma double_interrupt_protocol_witness :
  interrupts true [1700000000000; 1700000000500] initialLastCtrlCTime
    = [ConsoleLogBlank; PrintPressAgain;
       ConsoleLogBlank; PrintGoodbye; ServiceCleanup; ProcessExit 0]
  /\ exits (interrupts true [1700000000000; 1700000001500]
                       initialLastCtrlCTime) = false.
Proof.
  split.
  - apply (double_interrupt_protocol 1700000000000 1700000000500);
      [unfold DOUBLE_CTRL_C_WINDOW_MS; lia | lia].
  - apply (double_interrupt_protocol 1700000000000 1700000001500);
      [unfold DOUBLE_CTRL_C_WINDOW_MS; lia | lia].
Defined.

End CtrlCFacts.

(** ** The session manager *)

Module CopilotFacts.
Import JsString Prompts Copilot.

(** The text of the message deltas of an event sequence, in order. *)
Fixpoint deltaText (events : list SessionEvent) : string :=
  match events with
  | [] => ""
  | assistant_message_delta (Some deltaContent) :: rest =>
      deltaContent ++ deltaText rest
  | _ :: rest => deltaText rest
  end.

(** The events that settle a request. *)
Definition isTerminal (event : SessionEvent) : bool :=
  match event with
  | session_idle | session_error _ => true
  | _ => false
  end.

Definition noTerminal (events : list SessionEvent) : bool :=
  forallb (fun event => negb (isTerminal event)) events.

Lemma append_cons c (s t : string) : String c s ++ t = String c (s ++ t).
Proof. reflexivity. Qed.

Lemma append_empty_r (s : string) : s ++ "" = s.
Proof.
  induction s as [|c s IH]; [reflexivity|].
  now rewrite append_cons, IH.
Qed.

Lemma append_assoc' (a b c : string) : (a ++ b) ++ c = a ++ (b ++ c).
Proof.
  induction a as [|x a IH]; [reflexivity|].
  now rewrite !append_cons, IH.
Qed.

Section ServiceFacts.
Context {AppInfo : Type}.
Variable getContentPrompt : ContentType -> AppInfo -> string.
Variable SYSTEM_PROMPT_ASO : string.
Variable sdk : Sdk.

Local Abbreviation Service := (@CopilotService AppInfo).

(** Everything of a service but its spinner and its quota snapshot. *)
Definition sameCore (a b : Service) : Prop :=
  client a = client b /\ session a = session b /\ appInfo a = appInfo b
  /\ generatedContent a = generatedContent b
  /\ currentModel a = currentModel b /\ calls a = calls b.

Lemma sameCore_refl a : sameCore a a.
Proof. repeat split. Qed.

Lemma sameCore_trans a b c : sameCore a b -> sameCore b c -> sameCore a c.
Proof.
  unfold sameCore. intros (?&?&?&?&?&?) (?&?&?&?&?&?).
  repeat split; congruence.
Qed.

Lemma onEvent_sameCore ct event h (s : Service) :
  sameCore (snd (onEvent ct event (h, s))) s.
Proof.
  destruct event as [[d|]|[n|]|[[|]|]|[[|[k q] l]|] m| |[m|]|t]; simpl;
    try apply sameCore_refl.
  - destruct (truthy d); [|apply sameCore_refl].
    simpl. destruct (isGeneratingContent h);
      destruct (3 <? _)%nat; repeat split.
  - repeat split.
  - repeat split.
  - destruct (truthy k); repeat split.
Qed.

Lemma deliver_cons ct event events (hs : StreamState * Service) :
  deliver ct (event :: events) hs = deliver ct events (onEvent ct event hs).
Proof. reflexivity. Qed.

Lemma deliver_app ct pre post (hs : StreamState * Service) :
  deliver ct (pre ++ post)%list hs = deliver ct post (deliver ct pre hs).
Proof. apply fold_left_app. Qed.

Lemma deliver_sameCore ct events h (s : Service) :
  sameCore (snd (deliver ct events (h, s))) s.
Proof.
  revert h s; induction events as [|e es IH]; intros h s.
  - apply sameCore_refl.
  - rewrite deliver_cons.
    destruct (onEvent ct e (h, s)) as [h' s'] eqn:He.
    eapply sameCore_trans; [apply IH|].
    change s' with (snd (h', s')). rewrite <- He. apply onEvent_sameCore.
Qed.

(** The buffer after one event. *)
Lemma onEvent_output ct event h (s : Service) :
  output (fst (onEvent ct event (h, s))) = output h ++ deltaText [event].
Proof.
  destruct event as [[d|]|[n|]|[[|]|]|[l|] m| |[m|]|t]; simpl;
    try (now rewrite append_empty_r).
  - destruct (truthy d) eqn:Hd; simpl; [now rewrite append_empty_r|].
    destruct d; [now rewrite !append_empty_r|discriminate].
  - unfold settle. destruct (done h); simpl; now rewrite append_empty_r.
  - unfold settle. destruct (done h); simpl; now rewrite append_empty_r.
  - unfold settle. destruct (done h); simpl; now rewrite append_empty_r.
Qed.

Lemma deltaText_cons event events :
  deltaText (event :: events) = deltaText [event] ++ deltaText events.
Proof.
  destruct event as [[d|]|?|?|? ?| |?|?]; simpl; try reflexivity.
  now rewrite append_empty_r.
Qed.

Lemma deliver_output ct events h (s : Service) :
  output (fst (deliver ct events (h, s))) = output h ++ deltaText events.
Proof.
  revert h s; induction events as [|e es IH]; intros h s.
  - simpl. now rewrite append_empty_r.
  - rewrite deliver_cons, (deltaText_cons e es), <- append_assoc'.
    destruct (onEvent ct e (h, s)) as [h' s'] eqn:He.
    rewrite IH. f_equal.
    change h' with (fst (h', s')). rewrite <- He. apply onEvent_output.
Qed.

(** A settled promise stays as it is. *)
Lemma onEvent_settled ct event h (s : Service) :
  done h <> Pending -> done (fst (onEvent ct event (h, s))) = done h.
Proof.
  intros Hd.
  destruct event as [[d|]|[n|]|[[|]|]|[l|] m| |[m|]|t]; simpl;
    try reflexivity.
  - destruct (truthy d); reflexivity.
  - unfold settle. destruct (done h) eqn:E; simpl; congruence.
  - unfold settle. destruct (done h) eqn:E; simpl; congruence.
  - unfold settle. destruct (done h) eqn:E; simpl; congruence.
Qed.

Lemma deliver_settled ct events h (s : Service) :
  done h <> Pending -> done (fst (deliver ct events (h, s))) = done h.
Proof.
  revert h s; induction events as [|e es IH]; intros h s Hd; [reflexivity|].
  rewrite deliver_cons.
  destruct (onEvent ct e (h, s)) as [h' s'] eqn:He.
  assert (H' : done h' = done h).
  { change h' with (fst (h', s')). rewrite <- He. now apply onEvent_settled. }
  rewrite IH; congruence.
Qed.

(** Events other than idle and error leave the promise alone. *)
Lemma onEvent_not_terminal ct event h (s : Service) :
  isTerminal event = false -> done (fst (onEvent ct event (h, s))) = done h.
Proof.
  destruct event as [[d|]|[n|]|[[|]|]|[l|] m| |[m|]|t]; simpl;
    try reflexivity; try discriminate.
  intros _. destruct (truthy d); reflexivity.
Qed.

Lemma deliver_noTerminal ct events h (s : Service) :
  noTerminal events = true -> done (fst (deliver ct events (h, s))) = done h.
Proof.
  revert h s; induction events as [|e es IH]; intros h s H; [reflexivity|].
  simpl in H. apply andb_prop in H as [He Hes].
  apply negb_true_iff in He.
  rewrite deliver_cons.
  destruct (onEvent ct e (h, s)) as [h' s'] eqn:Hon.
  rewrite IH by assumption.
  change h' with (fst (h', s')). rewrite <- Hon. now apply onEvent_not_terminal.
Qed.

(** The promise after a sequence whose first terminal event is [event]. *)
Lemma deliver_first_terminal ct pre event post h (s : Service) p :
  noTerminal pre = true -> done h = Pending ->
  (forall h' (s' : Service), done h' = Pending ->
     done (fst (onEvent ct event (h', s'))) = p) ->
  p <> Pending ->
  done (fst (deliver ct (pre ++ event :: post) (h, s))) = p.
Proof.
  intros Hpre Hh Hev Hp.
  rewrite deliver_app, deliver_cons.
  destruct (deliver ct pre (h, s)) as [h1 s1] eqn:H1.
  assert (Hd1 : done h1 = Pending).
  { change h1 with (fst (h1, s1)). rewrite <- H1.
    now rewrite deliver_noTerminal. }
  destruct (onEvent ct event (h1, s1)) as [h2 s2] eqn:H2.
  assert (Hd2 : done h2 = p).
  { change h2 with (fst (h2, s2)). rewrite <- H2. now apply Hev. }
  rewrite deliver_settled; congruence.
Qed.

(** *** One call of [generate] that reaches the backend *)

Definition resolvedWith (ct : ContentType) (text : string)
  (cache0 : gmap ContentType string) (s2 : Service)
  : option GenerationResult * Service :=
  (Some {| content := cleanOutput text; success := true; error := None |},
   spin (SpinSucceed (TextSuccess ct))
        (setGeneratedContent (<[ct := cleanOutput text]> cache0) s2)).

Definition rejectedWith (ct : ContentType) (message : string) (s2 : Service)
  : option GenerationResult * Service :=
  (Some {| content := ""; success := false; error := Some message |},
   spin (SpinFail (TextFailedToGenerate ct)) s2).

(** When nothing usable is cached or [regenerate] is set, [generate]
    sends the prompt once and ends as the stream ends. *)
Lemma generate_issued ct regenerate (s : Service) x :
  session s = Some x ->
  regenerate = true \/ cachedTruthy ct s = None ->
  let cache0 := if regenerate then delete ct (generatedContent s)
                else generatedContent s in
  let prompt := getContentPrompt ct (appInfo s) in
  let reply := sdk_send sdk (calls s) prompt in
  exists s1 h s2,
    deliver ct (delivered reply) (streamStart, s1) = (h, s2)
    /\ generatedContent s2 = cache0
    /\ calls s2 = (calls s ++ [CallSend prompt])%list
    /\ session s2 = session s /\ appInfo s2 = appInfo s
    /\ generate getContentPrompt sdk ct regenerate s =
         match send_outcome reply with
         | Throws message => rejectedWith ct message s2
         | Returns _ =>
             match done h with
             | Fulfilled => resolvedWith ct (output h) cache0 s2
             | Rejected message => rejectedWith ct message s2
             | Pending => (None, s2)
             end
         end.
Proof.
  intros Hsess Hreq cache0 prompt reply.
  set (s' := if regenerate
             then setGeneratedContent (delete ct (generatedContent s)) s
             else s).
  assert (Hs' : session s' = Some x /\ appInfo s' = appInfo s
                /\ calls s' = calls s /\ generatedContent s' = cache0).
  { subst s' cache0. destruct regenerate; repeat split; assumption. }
  destruct Hs' as (Hx & Hinfo & Hcalls & Hcache).
  set (s1 := called (CallSend prompt) (spin (SpinStart (TextSpinner ct)) s')).
  destruct (deliver ct (delivered reply) (streamStart, s1)) as [h s2] eqn:Hd.
  exists s1, h, s2.
  pose proof (deliver_sameCore ct (delivered reply) streamStart s1) as Hcore.
  rewrite Hd in Hcore. destruct Hcore as (_ & Hc2 & Hc3 & Hc4 & _ & Hc6).
  simpl in Hc2, Hc3, Hc4, Hc6.
  split; [exact Hd|].
  split; [congruence|].
  split; [rewrite Hc6, Hcalls; reflexivity|].
  split; [congruence|].
  split; [congruence|].
  assert (Hgen : generate getContentPrompt sdk ct regenerate s =
            match streamGeneration sdk (getContentPrompt ct (appInfo s')) ct
                    (spin (SpinStart (TextSpinner ct)) s') with
            | (StreamResolved text, s2) =>
                resolvedWith ct text (generatedContent s2) s2
            | (StreamRejected message, s2) => rejectedWith ct message s2
            | (StreamPending, s2) => (None, s2)
            end).
  { unfold generate. fold s'.
    destruct regenerate.
    - destruct (cachedTruthy ct s'); reflexivity.
    - destruct Hreq as [Hreq|Hreq]; [discriminate|].
      subst s'. rewrite Hreq. reflexivity. }
  rewrite Hgen. unfold streamGeneration.
  replace (session (spin (SpinStart (TextSpinner ct)) s')) with (Some x)
    by (symmetry; exact Hx).
  replace (calls (spin (SpinStart (TextSpinner ct)) s')) with (calls s)
    by (symmetry; exact Hcalls).
  rewrite Hinfo. fold prompt. fold reply. fold s1. rewrite Hd.
  destruct (send_outcome reply); [|reflexivity].
  destruct (done h); try reflexivity.
  unfold resolvedWith. rewrite Hc4, Hcache. reflexivity.
Qed.

Lemma generate_issued_calls ct regenerate (s : Service) x :
  session s = Some x ->
  regenerate = true \/ cachedTruthy ct s = None ->
  let s' := snd (generate getContentPrompt sdk ct regenerate s) in
  calls s' = (calls s ++ [CallSend (getContentPrompt ct (appInfo s))])%list
  /\ session s' = session s /\ appInfo s' = appInfo s.
Proof.
  intros Hx Hreq.
  destruct (generate_issued ct regenerate s x Hx Hreq)
    as (s1 & h & s2 & _ & _ & Hcalls & Hsess & Hinfo & Hgen).
  cbv zeta. rewrite Hgen.
  destruct (send_outcome _); [destruct (done h)|]; simpl; auto.
Qed.

Lemma sentPrompts_calls (a b : Service) prompt :
  calls b = (calls a ++ [CallSend prompt])%list ->
  sentPrompts b = (sentPrompts a ++ [prompt])%list.
Proof. intros H. unfold sentPrompts. now rewrite H, omap_app. Qed.

Lemma deltaText_app pre post :
  deltaText (pre ++ post)%list = deltaText pre ++ deltaText post.
Proof.
  induction pre as [|e pre IH]; [reflexivity|].
  rewrite <- app_comm_cons, deltaText_cons, (deltaText_cons e pre), IH.
  symmetry. apply append_assoc'.
Qed.

(** *** The streamed request *)

(** C1.  While events are delivered, the buffer is the text of the
    message deltas in arrival order, whatever else arrives in between;
    tool-execution events leave it as it is; when the first terminal
    event is idle the request resolves with the buffer; and the sequence
    delta A, delta B, tool start, tool complete, delta C, idle resolves
    with exactly "ABC". *)
Theorem stream_buffer_in_arrival_order :
  (forall ct events h (s : Service),
     output (fst (deliver ct events (h, s))) = output h ++ deltaText events)
  /\ (forall ct name ok h (s : Service),
        output (fst (onEvent ct (tool_execution_start name) (h, s)))
          = output h
        /\ output (fst (onEvent ct (tool_execution_complete ok) (h, s)))
          = output h)
  /\ (forall prompt ct (s : Service) x pre post,
        session s = Some x ->
        send_outcome (sdk_send sdk (calls s) prompt) = Returns tt ->
        delivered (sdk_send sdk (calls s) prompt)
          = (pre ++ session_idle :: post)%list ->
        noTerminal pre = true ->
        fst (streamGeneration sdk prompt ct s)
          = StreamResolved (deltaText (pre ++ post)))
  /\ (forall prompt ct (s : Service) x name ok,
        session s = Some x ->
        sdk_send sdk (calls s) prompt
          = {| send_outcome := Returns tt;
               delivered := [ assistant_message_delta (Some "A");
                              assistant_message_delta (Some "B");
                              tool_execution_start name;
                              tool_execution_complete ok;
                              assistant_message_delta (Some "C");
                              session_idle ] |} ->
        fst (streamGeneration sdk prompt ct s) = StreamResolved "ABC").
Proof.
  assert (Hidle : forall prompt ct (s : Service) x pre post,
        session s = Some x ->
        send_outcome (sdk_send sdk (calls s) prompt) = Returns tt ->
        delivered (sdk_send sdk (calls s) prompt)
          = (pre ++ session_idle :: post)%list ->
        noTerminal pre = true ->
        fst (streamGeneration sdk prompt ct s)
          = StreamResolved (deltaText (pre ++ post))).
  { intros prompt ct s x pre post Hx Hsend Hev Hpre.
    unfold streamGeneration. rewrite Hx, Hsend, Hev.
    destruct (deliver ct (pre ++ session_idle :: post)
                (streamStart, called (CallSend prompt) s)) as [h s'] eqn:Hd.
    assert (Hdone : done h = Fulfilled).
    { change h with (fst (h, s')). rewrite <- Hd.
      apply deliver_first_terminal; try assumption; try reflexivity;
        [|discriminate].
      intros h' s'' Hp. simpl. unfold settle. now rewrite Hp. }
    assert (Hout : output h = deltaText (pre ++ post)).
    { change h with (fst (h, s')). rewrite <- Hd, deliver_output.
      rewrite !deltaText_app. reflexivity. }
    rewrite Hdone, Hout. reflexivity. }
  split; [apply deliver_output|].
  split.
  - intros ct name ok h s.
    rewrite !onEvent_output.
    destruct name, ok; simpl; now rewrite append_empty_r.
  - split; [exact Hidle|].
    intros prompt ct s x name ok Hx Hreply.
    apply (Hidle prompt ct s x
             [ assistant_message_delta (Some "A");
               assistant_message_delta (Some "B");
               tool_execution_start name;
               tool_execution_complete ok;
               assistant_message_delta (Some "C") ] []);
      try assumption; try rewrite Hreply; reflexivity.
Qed.

(** C2.  When the first terminal event of a request is an error event
    that carries a message, the stream rejects with that message; and a
    [generate] call that issued this request returns the failure with
    that message and empty content, and writes nothing to the cache, so a
    kind without an entry before the call has none after it. *)
Theorem generate_error_event_rejects ct regenerate (s : Service) x
    pre post message :
  session s = Some x ->
  regenerate = true \/ cachedTruthy ct s = None ->
  send_outcome (sdk_send sdk (calls s) (getContentPrompt ct (appInfo s)))
    = Returns tt ->
  delivered (sdk_send sdk (calls s) (getContentPrompt ct (appInfo s)))
    = (pre ++ session_error (Some message) :: post)%list ->
  noTerminal pre = true ->
  fst (streamGeneration sdk (getContentPrompt ct (appInfo s)) ct s)
    = StreamRejected message
  /\ fst (generate getContentPrompt sdk ct regenerate s)
     = Some {| content := ""; success := false; error := Some message |}
  /\ generatedContent (snd (generate getContentPrompt sdk ct regenerate s))
     = (if regenerate then delete ct (generatedContent s)
        else generatedContent s)
  /\ (generatedContent s !! ct = None ->
      generatedContent (snd (generate getContentPrompt sdk ct regenerate s))
        !! ct = None).
Proof.
  intros Hx Hreq Hsend Hev Hpre.
  assert (Hrej : forall h (s1 s2 : Service),
            deliver ct (pre ++ session_error (Some message) :: post)
              (streamStart, s1) = (h, s2) ->
            done h = Rejected message).
  { intros h s1 s2 Hd. change h with (fst (h, s2)). rewrite <- Hd.
    apply deliver_first_terminal; try assumption; try reflexivity;
      [|discriminate].
    intros h' s'' Hp. simpl. unfold settle. now rewrite Hp. }
  split.
  { unfold streamGeneration. rewrite Hx, Hsend, Hev.
    destruct (deliver ct _ _) as [h s'] eqn:Hd.
    now rewrite (Hrej _ _ _ Hd). }
  destruct (generate_issued ct regenerate s x Hx Hreq)
    as (s1 & h & s2 & Hd & Hcache & _ & _ & _ & Hgen).
  rewrite Hsend, Hev in *. rewrite (Hrej _ _ _ Hd) in Hgen.
  rewrite Hgen. unfold rejectedWith. simpl.
  split; [reflexivity|]. split; [exact Hcache|].
  intros Hnone. rewrite Hcache.
  destruct regenerate; [apply lookup_delete_eq|exact Hnone].
Qed.

(** C4, as the source has it.  If nothing non-empty is cached for a kind
    and a first [generate] without [regenerate] succeeds with non-empty
    text, then a second such call returns the same result and leaves the
    service as it is, so that the two calls send exactly one prompt. *)
Theorem generate_twice_one_request ct (s s1 : Service) r1 :
  cachedTruthy ct s = None ->
  generate getContentPrompt sdk ct false s = (Some r1, s1) ->
  success r1 = true ->
  content r1 <> "" ->
  generate getContentPrompt sdk ct false s1 = (Some r1, s1)
  /\ sentPrompts (snd (generate getContentPrompt sdk ct false s1))
     = (sentPrompts s ++ [getContentPrompt ct (appInfo s)])%list.
Proof.
  intros Hnone Hgen Hok Hne.
  destruct (session s) as [x|] eqn:Hx.
  2:{ unfold generate in Hgen. rewrite Hnone in Hgen.
      unfold streamGeneration in Hgen. simpl in Hgen. rewrite Hx in Hgen.
      inversion Hgen; subst. discriminate. }
  destruct (generate_issued ct false s x Hx (or_intror Hnone))
    as (s0 & h & s2 & Hd & Hcache & Hcalls & _ & _ & Hgen').
  rewrite Hgen in Hgen'.
  assert (Hres : (Some r1, s1) = resolvedWith ct (output h) (generatedContent s) s2).
  { destruct (send_outcome _); [destruct (done h)|];
      try exact Hgen'; inversion Hgen'; subst; discriminate. }
  unfold resolvedWith in Hres. inversion Hres; subst r1 s1. clear Hres.
  simpl in Hne.
  assert (H2 : generate getContentPrompt sdk ct false
                 (spin (SpinSucceed (TextSuccess ct))
                    (setGeneratedContent
                       (<[ct:=cleanOutput (output h)]> (generatedContent s)) s2))
               = (Some {| content := cleanOutput (output h); success := true;
                          error := None |},
                  spin (SpinSucceed (TextSuccess ct))
                    (setGeneratedContent
                       (<[ct:=cleanOutput (output h)]> (generatedContent s)) s2))).
  { unfold generate, cachedTruthy. simpl. rewrite lookup_insert_eq.
    rewrite (JsStringFacts.truthy_nonempty _ Hne). reflexivity. }
  split; [exact H2|].
  rewrite H2. simpl. apply sentPrompts_calls. exact Hcalls.
Qed.

(** C9.  [generate] with [regenerate] drops the cache entry of the kind
    before it sends the prompt: the entry is gone while the request is
    pending, and it stays gone when the request fails.  After such a
    failure a call without [regenerate] finds nothing cached and sends
    the prompt again. *)
Theorem regenerate_failure_loses_cache ct (s : Service) x :
  session s = Some x ->
  let first := generate getContentPrompt sdk ct true s in
  (fst first = None ->
   generatedContent (snd first) = delete ct (generatedContent s))
  /\ (forall r, fst first = Some r -> success r = false ->
      generatedContent (snd first) = delete ct (generatedContent s)
      /\ generatedContent (snd first) !! ct = None
      /\ sentPrompts (snd first)
         = (sentPrompts s ++ [getContentPrompt ct (appInfo s)])%list
      /\ sentPrompts (snd (generate getContentPrompt sdk ct false (snd first)))
         = (sentPrompts (snd first)
              ++ [getContentPrompt ct (appInfo (snd first))])%list).
Proof.
  intros Hx first.
  destruct (generate_issued ct true s x Hx (or_introl eq_refl))
    as (s0 & h & s2 & Hd & Hcache & Hcalls & Hsess & Hinfo & Hgen).
  fold first in Hgen.
  assert (Hfail : forall s' : Service,
            generatedContent s' = delete ct (generatedContent s) ->
            session s' = session s ->
            calls s' = (calls s ++ [CallSend (getContentPrompt ct (appInfo s))])%list ->
            generatedContent s' = delete ct (generatedContent s)
            /\ generatedContent s' !! ct = None
            /\ sentPrompts s'
               = (sentPrompts s ++ [getContentPrompt ct (appInfo s)])%list
            /\ sentPrompts (snd (generate getContentPrompt sdk ct false s'))
               = (sentPrompts s' ++ [getContentPrompt ct (appInfo s')])%list).
  { intros s' Hc Hs Hk.
    assert (Hlook : generatedContent s' !! ct = None)
      by (rewrite Hc; apply lookup_delete_eq).
    split; [exact Hc|]. split; [exact Hlook|].
    split; [now apply sentPrompts_calls|].
    apply sentPrompts_calls.
    apply (generate_issued_calls ct false s' x); [congruence|].
    right. unfold cachedTruthy. now rewrite Hlook. }
  rewrite Hgen. split.
  - destruct (send_outcome _); [destruct (done h)|]; simpl;
      try discriminate. intros _. exact Hcache.
  - intros r Hr Hf.
    destruct (send_outcome _); [destruct (done h)|].
    + discriminate.
    + unfold resolvedWith in Hr. cbn [fst] in Hr.
      inversion Hr; subst r. discriminate.
    + unfold rejectedWith. cbn [snd]. apply Hfail; simpl; assumption.
    + unfold rejectedWith. cbn [snd]. apply Hfail; simpl; assumption.
Qed.

(** *** Switching the model *)

(** The configuration both [initialize] and [switchModel] pass to
    [createSession], up to the model. *)
Definition withModel (model : ModelId) (config : SessionConfig)
  : SessionConfig :=
  {| cfg_model := model;
     cfg_streaming := cfg_streaming config;
     cfg_mcpServers := cfg_mcpServers config;
     cfg_systemMessage := cfg_systemMessage config |}.

Definition switchConfig (newModel : ModelId) : SessionConfig :=
  {| cfg_model := newModel;
     cfg_streaming := true;
     cfg_mcpServers := MCP_SERVERS;
     cfg_systemMessage :=
       {| sm_mode := "append"; sm_content := SYSTEM_PROMPT_ASO |} |}.

Lemma initialize_session_config (s0 : Service) x0 :
  fst (initialize SYSTEM_PROMPT_ASO sdk s0) = Returns tt ->
  session (snd (initialize SYSTEM_PROMPT_ASO sdk s0)) = Some x0 ->
  session_config x0 = switchConfig (currentModel s0)
  /\ session_destroyed x0 = false.
Proof.
  unfold initialize.
  destruct (sdk_start sdk _); [|discriminate].
  destruct (sdk_getAuthStatus sdk _) as [[|]|]; try discriminate.
  destruct (sdk_createSession sdk _ _); [|discriminate].
  simpl. intros _ H. inversion H; subst x0. split; reflexivity.
Qed.

Lemma destroyBestEffort_facts (s : Service) :
  let s' := destroyBestEffort sdk s in
  client s' = client s /\ currentModel s' = currentModel s
  /\ calls s' = (calls s ++ match session s with
                            | Some _ => [CallDestroy]
                            | None => []
                            end)%list
  /\ session s' = match session s with
                  | None => None
                  | Some old =>
                      match sdk_destroy sdk (calls s) old with
                      | Returns _ => Some (destroyed old)
                      | Throws _ => Some old
                      end
                  end.
Proof.
  unfold destroyBestEffort.
  destruct (session s) as [old|] eqn:Hs; simpl.
  - destruct (sdk_destroy sdk (calls s) old); simpl; rewrite ?Hs; auto.
  - rewrite app_nil_r, Hs. auto.
Qed.

(** C3, as the source has it.  For a new model different from the
    current one, on an initialized service: the old session, if any, is
    destroyed first and whether that call throws makes no difference to
    what follows; the current-model state is set to the new model before
    the new session is asked for; then [createSession] is called with the
    configuration of [initialize] at the new model.  If it returns, the
    new live session is stored.  If it throws, the error goes to the
    caller, the current-model state holds the new model already, and the
    manager keeps the old session object, which is not live once its
    [destroy] has returned. *)
Theorem switchModel_sets_model_before_create newModel (s : Service) c :
  newModel <> currentModel s ->
  client s = Some c ->
  let r := switchModel SYSTEM_PROMPT_ASO sdk newModel s in
  let afterDestroy :=
    (calls s ++ match session s with
                | Some _ => [CallDestroy]
                | None => []
                end)%list in
  let kept :=
    match session s with
    | None => None
    | Some old =>
        match sdk_destroy sdk (calls s) old with
        | Returns _ => Some (destroyed old)
        | Throws _ => Some old
        end
    end in
  currentModel (snd r) = newModel
  /\ calls (snd r)
     = (afterDestroy ++ [CallCreateSession (switchConfig newModel)])%list
  /\ (forall (s0 : Service) x0,
        fst (initialize SYSTEM_PROMPT_ASO sdk s0) = Returns tt ->
        session (snd (initialize SYSTEM_PROMPT_ASO sdk s0)) = Some x0 ->
        switchConfig newModel = withModel newModel (session_config x0))
  /\ match sdk_createSession sdk afterDestroy (switchConfig newModel) with
     | Returns _ =>
         fst r = Returns tt
         /\ session (snd r)
            = Some {| session_config := switchConfig newModel;
                      session_destroyed := false |}
         /\ hasLiveSession (snd r) = true
     | Throws message =>
         fst r = Throws message
         /\ session (snd r) = kept
         /\ ((forall old, session s = Some old ->
                exists u, sdk_destroy sdk (calls s) old = Returns u) ->
             hasLiveSession (snd r) = false)
     end.
Proof.
  intros Hne Hc r afterDestroy kept.
  apply String.eqb_neq in Hne.
  set (s1 := spin (SpinStart (TextSwitchingTo newModel)) s).
  destruct (destroyBestEffort_facts s1) as (Hcl & _ & Hcalls & Hsess).
  change (client s1) with (client s) in Hcl.
  change (calls s1) with (calls s) in Hcalls, Hsess.
  change (session s1) with (session s) in Hcalls, Hsess.
  fold afterDestroy in Hcalls. fold kept in Hsess.
  assert (Hr : r = match sdk_createSession sdk afterDestroy
                           (switchConfig newModel) with
                   | Throws message =>
                       (Throws message,
                        spin (SpinFail TextFailedToSwitch)
                          (called (CallCreateSession (switchConfig newModel))
                             (setCurrentModel newModel
                                (destroyBestEffort sdk s1))))
                   | Returns _ =>
                       (Returns tt,
                        spin (SpinSucceed (TextSwitchedTo newModel))
                          (setSession
                             (Some {| session_config := switchConfig newModel;
                                      session_destroyed := false |})
                             (called (CallCreateSession (switchConfig newModel))
                                (setCurrentModel newModel
                                   (destroyBestEffort sdk s1)))))
                   end).
  { subst r. unfold switchModel. rewrite Hne. fold s1. cbv zeta.
    cbn [client setCurrentModel calls currentModel].
    rewrite Hcl, Hc, Hcalls. reflexivity. }
  split.
  { rewrite Hr. destruct (sdk_createSession _ _ _); reflexivity. }
  split.
  { rewrite Hr. destruct (sdk_createSession _ _ _); simpl;
      now rewrite Hcalls. }
  split.
  { intros s0 x0 H1 H2.
    destruct (initialize_session_config s0 x0 H1 H2) as [-> _].
    reflexivity. }
  rewrite Hr. destruct (sdk_createSession _ _ _) as [u|message]; simpl.
  - repeat split.
  - split; [reflexivity|]. split; [exact Hsess|].
    intros Hd. unfold hasLiveSession. simpl. rewrite Hsess. unfold kept.
    destruct (session s) as [old|]; [|reflexivity].
    destruct (Hd old eq_refl) as [u ->]. reflexivity.
Qed.

End ServiceFacts.

(** *** Concrete runs *)

(** An SDK whose calls all go through and whose backend answers every
    prompt with the same events. *)
Definition scriptedSdk (events : list SessionEvent) : Sdk :=
  {| sdk_start := fun _ => Returns tt;
     sdk_getAuthStatus := fun _ => Returns true;
     sdk_createSession := fun _ _ => Returns tt;
     sdk_destroy := fun _ _ => Returns tt;
     sdk_send := fun _ _ =>
       {| send_outcome := Returns tt; delivered := events |} |}.

(** The same, with a [createSession] that throws. *)
Definition noSessionSdk (message : string) : Sdk :=
  {| sdk_start := fun _ => Returns tt;
     sdk_getAuthStatus := fun _ => Returns true;
     sdk_createSession := fun _ _ => Throws message;
     sdk_destroy := fun _ _ => Returns tt;
     sdk_send := fun _ _ =>
       {| send_outcome := Returns tt; delivered := [session_idle] |} |}.

Definition promptOf (ct : ContentType) (_ : unit) : string :=
  match ct with
  | title => "Generate titles"
  | _ => "Generate content"
  end.

(** A service on which [initialize] has gone through. *)
Definition readyService : @CopilotService unit :=
  snd (initialize "You are an ASO expert." (scriptedSdk [])
         (newService tt "gpt-4o")).

Definition readySession : Session :=
  {| session_config :=
       {| cfg_model := "gpt-4o"; cfg_streaming := true;
          cfg_mcpServers := MCP_SERVERS;
          cfg_systemMessage :=
            {| sm_mode := "append";
               sm_content := "You are an ASO expert." |} |};
     session_destroyed := false |}.

Definition toolInterleaved : list SessionEvent :=
  [ assistant_message_delta (Some "A");
    assistant_message_delta (Some "B");
    tool_execution_start (Some "get_keyword_scores");
    tool_execution_complete (Some true);
    assistant_message_delta (Some "C");
    session_idle ].

(** A use of [stream_buffer_in_arrival_order]. *)
Lemma stream_buffer_in_arrival_order_witness :
  fst (streamGeneration (scriptedSdk toolInterleaved) "Generate titles"
         title readyService) = StreamResolved "ABC".
Proof.
  destruct (@stream_buffer_in_arrival_order unit
              (scriptedSdk toolInterleaved)) as (_ & _ & _ & H).
  apply (H "Generate titles" title readyService readySession
           (Some "get_keyword_scores") (Some true));
    reflexivity.
Defined.

Definition deltaThenError : list SessionEvent :=
  [ assistant_message_delta (Some "A"); session_error (Some "boom") ].

(** A use of [generate_error_event_rejects]: the run of the
    specification, on a service with nothing cached. *)
Lemma generate_error_event_rejects_witness :
  fst (generate promptOf (scriptedSdk deltaThenError) title false readyService)
    = Some {| content := ""; success := false; error := Some "boom" |}
  /\ generatedContent
       (snd (generate promptOf (scriptedSdk deltaThenError) title false
               readyService)) !! title = None.
Proof.
  destruct (generate_error_event_rejects promptOf (scriptedSdk deltaThenError)
              title false readyService readySession
              [assistant_message_delta (Some "A")] [] "boom")
    as (_ & H2 & _ & H4);
    [reflexivity | right; vm_compute; reflexivity | reflexivity
    | reflexivity | reflexivity |].
  split; [exact H2|]. apply H4. vm_compute. reflexivity.
Defined.

Definition twoDeltas : list SessionEvent :=
  [ assistant_message_delta (Some "1. Snap");
    assistant_message_delta (Some " & Track");
    session_idle ].

(** A use of [generate_twice_one_request]. *)
Lemma generate_twice_one_request_witness :
  let first := generate promptOf (scriptedSdk twoDeltas) title false
                 readyService in
  let second := generate promptOf (scriptedSdk twoDeltas) title false
                  (snd first) in
  fst first = Some {| content := "1. Snap & Track"; success := true;
                      error := None |}
  /\ second = first
  /\ sentPrompts (snd second) = ["Generate titles"].
Proof.
  intros first second.
  destruct (generate_twice_one_request promptOf (scriptedSdk twoDeltas)
              title readyService (snd first)
              {| content := "1. Snap & Track"; success := true;
                 error := None |})
    as (H1 & H2);
    [vm_compute; reflexivity | vm_compute; reflexivity | reflexivity
    | discriminate |].
  split; [vm_compute; reflexivity|]. split.
  - subst second. rewrite H1. vm_compute. reflexivity.
  - subst second. rewrite H2. vm_compute. reflexivity.
Defined.

(** C4 as written fails: when the first call succeeds with empty text
    (the backend goes idle without a delta), the cached entry is empty
    and the second call sends the prompt again. *)
Lemma generate_twice_empty_text_counterexample :
  let first := generate promptOf (scriptedSdk [session_idle]) title false
                 readyService in
  let second := generate promptOf (scriptedSdk [session_idle]) title false
                  (snd first) in
  fst first = Some {| content := ""; success := true; error := None |}
  /\ generatedContent (snd first) !! title = Some ""
  /\ fst second = Some {| content := ""; success := true; error := None |}
  /\ sentPrompts (snd second) = ["Generate titles"; "Generate titles"].
Proof. vm_compute. repeat split. Qed.

Definition cachedTitle : @CopilotService unit :=
  setGeneratedContent {[ title := "1. Old title" ]} readyService.

(** A use of [regenerate_failure_loses_cache]: a cached title, a
    regeneration that fails, and a plain call after it. *)
Lemma regenerate_failure_loses_cache_witness :
  let first := generate promptOf (scriptedSdk deltaThenError) title true
                 cachedTitle in
  generatedContent cachedTitle !! title = Some "1. Old title"
  /\ generatedContent (snd first) !! title = None
  /\ sentPrompts
       (snd (generate promptOf (scriptedSdk deltaThenError) title false
               (snd first)))
     = ["Generate titles"; "Generate titles"].
Proof.
  intros first.
  destruct (regenerate_failure_loses_cache promptOf
              (scriptedSdk deltaThenError) title cachedTitle readySession)
    as (_ & H); [reflexivity|].
  destruct (H {| content := ""; success := false; error := Some "boom" |})
    as (_ & H2 & _ & H4); [vm_compute; reflexivity | reflexivity |].
  split; [vm_compute; reflexivity|]. split; [exact H2|].
  subst first. rewrite H4. vm_compute. reflexivity.
Defined.

(** A use of [switchModel_sets_model_before_create] with a
    [createSession] that throws. *)
Lemma switchModel_sets_model_before_create_witness :
  let r := switchModel "You are an ASO expert." (noSessionSdk "boom")
             "gpt-4.1" readyService in
  currentModel (snd r) = "gpt-4.1"
  /\ fst r = Throws "boom"
  /\ hasLiveSession (snd r) = false.
Proof.
  intros r.
  destruct (switchModel_sets_model_before_create "You are an ASO expert."
              (noSessionSdk "boom") "gpt-4.1" readyService
              {| autoStart := true; autoRestart := true |})
    as (H1 & _ & _ & H4); [discriminate | reflexivity |].
  cbn [sdk_createSession noSessionSdk] in H4.
  destruct H4 as (Hthrow & _ & Hlive).
  split; [exact H1|]. split; [exact Hthrow|].
  apply Hlive. intros old _. exists tt. reflexivity.
Defined.

(** C3 as written fails: after a [createSession] that throws, the
    current-model state does not hold the previous model. *)
Lemma switchModel_failed_create_counterexample :
  let r := switchModel "You are an ASO expert." (noSessionSdk "boom")
             "gpt-4.1" readyService in
  currentModel readyService = "gpt-4o"
  /\ fst r = Throws "boom"
  /\ currentModel (snd r) = "gpt-4.1".
Proof. vm_compute. repeat split. Qed.

End CopilotFacts.

(** * Further properties of the modelled code *)

(** ** More on the string primitives *)

Module JsStringMore.
Import JsString JsStringFacts.

(** The first character, if any, is not white space. *)
Definition startsNonSpace (s : string) : bool :=
  match s with
  | EmptyString => true
  | String c _ => negb (isWhiteSpace c)
  end.

Lemma trimStart_startsNonSpace s : startsNonSpace (trimStart s) = true.
Proof.
  induction s as [|c s IH]; [reflexivity|].
  simpl. destruct (isWhiteSpace c) eqn:Hc; [exact IH|].
  simpl. now rewrite Hc.
Qed.

Lemma startsNonSpace_trimStart s : startsNonSpace s = true -> trimStart s = s.
Proof.
  destruct s as [|c s]; [reflexivity|].
  simpl. intros H. apply negb_true_iff in H. now rewrite H.
Qed.

Lemma trimEnd_startsNonSpace s :
  startsNonSpace s = true -> startsNonSpace (trimEnd s) = true.
Proof.
  destruct s as [|c s]; [reflexivity|].
  simpl. intros H. apply negb_true_iff in H. rewrite H. simpl.
  now rewrite H.
Qed.

Lemma trim_startsNonSpace s : startsNonSpace (trim s) = true.
Proof. apply trimEnd_startsNonSpace, trimStart_startsNonSpace. Qed.

(** A string without white space at either end is its own trim. *)
Lemma trim_fixed s :
  startsNonSpace s = true -> endsNonSpace s = true -> trim s = s.
Proof.
  intros H1 H2. unfold trim.
  now rewrite startsNonSpace_trimStart, endsNonSpace_trimEnd.
Qed.

Lemma trim_idempotent s : trim (trim s) = trim s.
Proof. apply trim_fixed; [apply trim_startsNonSpace|apply trim_endsNonSpace]. Qed.

Lemma lowerChar_slash c : Ascii.eqb "/" (lowerChar c) = Ascii.eqb "/" c.
Proof. destruct c as [[] [] [] [] [] [] [] []]; reflexivity. Qed.

Lemma startsWith_slash_lowered s :
  startsWith "/" (toLowerCase s) = startsWith "/" s.
Proof.
  destruct s as [|c s]; [reflexivity|].
  cbn [startsWith toLowerCase]. now rewrite lowerChar_slash.
Qed.

End JsStringMore.

(** ** More on the command parser *)

Module PromptsMore.
Import JsString JsStringFacts JsStringMore Prompts.

Lemma ownProperty_In m k c : ownProperty m k = Some c -> In (k, c) m.
Proof.
  induction m as [|[k' v] m IH]; [discriminate|].
  simpl. destruct (String.eqb_spec k' k) as [->|].
  - intros H. inversion H. now left.
  - intros H. right. now apply IH.
Qed.

(** Every alias, typed in any letter case and with white space around it,
    gives exactly its entry of the table. *)
Theorem parseCommand_alias (input : string) (c : Command) :
  ownProperty COMMAND_MAP (toLowerCase (trim input)) = Some c ->
  parseCommand input = Cmd c.
Proof.
  intros H. unfold parseCommand.
  remember (toLowerCase (trim input)) as lowered eqn:Hl.
  assert (Hget : commandMapGet lowered = Some (Cmd c))
    by (unfold commandMapGet; now rewrite H).
  apply ownProperty_In in H. simpl in H.
  repeat (destruct H as [H|H];
          [inversion H; subst lowered c; reflexivity|]).
  destruct H.
Qed.

Lemma parseCommand_alias_witness :
  parseCommand "  /WhatsNew " = Cmd (CContent releaseNotes)
  /\ parseCommand "/SUB" = parseCommand "/subtitle".
Proof.
  split.
  - apply (parseCommand_alias "  /WhatsNew "). reflexivity.
  - rewrite (parseCommand_alias "/SUB" (CContent subtitle)) by reflexivity.
    rewrite (parseCommand_alias "/subtitle" (CContent subtitle))
      by reflexivity.
    reflexivity.
Defined.

Lemma no_slash_no_alias k :
  startsWith "/" k = false -> ownProperty COMMAND_MAP k = None.
Proof.
  intros H. destruct (ownProperty COMMAND_MAP k) as [c|] eqn:Hk;
    [|reflexivity].
  apply ownProperty_In in Hk. simpl in Hk.
  repeat (destruct Hk as [Hk|Hk];
          [inversion Hk; subst k; discriminate|]).
  destruct Hk.
Qed.

Lemma no_slash_no_prefix p k :
  startsWith "/" k = false -> startsWith (String "/" p) k = false.
Proof.
  destruct k as [|c k]; [reflexivity|].
  simpl. intros H. rewrite andb_true_r in H. now rewrite H.
Qed.

(** A line whose trimmed form does not start with a slash is a chat
    command carrying that trimmed form unchanged (the empty message for a
    blank line), unless it is the word [constructor] or [__proto__] in
    any letter case: for these the member of [Object.prototype] found by
    the table read is returned, which is no command. *)
Theorem parseCommand_plain_text (input : string) :
  startsWith "/" (trim input) = false ->
  let lowered := toLowerCase (trim input) in
  (lowered <> "constructor" -> lowered <> "__proto__" ->
   parseCommand input = Cmd (CChat (trim input)))
  /\ (lowered = "constructor" \/ lowered = "__proto__" ->
      parseCommand input = Inherited lowered).
Proof.
  intros Hs lowered.
  assert (Hl : startsWith "/" lowered = false)
    by (unfold lowered; now rewrite startsWith_slash_lowered).
  assert (Hparse : parseCommand input =
            match commandMapGet lowered with
            | Some r => r
            | None => Cmd (CChat (trim input))
            end).
  { unfold parseCommand. fold lowered.
    rewrite !(no_slash_no_prefix _ _ Hl). cbn [andb orb].
    destruct (commandMapGet lowered); [reflexivity|].
    destruct (trim input) as [|a t]; [reflexivity|].
    cbn [truthy isEmpty negb].
    destruct (startsWith "/" (String a t)); reflexivity. }
  rewrite Hparse. unfold commandMapGet.
  rewrite (no_slash_no_alias _ Hl).
  split.
  - intros H1 H2.
    destruct (String.eqb_spec lowered "constructor"); [contradiction|].
    destruct (String.eqb_spec lowered "__proto__"); [contradiction|].
    reflexivity.
  - intros [H|H]; rewrite H; reflexivity.
Qed.

Lemma parseCommand_plain_text_witness :
  parseCommand "  make it Shorter and punchier " =
    Cmd (CChat "make it Shorter and punchier")
  /\ parseCommand "   " = Cmd (CChat "")
  /\ parseCommand " Constructor" = Inherited "constructor".
Proof.
  split; [|split].
  - apply (parseCommand_plain_text "  make it Shorter and punchier ");
      [reflexivity|discriminate|discriminate].
  - apply (parseCommand_plain_text "   ");
      [reflexivity|discriminate|discriminate].
  - apply (parseCommand_plain_text " Constructor");
      [reflexivity|left; reflexivity].
Defined.

(** White space around a line never matters: a line and its trimmed form
    parse to the same result. *)
Theorem parseCommand_trim (input : string) :
  parseCommand (trim input) = parseCommand input.
Proof. unfold parseCommand. now rewrite trim_idempotent. Qed.

End PromptsMore.

(** ** More on the double-interrupt protocol *)

Module CtrlCMore.
Import CtrlC.
Local Open Scope Z_scope.

(** Each interrupt comes at least a full window after the one before it,
    [last] being the armed time at the start. *)
Fixpoint spaced (last : Z) (times : list Z) : Prop :=
  match times with
  | [] => True
  | t :: later => DOUBLE_CTRL_C_WINDOW_MS <= t - last /\ spaced t later
  end.

(** The press-again hint, once per interrupt. *)
Definition hints (times : list Z) : list Effect :=
  concat (List.map (fun _ => [ConsoleLogBlank; PrintPressAgain]) times).

Lemma handleCtrlC_far hasService now last :
  DOUBLE_CTRL_C_WINDOW_MS <= now - last ->
  handleCtrlC hasService now last = ([ConsoleLogBlank; PrintPressAgain], now).
Proof.
  intros H. unfold handleCtrlC, shouldExitOnCtrlC.
  destruct (Z.ltb_spec (now - last) DOUBLE_CTRL_C_WINDOW_MS); [lia|reflexivity].
Qed.

Lemma handleCtrlC_close hasService now last :
  now - last < DOUBLE_CTRL_C_WINDOW_MS ->
  handleCtrlC hasService now last
  = (([ConsoleLogBlank; PrintGoodbye]
        ++ (if hasService then [ServiceCleanup] else [])
        ++ [ProcessExit 0])%list, last).
Proof.
  intros H. unfold handleCtrlC, shouldExitOnCtrlC.
  destruct (Z.ltb_spec (now - last) DOUBLE_CTRL_C_WINDOW_MS); [reflexivity|lia].
Qed.

Lemma exits_hints times : exits (hints times) = false.
Proof. induction times as [|t times IH]; [reflexivity|exact IH]. Qed.

(** However many interrupts arrive, the process never exits as long as
    each comes at least 1000 ms after the previous one: every one of them
    only prints the hint. *)
Theorem interrupts_spaced_never_exit hasService (times : list Z) (last : Z) :
  spaced last times ->
  interrupts hasService times last = hints times
  /\ exits (interrupts hasService times last) = false.
Proof.
  intros H.
  assert (Heq : interrupts hasService times last = hints times).
  { revert last H; induction times as [|t times IH]; intros last H;
      [reflexivity|].
    destruct H as [Ht Hs]. cbn [interrupts].
    rewrite handleCtrlC_far by exact Ht. cbn [exits existsb orb].
    rewrite (IH t Hs). reflexivity. }
  split; [exact Heq|]. rewrite Heq. apply exits_hints.
Qed.

Lemma interrupts_spaced_never_exit_witness :
  exits (interrupts true
           [1700000000000; 1700000001000; 1700000002500; 1700000009000] 0)
  = false.
Proof.
  apply (interrupts_spaced_never_exit true).
  unfold spaced, DOUBLE_CTRL_C_WINDOW_MS. repeat split; lia.
Defined.

Lemma last_default (a : Z) (l : list Z) (d d' : Z) :
  List.last (a :: l) d = List.last (a :: l) d'.
Proof.
  revert a; induction l as [|b l IH]; intros a; [reflexivity|].
  change (List.last (b :: l) d = List.last (b :: l) d'). apply IH.
Qed.

(** The process exits at the first interrupt that comes less than 1000 ms
    after the one before it: the earlier ones print the hint, this one
    prints the goodbye, cleans up and exits with code 0, and no later
    interrupt is handled. *)
Theorem interrupts_exit_at_first_close hasService
    (pre : list Z) (t : Z) (post : list Z) (last : Z) :
  spaced last pre ->
  t - List.last pre last < DOUBLE_CTRL_C_WINDOW_MS ->
  interrupts hasService (pre ++ t :: post) last
  = (hints pre
       ++ [ConsoleLogBlank; PrintGoodbye]
       ++ (if hasService then [ServiceCleanup] else [])
       ++ [ProcessExit 0])%list.
Proof.
  revert last; induction pre as [|p pre IH]; intros last Hs Ht.
  - cbn [app interrupts List.last] in *.
    rewrite handleCtrlC_close by exact Ht.
    destruct hasService; reflexivity.
  - destruct Hs as [Hp Hs]. cbn [app interrupts].
    rewrite handleCtrlC_far by exact Hp. cbn [exits existsb orb].
    rewrite (IH p Hs).
    + reflexivity.
    + destruct pre as [|z pre]; [exact Ht|].
      rewrite (last_default z pre p last). exact Ht.
Qed.

Lemma interrupts_exit_at_first_close_witness :
  interrupts true
    [1700000000000; 1700000003000; 1700000003400; 1700000009000] 0
  = [ConsoleLogBlank; PrintPressAgain; ConsoleLogBlank; PrintPressAgain;
     ConsoleLogBlank; PrintGoodbye; ServiceCleanup; ProcessExit 0].
Proof.
  apply (interrupts_exit_at_first_close true
           [1700000000000; 1700000003000] 1700000003400 [1700000009000] 0).
  - unfold spaced, DOUBLE_CTRL_C_WINDOW_MS. repeat split; lia.
  - unfold DOUBLE_CTRL_C_WINDOW_MS. simpl. lia.
Defined.

End CtrlCMore.

(** ** More on the competitor look-up *)

Module AppStoreMore.
Import JsString AppStore.

Lemma takeDigits_allDigits s : allDigits (takeDigits s) = true.
Proof.
  induction s as [|c s IH]; [reflexivity|].
  simpl. destruct (isDigit c) eqn:Hc; [|reflexivity].
  simpl. now rewrite Hc.
Qed.

Lemma matchSlashId_digits s id :
  matchSlashId s = Some id -> allDigits id = true /\ id <> "".
Proof.
  induction s as [|c s IH]; [discriminate|].
  cbn [matchSlashId].
  destruct (startsWith "/id" (String c s)
            && truthy (takeDigits (slice 3 (String c s)))) eqn:H.
  - intros Heq. inversion Heq; subst id.
    apply andb_prop in H as [_ H].
    split; [apply takeDigits_allDigits|].
    destruct (takeDigits _); [discriminate|discriminate].
  - exact IH.
Qed.

Lemma allDigits_no_slashId s : allDigits s = true -> matchSlashId s = None.
Proof.
  induction s as [|c s IH]; [reflexivity|].
  intros H. simpl in H. apply andb_prop in H as [Hc Hs].
  cbn [matchSlashId].
  assert (Hp : startsWith "/id" (String c s) = false).
  { cbn [startsWith]. destruct (Ascii.eqb_spec "/" c) as [<-|]; [|reflexivity].
    discriminate. }
  rewrite Hp. cbn [andb]. now apply IH.
Qed.

(** Whatever the input, an extracted id is a non-empty string of decimal
    digits; and a bare id of 9 or 10 digits is accepted by [isAppStoreUrl]
    and extracted unchanged. *)
Theorem extractAppStoreId_digits (url : string) :
  (forall id, extractAppStoreId url = Some id ->
              allDigits id = true /\ id <> "")
  /\ (isBareId url = true ->
      isAppStoreUrl url = true /\ extractAppStoreId url = Some url).
Proof.
  split.
  - intros id. unfold extractAppStoreId.
    destruct (matchSlashId url) as [d|] eqn:Hm.
    + intros H. inversion H; subst d. now apply matchSlashId_digits in Hm.
    + destruct (isBareId url) eqn:Hb; [|discriminate].
      intros H. inversion H; subst id.
      unfold isBareId in Hb. apply andb_prop in Hb as [Hd Hlen].
      split; [exact Hd|]. destruct url; [discriminate|discriminate].
  - intros Hb. split.
    + unfold isAppStoreUrl. rewrite Hb. now rewrite !orb_true_r.
    + unfold extractAppStoreId.
      unfold isBareId in Hb. apply andb_prop in Hb as [Hd Hlen].
      rewrite (allDigits_no_slashId _ Hd).
      unfold isBareId. now rewrite Hd, Hlen.
Qed.

Lemma extractAppStoreId_digits_witness :
  isAppStoreUrl "1234567890" = true
  /\ extractAppStoreId "1234567890" = Some "1234567890"
  /\ allDigits "6448311069" = true.
Proof.
  destruct (extractAppStoreId_digits "1234567890") as [_ H].
  destruct (H eq_refl) as [H1 H2].
  split; [exact H1|split; [exact H2|]].
  destruct (extractAppStoreId_digits
              "https://apps.apple.com/us/app/x/id6448311069?uo=4") as [H3 _].
  apply (H3 "6448311069"). reflexivity.
Defined.

(** [fetchAppStoreMetadata] makes at most one request, and only to the
    look-up address of an id made of digits: nothing else of the input
    reaches the address. *)
Theorem fetchAppStoreMetadata_requests (Metadata : Type)
    (fetch : string -> FetchOutcome Metadata) (url : string) :
  (extractAppStoreId url = None
   /\ snd (fetchAppStoreMetadata Metadata fetch url) = [])
  \/ (exists id,
        extractAppStoreId url = Some id
        /\ allDigits id = true /\ id <> ""
        /\ snd (fetchAppStoreMetadata Metadata fetch url) = [lookupUrl id]).
Proof.
  destruct (extractAppStoreId url) as [id|] eqn:He.
  - right. exists id.
    destruct (extractAppStoreId_digits url) as [Hd _].
    destruct (Hd id He) as [H1 H2].
    repeat split; try assumption.
    unfold fetchAppStoreMetadata. rewrite He.
    destruct id; [congruence|reflexivity].
  - left. split; [reflexivity|].
    unfold fetchAppStoreMetadata. now rewrite He.
Qed.

End AppStoreMore.

(** ** More on the session manager *)

Module CopilotMore.
Import JsString JsStringFacts JsStringMore Prompts Copilot CopilotFacts.
Import CopilotOps.

(** Usage events, and an event sequence without them. *)
Definition isUsage (event : SessionEvent) : bool :=
  match event with
  | assistant_usage _ _ => true
  | _ => false
  end.

Definition dropUsage (events : list SessionEvent) : list SessionEvent :=
  List.filter (fun event => negb (isUsage event)) events.

Lemma includes_here needle rest : includes needle (needle ++ rest) = true.
Proof.
  assert (H : startsWith needle (needle ++ rest) = true).
  { induction needle as [|c n IH]; [reflexivity|].
    rewrite append_cons. cbn [startsWith].
    now rewrite IH, Ascii.eqb_refl. }
  destruct (needle ++ rest); cbn [includes]; now rewrite H.
Qed.

Lemma includes_after needle pre s :
  includes needle s = true -> includes needle (pre ++ s) = true.
Proof.
  intros H. induction pre as [|c pre IH]; [exact H|].
  rewrite append_cons. cbn [includes]. rewrite IH. apply orb_true_r.
Qed.

Lemma includes_middle needle pre post :
  includes needle (pre ++ needle ++ post) = true.
Proof. apply includes_after, includes_here. Qed.

(** The refinement prompt carries the current content and the feedback
    word for word, and names the kind by its label. *)
Theorem getRefinementPrompt_verbatim ct currentContent feedback name desc :
  let prompt := getRefinementPrompt ct currentContent feedback name desc in
  includes currentContent prompt = true
  /\ includes feedback prompt = true
  /\ includes (refinementLabel ct) prompt = true
  /\ includes name prompt = true
  /\ includes desc prompt = true.
Proof.
  unfold getRefinementPrompt. cbv zeta.
  repeat split;
    repeat first [ apply includes_here
                 | apply includes_after ].
Qed.

Section OperationFacts.
Context {AppInfo : Type}.
Variable getContentPrompt : ContentType -> AppInfo -> string.
Variable SYSTEM_PROMPT_ASO : string.
Variable appName : AppInfo -> string.
Variable appDescription : AppInfo -> string.
Variable sdk : Sdk.

Local Abbreviation Service := (@CopilotService AppInfo).

Lemma onEvent_fst_indep ct event h (s s' : Service) :
  fst (onEvent ct event (h, s)) = fst (onEvent ct event (h, s')).
Proof.
  destruct event as [[d|]|[n|]|[[|]|]|[l|] m| |[m|]|t]; simpl;
    try reflexivity.
  destruct (truthy d); reflexivity.
Qed.

Lemma deliver_fst_indep ct events h (s s' : Service) :
  fst (deliver ct events (h, s)) = fst (deliver ct events (h, s')).
Proof.
  revert h s s'; induction events as [|e es IH]; intros h s s';
    [reflexivity|].
  rewrite !deliver_cons.
  pose proof (onEvent_fst_indep ct e h s s') as He.
  destruct (onEvent ct e (h, s)) as [h1 s1].
  destruct (onEvent ct e (h, s')) as [h2 s2].
  simpl in He. subst h2. apply IH.
Qed.

Lemma deliver_dropUsage ct events h (s : Service) :
  fst (deliver ct (dropUsage events) (h, s)) = fst (deliver ct events (h, s)).
Proof.
  revert h s; induction events as [|e es IH]; intros h s; [reflexivity|].
  rewrite deliver_cons. unfold dropUsage. cbn [List.filter].
  fold (dropUsage es).
  destruct (isUsage e) eqn:Hu; cbn [negb].
  - destruct e; try discriminate.
    destruct (onEvent ct (assistant_usage quotaSnapshots model) (h, s))
      as [h1 s1] eqn:He.
    assert (h1 = h).
    { change h1 with (fst (h1, s1)). rewrite <- He.
      destruct quotaSnapshots; reflexivity. }
    subst h1. rewrite IH. apply deliver_fst_indep.
  - rewrite deliver_cons.
    destruct (onEvent ct e (h, s)) as [h1 s1]. apply IH.
Qed.

(** How a stream on a service with a session ends. *)
Lemma streamGeneration_issued prompt ct (s : Service) x :
  session s = Some x ->
  exists h s2,
    deliver ct (delivered (sdk_send sdk (calls s) prompt))
            (streamStart, called (CallSend prompt) s) = (h, s2)
    /\ sameCore s2 (called (CallSend prompt) s)
    /\ streamGeneration sdk prompt ct s =
         (match send_outcome (sdk_send sdk (calls s) prompt) with
          | Throws message => StreamRejected message
          | Returns _ =>
              match done h with
              | Fulfilled => StreamResolved (output h)
              | Rejected message => StreamRejected message
              | Pending => StreamPending
              end
          end, s2).
Proof.
  intros Hx.
  destruct (deliver ct (delivered (sdk_send sdk (calls s) prompt))
              (streamStart, called (CallSend prompt) s)) as [h s2] eqn:Hd.
  exists h, s2. split; [reflexivity|]. split.
  - change s2 with (snd (h, s2)). rewrite <- Hd. apply deliver_sameCore.
  - unfold streamGeneration. rewrite Hx, Hd.
    destruct (send_outcome _); [destruct (done h)|]; reflexivity.
Qed.

(** Usage events are informational only: two backends whose answers
    differ in nothing but the usage events they deliver end the stream in
    the same way, with the same text. *)
Theorem streamGeneration_ignores_usage (sdk' : Sdk) prompt ct (s : Service) x :
  session s = Some x ->
  send_outcome (sdk_send sdk (calls s) prompt)
    = send_outcome (sdk_send sdk' (calls s) prompt) ->
  dropUsage (delivered (sdk_send sdk (calls s) prompt))
    = dropUsage (delivered (sdk_send sdk' (calls s) prompt)) ->
  fst (streamGeneration sdk prompt ct s)
    = fst (streamGeneration sdk' prompt ct s).
Proof.
  intros Hx Hsend Hev. unfold streamGeneration. rewrite Hx, <- Hsend.
  set (s1 := called (CallSend prompt) s).
  pose proof (deliver_dropUsage ct
                (delivered (sdk_send sdk (calls s) prompt)) streamStart s1) as H1.
  pose proof (deliver_dropUsage ct
                (delivered (sdk_send sdk' (calls s) prompt)) streamStart s1) as H2.
  rewrite Hev in H1. rewrite H2 in H1.
  destruct (deliver ct (delivered (sdk_send sdk (calls s) prompt))
              (streamStart, s1)) as [h a].
  destruct (deliver ct (delivered (sdk_send sdk' (calls s) prompt))
              (streamStart, s1)) as [h' a'].
  simpl in H1. subst h'.
  destruct (send_outcome _); [destruct (done h)|]; reflexivity.
Qed.

(** When [send] itself throws, the request fails with the error of
    [send], whatever events have been delivered, and [generate] reports
    that failure without writing the cache. *)
Theorem generate_send_throws ct regenerate (s : Service) x message :
  session s = Some x ->
  regenerate = true \/ cachedTruthy ct s = None ->
  send_outcome (sdk_send sdk (calls s) (getContentPrompt ct (appInfo s)))
    = Throws message ->
  fst (generate getContentPrompt sdk ct regenerate s)
    = Some {| content := ""; success := false; error := Some message |}
  /\ generatedContent (snd (generate getContentPrompt sdk ct regenerate s))
     = (if regenerate then delete ct (generatedContent s)
        else generatedContent s).
Proof.
  intros Hx Hreq Hsend.
  destruct (generate_issued getContentPrompt sdk ct regenerate s x Hx Hreq)
    as (s1 & h & s2 & _ & Hcache & _ & _ & _ & Hgen).
  rewrite Hsend in Hgen. rewrite Hgen. split; [reflexivity|exact Hcache].
Qed.

(** Without idle or error event the request never settles: [generate]
    does not return, although the prompt has been sent. *)
Theorem generate_never_returns_without_terminal ct regenerate (s : Service) x :
  session s = Some x ->
  regenerate = true \/ cachedTruthy ct s = None ->
  send_outcome (sdk_send sdk (calls s) (getContentPrompt ct (appInfo s)))
    = Returns tt ->
  noTerminal
    (delivered (sdk_send sdk (calls s) (getContentPrompt ct (appInfo s))))
    = true ->
  fst (generate getContentPrompt sdk ct regenerate s) = None
  /\ sentPrompts (snd (generate getContentPrompt sdk ct regenerate s))
     = (sentPrompts s ++ [getContentPrompt ct (appInfo s)])%list.
Proof.
  intros Hx Hreq Hsend Hnt.
  destruct (generate_issued getContentPrompt sdk ct regenerate s x Hx Hreq)
    as (s1 & h & s2 & Hd & _ & Hcalls & _ & _ & Hgen).
  assert (Hp : done h = Pending).
  { change h with (fst (h, s2)). rewrite <- Hd.
    now rewrite deliver_noTerminal. }
  rewrite Hsend, Hp in Hgen. rewrite Hgen. split; [reflexivity|].
  now apply sentPrompts_calls.
Qed.

(** On a service that has no session (never initialized), [generate]
    reports a failure and nothing is sent. *)
Theorem generate_without_session ct regenerate (s : Service) :
  session s = None ->
  regenerate = true \/ cachedTruthy ct s = None ->
  fst (generate getContentPrompt sdk ct regenerate s)
    = Some {| content := ""; success := false;
              error := Some noSessionError |}
  /\ calls (snd (generate getContentPrompt sdk ct regenerate s)) = calls s.
Proof.
  intros Hx Hreq.
  assert (Hgen : generate getContentPrompt sdk ct regenerate s =
            rejectedWith ct noSessionError
              (spin (SpinStart (TextSpinner ct))
                 (if regenerate
                  then setGeneratedContent (delete ct (generatedContent s)) s
                  else s))).
  { unfold generate, streamGeneration.
    destruct regenerate.
    - cbn [session spin setGeneratedContent]. rewrite Hx.
      destruct (cachedTruthy ct (setGeneratedContent _ s)); reflexivity.
    - destruct Hreq as [Hreq|Hreq]; [discriminate|].
      rewrite Hreq. cbn [session spin]. rewrite Hx. reflexivity. }
  rewrite Hgen. unfold rejectedWith. cbn [fst snd].
  split; [reflexivity|]. destruct regenerate; reflexivity.
Qed.

(** *** Refinement and keyword scoring *)

Lemma stream_cache prompt ct (s : Service) :
  generatedContent (snd (streamGeneration sdk prompt ct s))
    = generatedContent s
  /\ session (snd (streamGeneration sdk prompt ct s)) = session s
  /\ calls (snd (streamGeneration sdk prompt ct s))
     = (calls s ++ match session s with
                   | Some _ => [CallSend prompt]
                   | None => []
                   end)%list.
Proof.
  destruct (session s) as [x|] eqn:Hx.
  - destruct (streamGeneration_issued prompt ct s x Hx)
      as (h & s2 & _ & Hcore & ->).
    destruct Hcore as (_ & H2 & _ & H4 & _ & H6). cbn [snd].
    cbn [called session generatedContent calls] in H2, H4, H6.
    repeat split; congruence.
  - unfold streamGeneration. rewrite Hx. cbn [snd].
    rewrite app_nil_r. repeat split; auto.
Qed.

(** A successful refinement overwrites the cache entry of its kind and no
    other; when the refined text is not empty, the next [generate] of
    that kind returns it without sending anything. *)
Theorem refineContent_success_is_cached ct currentContent feedback
    (s s' : Service) r notices :
  refineContent appName appDescription sdk ct currentContent feedback s
    = (Some r, s', notices) ->
  success r = true ->
  generatedContent s' = <[ct := content r]> (generatedContent s)
  /\ (content r <> "" ->
      generate getContentPrompt sdk ct false s' = (Some r, s')).
Proof.
  unfold refineContent. intros H Hok.
  pose proof (stream_cache
                (getRefinementPrompt ct currentContent feedback
                   (appName (appInfo s)) (appDescription (appInfo s)))
                ct s) as (Hc & _ & _).
  destruct (streamGeneration sdk _ ct s) as [[text|message|] s1];
    inversion H; subst; try discriminate.
  cbn [snd] in Hc. cbn [content generatedContent setGeneratedContent].
  rewrite Hc. split; [reflexivity|].
  intros Hne. unfold generate, cachedTruthy.
  cbn [generatedContent setGeneratedContent].
  rewrite lookup_insert_eq, (truthy_nonempty _ Hne). reflexivity.
Qed.

(** A failed refinement leaves the cache as it was, so a text cached
    before is still returned by the next [generate] of that kind without
    sending anything. *)
Theorem refineContent_failure_keeps_cache ct currentContent feedback
    (s s' : Service) r notices :
  refineContent appName appDescription sdk ct currentContent feedback s
    = (Some r, s', notices) ->
  success r = false ->
  generatedContent s' = generatedContent s
  /\ (forall cached, cachedTruthy ct s = Some cached ->
      generate getContentPrompt sdk ct false s'
        = (Some {| content := cached; success := true; error := None |},
           s')).
Proof.
  unfold refineContent. intros H Hf.
  pose proof (stream_cache
                (getRefinementPrompt ct currentContent feedback
                   (appName (appInfo s)) (appDescription (appInfo s)))
                ct s) as (Hc & _ & _).
  destruct (streamGeneration sdk _ ct s) as [[text|message|] s1];
    inversion H; subst; try discriminate.
  cbn [snd] in Hc. split; [exact Hc|].
  intros cached Hcached. unfold generate.
  assert (Hsame : cachedTruthy ct s' = Some cached)
    by (unfold cachedTruthy in *; now rewrite Hc).
  now rewrite Hsame.
Qed.

(** Keyword scoring never touches the cache, however it ends; on a
    service with a session it sends exactly one prompt, which quotes the
    keyword word for word. *)
Theorem scoreKeyword_not_cached keyword (s : Service) :
  let after := snd (fst (scoreKeyword sdk keyword s)) in
  generatedContent after = generatedContent s
  /\ (forall x, session s = Some x ->
      sentPrompts after = (sentPrompts s ++ [scorePrompt keyword])%list)
  /\ includes keyword (scorePrompt keyword) = true.
Proof.
  cbv zeta. unfold scoreKeyword.
  pose proof (stream_cache (scorePrompt keyword) keywords s)
    as (Hc & _ & Hcalls).
  destruct (streamGeneration sdk (scorePrompt keyword) keywords s)
    as [[text|message|] s1]; cbn [fst snd] in *;
    (split; [exact Hc|]);
    (split; [intros x Hx; rewrite Hx in Hcalls;
             now apply sentPrompts_calls
            | unfold scorePrompt;
              repeat first [apply includes_here | apply includes_after]]).
Qed.

(** *** Initialization and model switching *)

(** [initialize] stores a session only when every step has gone through;
    the session is then live and bound to the current model.  When any
    step throws, the session field is as before, while the client object
    stays set; and for an unauthenticated user [createSession] is never
    called. *)
Theorem initialize_outcomes (s0 : Service) :
  let r := initialize SYSTEM_PROMPT_ASO sdk s0 in
  currentModel (snd r) = currentModel s0
  /\ client (snd r) = Some {| autoStart := true; autoRestart := true |}
  /\ (fst r = Returns tt ->
      hasLiveSession (snd r) = true
      /\ exists x, session (snd r) = Some x
                   /\ cfg_model (session_config x) = currentModel s0)
  /\ (forall message, fst r = Throws message ->
      session (snd r) = session s0)
  /\ (forall u,
        sdk_start sdk (calls s0) = Returns u ->
        sdk_getAuthStatus sdk (calls s0 ++ [CallStart]) = Returns false ->
        fst r = Throws notAuthenticated
        /\ calls (snd r) = (calls s0 ++ [CallStart; CallGetAuthStatus])%list).
Proof.
  cbv zeta. unfold initialize.
  cbn [calls spin setClient called currentModel].
  destruct (sdk_start sdk (calls s0)) as [u|m] eqn:Hstart.
  2:{ cbn. repeat split; try discriminate. }
  destruct (sdk_getAuthStatus sdk (calls s0 ++ [CallStart]))
    as [[|]|m] eqn:Hauth.
  - destruct (sdk_createSession sdk _ _) as [u'|m] eqn:Hcreate; cbn.
    + repeat split; try discriminate. eexists; split; reflexivity.
    + repeat split; discriminate.
  - cbn. repeat split; try discriminate.
    rewrite <- app_assoc. reflexivity.
  - cbn. repeat split; discriminate.
Qed.

Lemma switchModel_currentModel newModel (s : Service) :
  currentModel (snd (switchModel SYSTEM_PROMPT_ASO sdk newModel s)) = newModel.
Proof.
  unfold switchModel.
  destruct (String.eqb_spec newModel (currentModel s)) as [->|Hne];
    [reflexivity|].
  cbv zeta. cbn [client setCurrentModel currentModel calls].
  destruct (client _); [|reflexivity].
  destruct (sdk_createSession sdk _ _); reflexivity.
Qed.

(** After [switchModel(m)] the current-model state is [m] whether the
    call returned or threw, and switching to the current model does
    nothing at all.  So repeating a [switchModel] that has failed is a
    no-op: it makes no call and creates no session. *)
Theorem switchModel_retry_is_noop newModel (s : Service) :
  switchModel SYSTEM_PROMPT_ASO sdk (currentModel s) s = (Returns tt, s)
  /\ currentModel (snd (switchModel SYSTEM_PROMPT_ASO sdk newModel s))
     = newModel
  /\ switchModel SYSTEM_PROMPT_ASO sdk newModel
       (snd (switchModel SYSTEM_PROMPT_ASO sdk newModel s))
     = (Returns tt, snd (switchModel SYSTEM_PROMPT_ASO sdk newModel s)).
Proof.
  assert (Hsame : forall a : Service,
            switchModel SYSTEM_PROMPT_ASO sdk (currentModel a) a
            = (Returns tt, a)).
  { intros a. unfold switchModel. now rewrite String.eqb_refl. }
  split; [apply Hsame|]. split; [apply switchModel_currentModel|].
  rewrite <- (switchModel_currentModel newModel s) at 1. apply Hsame.
Qed.

(** On a service that was never initialized, [switchModel] to another
    model throws the not-initialized error without asking for a session,
    yet the current-model state is changed. *)
Theorem switchModel_not_initialized newModel (s : Service) :
  client s = None ->
  session s = None ->
  newModel <> currentModel s ->
  let r := switchModel SYSTEM_PROMPT_ASO sdk newModel s in
  fst r = Throws notInitialized
  /\ calls (snd r) = calls s
  /\ session (snd r) = None
  /\ currentModel (snd r) = newModel.
Proof.
  intros Hc Hs Hne. cbv zeta. unfold switchModel.
  apply String.eqb_neq in Hne. rewrite Hne.
  unfold destroyBestEffort. cbn [session spin]. rewrite Hs.
  cbn [client setCurrentModel spin]. rewrite Hc. cbn.
  repeat split; assumption.
Qed.

End OperationFacts.

(** *** [cleanOutput] *)






(** *** Concrete runs *)

Definition throwingSendSdk (message : string) : Sdk :=
  {| sdk_start := fun _ => Returns tt;
     sdk_getAuthStatus := fun _ => Returns true;
     sdk_createSession := fun _ _ => Returns tt;
     sdk_destroy := fun _ _ => Returns tt;
     sdk_send := fun _ _ =>
       {| send_outcome := Throws message;
          delivered := [assistant_message_delta (Some "A"); session_idle] |} |}.

Definition usageEvent : SessionEvent :=
  assistant_usage
    (Some [("premium_interactions",
            {| isUnlimitedEntitlement := false; entitlementRequests := 300;
               usedRequests := 12; remainingPercentage := 96;
               resetDate := None |})])
    None.

Definition nameOf (_ : unit) : string := "CalAI".
Definition descriptionOf (_ : unit) : string :=
  "Track calories from a photo of your meal.".

Lemma generate_send_throws_witness :
  fst (generate promptOf (throwingSendSdk "socket closed") title false
         readyService)
  = Some {| content := ""; success := false;
            error := Some "socket closed" |}.
Proof.
  apply (generate_send_throws promptOf (throwingSendSdk "socket closed")
           title false readyService readySession "socket closed");
    [reflexivity | right; vm_compute; reflexivity | reflexivity].
Defined.

Lemma generate_never_returns_without_terminal_witness :
  fst (generate promptOf
         (scriptedSdk [assistant_message_delta (Some "A")]) title false
         readyService) = None.
Proof.
  apply (generate_never_returns_without_terminal promptOf
           (scriptedSdk [assistant_message_delta (Some "A")])
           title false readyService readySession);
    [reflexivity | right; vm_compute; reflexivity | reflexivity
    | reflexivity].
Defined.

Lemma generate_without_session_witness :
  fst (generate promptOf (scriptedSdk toolInterleaved) title false
         (newService tt "gpt-4o"))
  = Some {| content := ""; success := false;
            error := Some noSessionError |}
  /\ calls (snd (generate promptOf (scriptedSdk toolInterleaved) title false
                   (newService tt "gpt-4o"))) = [].
Proof.
  apply (generate_without_session promptOf (scriptedSdk toolInterleaved)
           title false (newService tt "gpt-4o"));
    [reflexivity | right; vm_compute; reflexivity].
Defined.

Lemma streamGeneration_ignores_usage_witness :
  fst (streamGeneration
         (scriptedSdk [assistant_message_delta (Some "A"); usageEvent;
                       assistant_message_delta (Some "B"); session_idle])
         "Generate titles" title readyService)
  = fst (streamGeneration
           (scriptedSdk [assistant_message_delta (Some "A");
                         assistant_message_delta (Some "B"); session_idle])
           "Generate titles" title readyService).
Proof.
  apply (streamGeneration_ignores_usage _ _ "Generate titles" title
           readyService readySession); reflexivity.
Defined.

Lemma refineContent_success_is_cached_witness :
  let run := refineContent nameOf descriptionOf (scriptedSdk twoDeltas)
               title "1. Old title" "shorter" cachedTitle in
  generatedContent (snd (fst run)) !! title = Some "1. Snap & Track"
  /\ sentPrompts
       (snd (generate promptOf (scriptedSdk twoDeltas) title false
               (snd (fst run))))
     = sentPrompts (snd (fst run)).
Proof.
  intros run.
  destruct (refineContent_success_is_cached promptOf nameOf descriptionOf
              (scriptedSdk twoDeltas) title "1. Old title" "shorter"
              cachedTitle (snd (fst run))
              {| content := "1. Snap & Track"; success := true;
                 error := None |}
              (snd run)) as (H1 & H2);
    [vm_compute; reflexivity | reflexivity |].
  split.
  - rewrite H1. apply lookup_insert_eq.
  - rewrite H2 by discriminate. reflexivity.
Defined.

Lemma refineContent_failure_keeps_cache_witness :
  let run := refineContent nameOf descriptionOf (scriptedSdk deltaThenError)
               title "1. Old title" "shorter" cachedTitle in
  fst (generate promptOf (scriptedSdk deltaThenError) title false
         (snd (fst run)))
  = Some {| content := "1. Old title"; success := true; error := None |}.
Proof.
  intros run.
  destruct (refineContent_failure_keeps_cache promptOf nameOf descriptionOf
              (scriptedSdk deltaThenError) title "1. Old title" "shorter"
              cachedTitle (snd (fst run))
              {| content := ""; success := false; error := Some "boom" |}
              (snd run)) as (_ & H2);
    [vm_compute; reflexivity | reflexivity |].
  rewrite (H2 "1. Old title") by (vm_compute; reflexivity).
  reflexivity.
Defined.

Lemma switchModel_not_initialized_witness :
  let r := switchModel "You are an ASO expert." (scriptedSdk [])
             "gpt-4.1" (newService tt "gpt-4o") in
  fst r = Throws notInitialized
  /\ calls (snd r) = []
  /\ session (snd r) = None
  /\ currentModel (snd r) = "gpt-4.1".
Proof.
  apply (switchModel_not_initialized "You are an ASO expert."
           (scriptedSdk []) "gpt-4.1" (newService tt "gpt-4o"));
    [reflexivity | reflexivity | discriminate].
Defined.

End CopilotMore.

(** ** The other extractors *)

Module ExtractorFacts.
Import JsString JsStringFacts JsStringMore StoreExport ResponseExtractor.
Import CopilotFacts.

(** Every character of [s] satisfies [P]. *)
Fixpoint everyChar (P : ascii -> bool) (s : string) : bool :=
  match s with
  | EmptyString => true
  | String c s' => P c && everyChar P s'
  end.

Definition notComma (c : ascii) : bool := negb (isComma c).
Definition notBacktick (c : ascii) : bool := negb (isBacktick c).
Definition notStar (c : ascii) : bool := negb (isStar c).
Definition notStarOrNewline (c : ascii) : bool := negb (starOrNewline c).

Lemma everyChar_weaken (P Q : ascii -> bool) s :
  (forall c, P c = true -> Q c = true) ->
  everyChar P s = true -> everyChar Q s = true.
Proof.
  intros HPQ. induction s as [|c s IH]; [reflexivity|].
  simpl. intros H. apply andb_prop in H as [Hc Hs].
  now rewrite (HPQ c Hc), IH.
Qed.

Lemma everyChar_app P a b :
  everyChar P (a ++ b) = everyChar P a && everyChar P b.
Proof.
  induction a as [|c a IH]; [reflexivity|].
  rewrite append_cons. cbn [everyChar]. now rewrite IH, andb_assoc.
Qed.

Lemma everyChar_spanBefore stop s :
  everyChar (fun c => negb (stop c)) (spanBefore stop s) = true.
Proof.
  induction s as [|c s IH]; [reflexivity|].
  simpl. destruct (stop c) eqn:Hc; [reflexivity|].
  simpl. now rewrite Hc, IH.
Qed.

Lemma everyChar_spanBefore_keep P stop s :
  everyChar P s = true -> everyChar P (spanBefore stop s) = true.
Proof.
  induction s as [|c s IH]; [reflexivity|].
  simpl. intros H. apply andb_prop in H as [Hc Hs].
  destruct (stop c); [reflexivity|]. simpl. now rewrite Hc, IH.
Qed.

Lemma everyChar_dropSpan P stop s :
  everyChar P s = true -> everyChar P (dropSpan stop s) = true.
Proof.
  induction s as [|c s IH]; [reflexivity|].
  intros H. cbn [dropSpan]. destruct (stop c); [exact H|].
  simpl in H. apply andb_prop in H as [_ Hs]. now apply IH.
Qed.

Lemma everyChar_trimStart P s :
  everyChar P s = true -> everyChar P (trimStart s) = true.
Proof.
  induction s as [|c s IH]; [reflexivity|].
  intros H. cbn [trimStart]. destruct (isWhiteSpace c); [|exact H].
  simpl in H. apply andb_prop in H as [_ Hs]. now apply IH.
Qed.

Lemma everyChar_trimEnd P s :
  everyChar P s = true -> everyChar P (trimEnd s) = true.
Proof.
  induction s as [|c s IH]; [reflexivity|].
  intros H. simpl in H. apply andb_prop in H as [Hc Hs].
  cbn [trimEnd]. destruct (isWhiteSpace c && isEmpty (trimEnd s));
    [reflexivity|].
  simpl. now rewrite Hc, IH.
Qed.

Lemma everyChar_trim P s :
  everyChar P s = true -> everyChar P (trim s) = true.
Proof. intros H. now apply everyChar_trimEnd, everyChar_trimStart. Qed.

(** A trimmed string is its own trim. *)
Lemma trim_trim_fixed s : trim (trim s) = trim s.
Proof. apply trim_idempotent. Qed.

Lemma truthy_true_nonempty s : truthy s = true -> s <> "".
Proof. destruct s; [discriminate|congruence]. Qed.

(** *** Keywords *)

Lemma splitCommas_nonempty s : splitCommas s <> [].
Proof.
  induction s as [|c s IH]; [discriminate|].
  simpl. destruct (isComma c); [discriminate|].
  destruct (splitCommas s); [contradiction|discriminate].
Qed.

Lemma splitCommas_pieces P s :
  everyChar P s = true ->
  Forall (fun piece => everyChar P piece = true
                       /\ everyChar notComma piece = true)
         (splitCommas s).
Proof.
  induction s as [|c s IH]; intros H.
  - constructor; [split; reflexivity|constructor].
  - simpl in H. apply andb_prop in H as [Hc Hs]. specialize (IH Hs).
    simpl. destruct (isComma c) eqn:Hcomma.
    + constructor; [split; reflexivity|exact IH].
    + assert (Hn : notComma c = true)
        by (unfold notComma; now rewrite Hcomma).
      destruct (splitCommas s) as [|h t]; [constructor; [|constructor]|].
      * cbn [everyChar]. rewrite Hc, Hn. split; reflexivity.
      * inversion IH as [|? ? [H1 H2] Ht]; subst.
        constructor; [|exact Ht].
        cbn [everyChar]. rewrite Hc, Hn, H1, H2. split; reflexivity.
Qed.

Lemma keywordTokens_spec P s t :
  everyChar P s = true ->
  In t (keywordTokens s) ->
  t <> "" /\ trim t = t
  /\ everyChar notComma t = true /\ everyChar P t = true.
Proof.
  intros HP Hin. unfold keywordTokens in Hin.
  apply filter_In in Hin as [Hin Ht].
  apply in_map_iff in Hin as [piece [<- Hpiece]].
  pose proof (splitCommas_pieces P s HP) as Hall.
  rewrite Stdlib.Lists.List.Forall_forall in Hall.
  destruct (Hall piece Hpiece) as [H1 H2].
  split; [now apply truthy_true_nonempty|].
  split; [apply trim_idempotent|].
  split; now apply everyChar_trim.
Qed.

Lemma firstBacktickSpan_clean s inner :
  firstBacktickSpan s = Some inner -> everyChar notBacktick inner = true.
Proof.
  induction s as [|c s IH]; [discriminate|].
  cbn [firstBacktickSpan backtickSpanAt].
  destruct (isBacktick c && truthy (spanBefore isBacktick s)
            && truthy (dropSpan isBacktick s)).
  - intros [= <-]. apply everyChar_spanBefore.
  - exact IH.
Qed.

Lemma lastNonNewline_char s c :
  everyChar isWhiteSpace s = true ->
  lastNonNewline s = Some c -> isWhiteSpace c = true.
Proof.
  induction s as [|d s IH]; [discriminate|].
  simpl. intros H. apply andb_prop in H as [Hd Hs].
  destruct (lastNonNewline s) as [x|].
  - intros Hx. inversion Hx; subst. now apply IH.
  - destruct (isNewline d); [discriminate|].
    intros Hx. inversion Hx; subst. exact Hd.
Qed.

Lemma spaces_everyChar r :
  everyChar isWhiteSpace (spanBefore notWhiteSpace r) = true.
Proof.
  eapply everyChar_weaken; [|apply everyChar_spanBefore].
  intros c H. unfold notWhiteSpace in H. now rewrite negb_involutive in H.
Qed.

Lemma whiteSpace_notBacktick c : isWhiteSpace c = true -> notBacktick c = true.
Proof. destruct c as [[] [] [] [] [] [] [] []]; vm_compute; congruence. Qed.

Lemma finalCapture_clean r capture :
  finalCapture r = Some capture -> everyChar notBacktick capture = true.
Proof.
  unfold finalCapture.
  assert (Hrun : forall s,
            everyChar notBacktick (spanBefore backtickOrNewline s) = true).
  { intros s. eapply everyChar_weaken; [|apply everyChar_spanBefore].
    intros c H. unfold backtickOrNewline in H. unfold notBacktick.
    destruct (isBacktick c); [discriminate|reflexivity]. }
  assert (Hfall : forall c,
            match lastNonNewline (spanBefore notWhiteSpace r) with
            | Some c => Some (String c "")
            | None => None
            end = Some c -> everyChar notBacktick c = true).
  { intros c. destruct (lastNonNewline _) as [x|] eqn:Hx; [|discriminate].
    intros H. inversion H; subst.
    apply lastNonNewline_char in Hx; [|apply spaces_everyChar].
    simpl. now rewrite (whiteSpace_notBacktick _ Hx). }
  destruct (dropSpan notWhiteSpace r) as [|c rest']; [apply Hfall|].
  destruct (negb (isBacktick c)).
  - intros [= <-]. exact (Hrun (String c rest')).
  - destruct rest' as [|c2 rest2]; [apply Hfall|].
    destruct (backtickOrNewline c2) eqn:Hc2; [apply Hfall|].
    intros [= <-]. exact (Hrun (String c2 rest2)).
Qed.

Lemma finalKeywordCapture_clean s capture :
  finalKeywordCapture s = Some capture ->
  everyChar notBacktick capture = true.
Proof.
  induction s as [|c s IH]; [discriminate|].
  cbn [finalKeywordCapture].
  destruct (finalKeywordAt (String c s)) as [x|] eqn:Hat.
  - intros H. inversion H; subst x. unfold finalKeywordAt in Hat.
    destruct (startsWith _ _); [|discriminate].
    destruct (afterFirstColon _) as [r|]; [|discriminate].
    now apply finalCapture_clean in Hat.
  - exact IH.
Qed.

(** Whatever the text, every keyword [parseKeywordsFromContent] returns
    is non-empty, has no white space at either end and contains neither a
    comma nor a backtick. *)
Theorem parseKeywordsFromContent_tokens (content t : string) :
  In t (parseKeywordsFromContent content) ->
  t <> "" /\ trim t = t
  /\ everyChar notComma t = true /\ everyChar notBacktick t = true.
Proof.
  unfold parseKeywordsFromContent.
  destruct (firstBacktickSpan content) as [inner|] eqn:H1.
  - apply keywordTokens_spec. now apply firstBacktickSpan_clean in H1.
  - destruct (finalKeywordCapture content) as [capture|] eqn:H2.
    + apply keywordTokens_spec. now apply finalKeywordCapture_clean in H2.
    + intros [].
Qed.

Lemma parseKeywordsFromContent_tokens_witness :
  trim "calorie" = "calorie" /\ everyChar notComma "calorie" = true.
Proof.
  destruct (parseKeywordsFromContent_tokens
              "Final Keyword String (24/100 chars):
`fitness, calorie ,, ai `" "calorie") as (_ & H1 & H2 & _).
  - vm_compute. right; left; reflexivity.
  - split; [exact H1|exact H2].
Defined.

(** [keywords.join(",")] *)
Fixpoint joinCommas (l : list string) : string :=
  match l with
  | [] => EmptyString
  | [x] => x
  | x :: rest => x ++ String ","%char (joinCommas rest)
  end.

(** A keyword as the tool writes it: not empty, no white space at either
    end, neither comma nor backtick inside. *)
Definition cleanKeyword (k : string) : bool :=
  truthy k && startsNonSpace k && endsNonSpace k
  && everyChar notComma k && everyChar notBacktick k.

Lemma firstBacktickSpan_skip pre s :
  everyChar notBacktick pre = true ->
  firstBacktickSpan (pre ++ s) = firstBacktickSpan s.
Proof.
  induction pre as [|c pre IH]; [reflexivity|].
  intros H. cbn [everyChar] in H. apply andb_prop in H as [Hc Hpre].
  rewrite append_cons. cbn [firstBacktickSpan backtickSpanAt].
  unfold notBacktick in Hc. apply negb_true_iff in Hc. rewrite Hc.
  cbn [andb]. now apply IH.
Qed.

Lemma span_until stop a c b :
  everyChar (fun x => negb (stop x)) a = true -> stop c = true ->
  spanBefore stop (a ++ String c b) = a
  /\ dropSpan stop (a ++ String c b) = String c b.
Proof.
  intros Ha Hc. induction a as [|x a IH].
  - simpl. now rewrite Hc.
  - simpl in Ha. apply andb_prop in Ha as [Hx Ha].
    apply negb_true_iff in Hx. destruct (IH Ha) as [I1 I2].
    rewrite append_cons. cbn [spanBefore dropSpan]. rewrite Hx.
    now rewrite I1, I2.
Qed.

Lemma firstBacktickSpan_here inner post :
  inner <> "" -> everyChar notBacktick inner = true ->
  firstBacktickSpan (String "`" (inner ++ String "`" post)) = Some inner.
Proof.
  intros Hne Hclean.
  destruct (span_until isBacktick inner "`"%char post Hclean eq_refl)
    as [H1 H2].
  cbn [firstBacktickSpan backtickSpanAt].
  change (isBacktick "`") with true. rewrite H1, H2.
  rewrite (truthy_nonempty _ Hne). reflexivity.
Qed.

Lemma splitCommas_single k :
  everyChar notComma k = true -> splitCommas k = [k].
Proof.
  induction k as [|c k IH]; [reflexivity|].
  simpl. intros H. apply andb_prop in H as [Hc Hk].
  unfold notComma in Hc. apply negb_true_iff in Hc.
  now rewrite Hc, (IH Hk).
Qed.

Lemma splitCommas_comma k rest :
  everyChar notComma k = true ->
  splitCommas (k ++ String "," rest) = k :: splitCommas rest.
Proof.
  induction k as [|c k IH]; [reflexivity|].
  intros H. cbn [everyChar] in H. apply andb_prop in H as [Hc Hk].
  unfold notComma in Hc. apply negb_true_iff in Hc.
  rewrite append_cons. cbn [splitCommas]. now rewrite Hc, (IH Hk).
Qed.

Lemma cleanKeyword_facts k :
  cleanKeyword k = true ->
  k <> "" /\ trim k = k
  /\ everyChar notComma k = true /\ everyChar notBacktick k = true.
Proof.
  unfold cleanKeyword. intros H.
  apply andb_prop in H as [H H5]. apply andb_prop in H as [H H4].
  apply andb_prop in H as [H H3]. apply andb_prop in H as [H1 H2].
  split; [now apply truthy_true_nonempty|].
  split; [now apply trim_fixed|]. now split.
Qed.

Lemma splitCommas_join ks :
  ks <> [] -> forallb cleanKeyword ks = true ->
  splitCommas (joinCommas ks) = ks.
Proof.
  induction ks as [|k ks IH]; [congruence|].
  intros _ H. simpl in H. apply andb_prop in H as [Hk Hks].
  destruct (cleanKeyword_facts k Hk) as (_ & _ & Hcomma & _).
  destruct ks as [|k2 ks]; [now apply splitCommas_single|].
  change (joinCommas (k :: k2 :: ks))
    with (k ++ String "," (joinCommas (k2 :: ks))).
  rewrite splitCommas_comma by exact Hcomma.
  rewrite IH; [reflexivity|discriminate|exact Hks].
Qed.

Lemma joinCommas_clean ks :
  ks <> [] -> forallb cleanKeyword ks = true ->
  joinCommas ks <> "" /\ everyChar notBacktick (joinCommas ks) = true.
Proof.
  induction ks as [|k ks IH]; [congruence|].
  intros _ H. simpl in H. apply andb_prop in H as [Hk Hks].
  destruct (cleanKeyword_facts k Hk) as (Hne & _ & _ & Hb).
  destruct ks as [|k2 ks]; [now split|].
  change (joinCommas (k :: k2 :: ks))
    with (k ++ String "," (joinCommas (k2 :: ks))).
  destruct IH as [_ IHb]; [discriminate|exact Hks|].
  split.
  - destruct k; [congruence|discriminate].
  - rewrite everyChar_app. cbn [everyChar]. now rewrite Hb, IHb.
Qed.

Lemma keywordTokens_clean ks :
  forallb cleanKeyword ks = true ->
  List.filter truthy (List.map trim ks) = ks.
Proof.
  induction ks as [|k ks IH]; [reflexivity|].
  simpl. intros H. apply andb_prop in H as [Hk Hks].
  destruct (cleanKeyword_facts k Hk) as (Hne & Htrim & _ & _).
  rewrite Htrim, (truthy_nonempty _ Hne). now rewrite (IH Hks).
Qed.

(** Round trip.  A list of keywords, written comma-joined between the
    first pair of backticks of a text, is read back as it was: same
    keywords, same order. *)
Theorem parseKeywordsFromContent_roundtrip (pre post : string)
    (ks : list string) :
  everyChar notBacktick pre = true ->
  ks <> [] ->
  forallb cleanKeyword ks = true ->
  parseKeywordsFromContent
    (pre ++ String "`" (joinCommas ks ++ String "`" post)) = ks.
Proof.
  intros Hpre Hne Hks.
  destruct (joinCommas_clean ks Hne Hks) as [Hj1 Hj2].
  unfold parseKeywordsFromContent.
  rewrite firstBacktickSpan_skip by exact Hpre.
  rewrite firstBacktickSpan_here by assumption.
  unfold keywordTokens. rewrite splitCommas_join by assumption.
  now apply keywordTokens_clean.
Qed.

Lemma parseKeywordsFromContent_roundtrip_witness :
  parseKeywordsFromContent
    "## Keywords
Final Keyword String (32/100 chars):
`fitness,calorie counter,ai,macro`
Each term was scored."
  = ["fitness"; "calorie counter"; "ai"; "macro"].
Proof.
  apply (parseKeywordsFromContent_roundtrip
           "## Keywords
Final Keyword String (32/100 chars):
"
           "
Each term was scored."
           ["fitness"; "calorie counter"; "ai"; "macro"]);
    [reflexivity | discriminate | reflexivity].
Defined.

(** *** The first option *)

Lemma removeStarPairs_keeps P s :
  (everyChar P s = true -> everyChar P (removeStarPairs s) = true)
  /\ (forall a, P a = true -> everyChar P s = true ->
                everyChar P (removeStarPairs (String a s)) = true).
Proof.
  induction s as [|b r [IHa IHb]].
  - split; [reflexivity|]. intros a Ha _. simpl. now rewrite Ha.
  - split.
    + intros H. cbn [everyChar] in H. apply andb_prop in H as [Hb Hr].
      now apply IHb.
    + intros a Ha H. cbn [everyChar] in H. apply andb_prop in H as [Hb Hr].
      change (removeStarPairs (String a (String b r)))
        with (if isStar a && isStar b then removeStarPairs r
              else String a (removeStarPairs (String b r))).
      destruct (isStar a && isStar b); [now apply IHa|].
      cbn [everyChar]. rewrite Ha. now apply IHb.
Qed.

Lemma removeStarPairs_id s :
  (everyChar notStar s = true -> removeStarPairs s = s)
  /\ (forall a, everyChar notStar s = true ->
                removeStarPairs (String a s) = String a s).
Proof.
  induction s as [|b r [IHa IHb]].
  - split; reflexivity.
  - split.
    + intros H. cbn [everyChar] in H. apply andb_prop in H as [_ Hr].
      now apply IHb.
    + intros a H. cbn [everyChar] in H. apply andb_prop in H as [Hb Hr].
      change (removeStarPairs (String a (String b r)))
        with (if isStar a && isStar b then removeStarPairs r
              else String a (removeStarPairs (String b r))).
      unfold notStar in Hb. apply negb_true_iff in Hb.
      rewrite Hb, andb_false_r. now rewrite (IHb b Hr).
Qed.

Lemma stripCharCount_keeps P s :
  everyChar P s = true -> everyChar P (stripCharCount s) = true.
Proof.
  induction s as [|c s IH].
  - intros _. cbn [stripCharCount]. destruct (isCharCountNote ""); reflexivity.
  - intros H. cbn [everyChar] in H. apply andb_prop in H as [Hc Hs].
    cbn [stripCharCount]. destruct (isCharCountNote (String c s));
      [reflexivity|].
    cbn [everyChar]. now rewrite Hc, IH.
Qed.

Lemma lastNonNewline_not_newline s c :
  lastNonNewline s = Some c -> isNewline c = false.
Proof.
  induction s as [|d s IH]; [discriminate|].
  simpl. destruct (lastNonNewline s) as [x|].
  - intros [= ->]. now apply IH.
  - destruct (isNewline d) eqn:Hd; [discriminate|]. now intros [= <-].
Qed.

Lemma whiteSpace_notStar c : isWhiteSpace c = true -> isStar c = false.
Proof. destruct c as [[] [] [] [] [] [] [] []]; vm_compute; congruence. Qed.

Lemma optionCapture_clean r capture :
  optionCapture r = Some capture ->
  everyChar notStarOrNewline capture = true.
Proof.
  unfold optionCapture.
  assert (Hfall : forall c,
            match lastNonNewline (spanBefore notWhiteSpace r) with
            | Some c => Some (String c "")
            | None => None
            end = Some c -> everyChar notStarOrNewline c = true).
  { intros c. destruct (lastNonNewline _) as [x|] eqn:Hx; [|discriminate].
    intros [= <-].
    pose proof (lastNonNewline_not_newline _ _ Hx) as Hn.
    apply lastNonNewline_char in Hx; [|apply spaces_everyChar].
    cbn [everyChar]. unfold notStarOrNewline, starOrNewline.
    now rewrite (whiteSpace_notStar _ Hx), Hn. }
  destruct (dropTwoStars (dropSpan notWhiteSpace r)) as [|c rest];
    [apply Hfall|].
  destruct (starOrNewline c); [apply Hfall|].
  intros [= <-]. exact (everyChar_spanBefore starOrNewline (String c rest)).
Qed.

Lemma firstOptionCapture_clean b s capture :
  firstOptionCapture b s = Some capture ->
  everyChar notStarOrNewline capture = true.
Proof.
  revert b; induction s as [|c s IH]; intros b; [discriminate|].
  cbn [firstOptionCapture].
  destruct (if b then firstOptionAt (String c s) else None) as [x|] eqn:Hat.
  - intros [= <-]. destruct b; [|discriminate].
    unfold firstOptionAt in Hat.
    destruct (startsWith "1." _); [|discriminate].
    now apply optionCapture_clean in Hat.
  - apply IH.
Qed.

Lemma startsWith_includes needle s :
  startsWith needle s = true -> includes needle s = true.
Proof. intros H. destruct s; cbn [includes]; now rewrite H. Qed.

Lemma includes_dropSpan needle stop s :
  includes needle (dropSpan stop s) = true -> includes needle s = true.
Proof.
  induction s as [|c s IH]; [trivial|].
  cbn [dropSpan]. destruct (stop c); [trivial|].
  intros H. cbn [includes]. rewrite (IH H). apply orb_true_r.
Qed.

Lemma firstOptionCapture_needs_one b s capture :
  firstOptionCapture b s = Some capture -> includes "1." s = true.
Proof.
  revert b; induction s as [|c s IH]; intros b; [discriminate|].
  cbn [firstOptionCapture].
  destruct (if b then firstOptionAt (String c s) else None) as [x|] eqn:Hat.
  - intros _. destruct b; [|discriminate].
    unfold firstOptionAt in Hat.
    destruct (startsWith "1." (dropSpan notWhiteSpace (String c s)))
      eqn:Hs; [|discriminate].
    eapply includes_dropSpan, startsWith_includes, Hs.
  - intros H. cbn [includes]. rewrite (IH _ H). apply orb_true_r.
Qed.

(** Whatever the text, the option [extractFirstOption] returns contains
    neither a star nor a newline and has no white space at either end;
    and a text in which [1.] does not occur at all has no first option. *)
Theorem extractFirstOption_shape (content : string) :
  (forall t, extractFirstOption content = Some t ->
             everyChar notStarOrNewline t = true /\ trim t = t)
  /\ (includes "1." content = false -> extractFirstOption content = None).
Proof.
  unfold extractFirstOption. split.
  - intros t. destruct (firstOptionCapture true content) as [capture|] eqn:Hc;
      [|discriminate].
    intros [= <-]. split; [|apply trim_idempotent].
    apply everyChar_trim, stripCharCount_keeps.
    apply (proj1 (removeStarPairs_keeps _ _)).
    eapply firstOptionCapture_clean, Hc.
  - intros H. destruct (firstOptionCapture true content) as [capture|] eqn:Hc;
      [|reflexivity].
    apply firstOptionCapture_needs_one in Hc. congruence.
Qed.

Lemma spanBefore_all stop t :
  everyChar (fun c => negb (stop c)) t = true -> spanBefore stop t = t.
Proof.
  induction t as [|c t IH]; [reflexivity|].
  intros H. cbn [everyChar] in H. apply andb_prop in H as [Hc Ht].
  apply negb_true_iff in Hc. cbn [spanBefore]. now rewrite Hc, IH.
Qed.

Lemma firstOptionCapture_here s capture :
  firstOptionAt s = Some capture ->
  firstOptionCapture true s = Some capture.
Proof.
  destruct s as [|c s].
  - unfold firstOptionAt. cbn. discriminate.
  - intros H. cbn [firstOptionCapture]. now rewrite H.
Qed.

Lemma firstOptionAt_line r : firstOptionAt ("1." ++ r) = optionCapture r.
Proof. reflexivity. Qed.

Lemma optionCapture_one_space X :
  startsNonSpace X = true ->
  optionCapture (String " " X)
  = match dropTwoStars X with
    | EmptyString => Some " "
    | String c _ =>
        if starOrNewline c then Some " "
        else Some (spanBefore starOrNewline (dropTwoStars X))
    end.
Proof.
  intros H. unfold optionCapture. cbn [spanBefore dropSpan].
  change (notWhiteSpace " ") with false. cbv iota.
  destruct X as [|x X']; [reflexivity|].
  assert (Hx : notWhiteSpace x = true) by exact H.
  cbn [spanBefore dropSpan]. rewrite !Hx. reflexivity.
Qed.

(** A first line of the form [1. text] or [1. **text**], where the text
    has no star, no newline, no white space at either end and no
    character-count note at its end, and is followed by the end of the
    content, a star or a newline: the first option is that text. *)
Theorem extractFirstOption_first_line (bold : bool) (t post : string) :
  truthy t = true ->
  startsNonSpace t = true ->
  endsNonSpace t = true ->
  everyChar notStarOrNewline t = true ->
  stripCharCount t = t ->
  startsWith "*" post || startsWith (String newline "") post
    || isEmpty post = true ->
  extractFirstOption
    ("1. " ++ (if bold then "**" else "") ++ t ++ post) = Some t.
Proof.
  intros Hne Hstart Hend Hclean Hstrip Hpost.
  destruct t as [|c t']; [discriminate|].
  cbn [startsNonSpace] in Hstart. apply negb_true_iff in Hstart.
  pose proof Hclean as Hc. cbn [everyChar] in Hc.
  apply andb_prop in Hc as [Hc _].
  unfold notStarOrNewline in Hc. apply negb_true_iff in Hc.
  assert (Hc' := Hc). unfold starOrNewline in Hc'.
  apply orb_false_elim in Hc' as [Hstar _].
  assert (Hspan : spanBefore starOrNewline (String c t' ++ post)
                  = String c t').
  { destruct post as [|p post'].
    - rewrite append_empty_r. now apply spanBefore_all.
    - apply span_until; [exact Hclean|].
      cbn [startsWith isEmpty] in Hpost. rewrite !andb_true_r in Hpost.
      rewrite orb_false_r in Hpost. unfold starOrNewline, isStar, isNewline.
      apply orb_prop in Hpost as [Hp|Hp].
      + rewrite Ascii.eqb_sym in Hp. now rewrite Hp.
      + apply Ascii.eqb_eq in Hp. subst p. now rewrite orb_true_r. }
  assert (Hcap : firstOptionCapture true
                   ("1. " ++ (if bold then "**" else "")
                      ++ String c t' ++ post)
                 = Some (String c t')).
  { assert (Hrest : dropTwoStars
                      ((if bold then "**" else "") ++ String c t' ++ post)
                    = String c (t' ++ post)).
    { destruct bold; [reflexivity|].
      change ("" ++ String c t' ++ post) with (String c (t' ++ post)).
      cbn [dropTwoStars]. now rewrite Hstar. }
    assert (Hns : startsNonSpace
                    ((if bold then "**" else "") ++ String c t' ++ post)
                  = true).
    { destruct bold; [reflexivity|].
      change ("" ++ String c t' ++ post) with (String c (t' ++ post)).
      cbn [startsNonSpace]. now rewrite Hstart. }
    rewrite (firstOptionCapture_here
               ("1. " ++ (if bold then "**" else "") ++ String c t' ++ post)
               (String c t')); [reflexivity|].
    change ("1. " ++ (if bold then "**" else "") ++ String c t' ++ post)
      with ("1." ++ String " "
              ((if bold then "**" else "") ++ String c t' ++ post)).
    rewrite firstOptionAt_line, optionCapture_one_space by exact Hns.
    rewrite Hrest, Hc. now rewrite <- append_cons, Hspan. }
  unfold extractFirstOption. rewrite Hcap. f_equal.
  assert (Hns : everyChar notStar (String c t') = true).
  { eapply everyChar_weaken; [|exact Hclean].
    intros x Hx. unfold notStarOrNewline, starOrNewline in Hx.
    unfold notStar. destruct (isStar x); [discriminate|reflexivity]. }
  rewrite (proj1 (removeStarPairs_id _) Hns), Hstrip.
  apply trim_fixed; [|exact Hend].
  cbn [startsNonSpace]. now rewrite Hstart.
Qed.

Lemma extractFirstOption_first_line_witness :
  extractFirstOption "1. **Snap & Track** (18 chars)
2. **Calorie Lens** (12 chars)" = Some "Snap & Track"
  /\ extractFirstOption "1. Snap & Track
2. Calorie Lens" = Some "Snap & Track".
Proof.
  split.
  - apply (extractFirstOption_first_line true "Snap & Track"
             "** (18 chars)
2. **Calorie Lens** (12 chars)"); reflexivity.
  - apply (extractFirstOption_first_line false "Snap & Track"
             "
2. Calorie Lens"); reflexivity.
Defined.

(** *** Numbered items *)

Lemma removeStars_clean s : everyChar notStar (removeStars s) = true.
Proof.
  induction s as [|c s IH]; [reflexivity|].
  cbn [removeStars]. destruct (isStar c) eqn:Hc; [exact IH|].
  cbn [everyChar]. unfold notStar at 1. now rewrite Hc, IH.
Qed.

Lemma dropOpenBracket_keeps P s :
  everyChar P s = true -> everyChar P (dropOpenBracket s) = true.
Proof.
  destruct s as [|c s]; [trivial|].
  intros H. cbn [dropOpenBracket]. destruct (Ascii.eqb c "["); [|exact H].
  cbn [everyChar] in H. now apply andb_prop in H as [_ H].
Qed.

Lemma dropCloseBracket_keeps P s :
  everyChar P s = true -> everyChar P (dropCloseBracket s) = true.
Proof.
  induction s as [|c s IH]; [trivial|].
  intros H. cbn [everyChar] in H. apply andb_prop in H as [Hc Hs].
  cbn [dropCloseBracket]. destruct (Ascii.eqb c "]" && isEmpty s);
    [reflexivity|].
  cbn [everyChar]. now rewrite Hc, IH.
Qed.

Lemma cleanItem_clean capture :
  everyChar notStar (cleanItem capture) = true
  /\ trim (cleanItem capture) = cleanItem capture.
Proof.
  unfold cleanItem. split; [|apply trim_idempotent].
  apply everyChar_trim, dropCloseBracket_keeps, dropOpenBracket_keeps.
  apply removeStars_clean.
Qed.

Lemma collectItems_spec lines :
  (List.length (collectItems lines) <= List.length lines)%nat
  /\ (forall t, In t (collectItems lines) ->
        exists capture, t = cleanItem capture /\ truthy t = true).
Proof.
  induction lines as [|line rest [IHlen IHin]].
  - split; [reflexivity|]. intros t [].
  - cbn [collectItems].
    destruct (numberedLine line) as [capture|].
    + destruct (truthy (cleanItem capture)) eqn:Ht.
      * split; [simpl; lia|].
        intros t [<-|Hin]; [now exists capture|now apply IHin].
      * split; [simpl; lia|exact IHin].
    + split; [simpl; lia|exact IHin].
Qed.

(** [extractNumberedItems] returns at most one item per line, and every
    item is non-empty, has no white space at either end and contains no
    star. *)
Theorem extractNumberedItems_items (content : string) :
  (List.length (extractNumberedItems content)
   <= List.length (splitLines content))%nat
  /\ (forall t, In t (extractNumberedItems content) ->
        t <> "" /\ trim t = t /\ everyChar notStar t = true).
Proof.
  unfold extractNumberedItems.
  destruct (collectItems_spec (splitLines content)) as [Hlen Hin].
  split; [exact Hlen|].
  intros t Ht. destruct (Hin t Ht) as [capture [-> Htruthy]].
  destruct (cleanItem_clean capture) as [H1 H2].
  split; [now apply truthy_true_nonempty|]. now split.
Qed.

(** *** The slug *)



















End ExtractorFacts.

(** ** The accumulator, the export guard and the content handlers *)

Module OrchestratorFacts.
Import JsString JsStringFacts JsStringMore Prompts StoreExport.
Import ResponseExtractor Copilot CopilotOps CopilotFacts CopilotMore.
Import Orchestrator.

(** The accumulator with its two image paths set to the given values. *)
Definition withPaths (icon graphic : option string) (m : GeneratedMetadata)
  : GeneratedMetadata :=
  {| md_title := md_title m; md_subtitle := md_subtitle m;
     md_description := md_description m; md_keywords := md_keywords m;
     md_releaseNotes := md_releaseNotes m; md_promoText := md_promoText m;
     md_iconPath := icon; md_featureGraphicPath := graphic |}.

(** The image paths never reach the exported document.  Yet they count
    for the guard of the export: with nothing but an icon path in the
    accumulator the export is allowed, and the object written under
    [apple.info["en-US"]] is empty. *)
Theorem export_ignores_image_paths (m : GeneratedMetadata)
    (icon graphic : option string) (path : string) :
  exportedJson (withPaths icon graphic m) = exportedJson m
  /\ hasMetadata (withPaths (Some path) graphic emptyMetadata) = true
  /\ localeInfo (exportedJson (withPaths (Some path) graphic emptyMetadata))
     = Some (JObject []).
Proof. repeat split. Qed.


Section HandlerFacts.
Context {AppInfo : Type}.
Variable getContentPrompt : ContentType -> AppInfo -> string.
Variable appName : AppInfo -> string.
Variable appDescription : AppInfo -> string.
Variable sdk : Sdk.

Local Abbreviation State := (@AppState AppInfo).

(** What the handlers print when there is nothing to refine. *)
Definition refusal : list Ui :=
  [UiError refineFirst; UiLine "  Try /title or /desc to get started.";
   UiBlank].

Lemma orElse_nonempty error fallback :
  fallback <> "" -> orElse error fallback <> "".
Proof.
  intros H. unfold orElse. destruct error as [m|]; [|exact H].
  destruct m; [exact H|discriminate].
Qed.

(** A successful [generate] without [regenerate] leaves its text in the
    cache. *)
Lemma generate_success_cached ct (s s' : @CopilotService AppInfo) r :
  generate getContentPrompt sdk ct false s = (Some r, s') ->
  success r = true ->
  generatedContent s' !! ct = Some (content r).
Proof.
  intros Hgen Hok.
  destruct (cachedTruthy ct s) as [cached|] eqn:Hc.
  - unfold generate in Hgen. rewrite Hc in Hgen.
    inversion Hgen; subst. cbn [content].
    unfold cachedTruthy in Hc.
    destruct (generatedContent s' !! ct) as [v|]; [|discriminate].
    destruct (truthy v); [congruence|discriminate].
  - destruct (session s) as [x|] eqn:Hx.
    + destruct (generate_issued getContentPrompt sdk ct false s x Hx
                  (or_intror Hc))
        as (s1 & h & s2 & _ & _ & _ & _ & _ & Hgen').
      rewrite Hgen in Hgen'.
      destruct (send_outcome _); [destruct (done h)|];
        inversion Hgen'; subst; try discriminate.
      cbn [content generatedContent spin setGeneratedContent].
      apply lookup_insert_eq.
    + destruct (generate_without_session getContentPrompt sdk ct false s
                  Hx (or_intror Hc)) as [Hf _].
      rewrite Hgen in Hf. cbn [fst] in Hf. inversion Hf; subst.
      discriminate.
Qed.

(** [handleContent] either reports a failure with a non-empty message
    and leaves last content, its kind and the accumulator as they were;
    or it makes the generated text the last content, of the kind asked
    for, stores it in the accumulator, and the text is the one the
    service holds in its cache for that kind. *)
Theorem handleContent_outcomes ct (st st' : State) ui :
  handleContent getContentPrompt sdk ct st = Some (st', ui) ->
  (lastContent st' = lastContent st
   /\ lastContentType st' = lastContentType st
   /\ generatedMetadata st' = generatedMetadata st
   /\ exists message, ui = [UiBlank; UiError message] /\ message <> "")
  \/ (lastContentType st' = Some ct
      /\ generatedMetadata st'
         = storeMetadata ct (lastContent st') (generatedMetadata st)
      /\ generatedContent (service st') !! ct = Some (lastContent st')).
Proof.
  unfold handleContent.
  destruct (generate getContentPrompt sdk ct false (service st))
    as [[r|] s'] eqn:Hgen; [|discriminate].
  destruct (success r) eqn:Hok; cbn [negb].
  - intros [= <- <-]. right. cbn.
    repeat split. now apply (generate_success_cached ct (service st)).
  - intros [= <- <-]. left. cbn. repeat split.
    eexists; split; [reflexivity|]. now apply orElse_nonempty.
Qed.

(** When nothing has been generated yet and the first generation fails,
    a chat message after it is still refused: the hint is printed, the
    state stays as it is and nothing is sent. *)
Theorem chat_refused_after_failed_generation ct message (st st' : State) ui r :
  lastContent st = "" ->
  handleContent getContentPrompt sdk ct st = Some (st', ui) ->
  fst (generate getContentPrompt sdk ct false (service st)) = Some r ->
  success r = false ->
  handleChat appName appDescription sdk message st' = Some (st', refusal).
Proof.
  intros Hempty Hc Hgen Hf. unfold handleContent in Hc.
  destruct (generate getContentPrompt sdk ct false (service st))
    as [[r'|] s'] eqn:Hg; [|discriminate].
  cbn [fst] in Hgen. inversion Hgen; subst r'.
  rewrite Hf in Hc. cbn [negb] in Hc. inversion Hc; subst st' ui.
  unfold handleChat. cbn [lastContentType lastContent].
  rewrite Hempty. destruct (lastContentType st); reflexivity.
Qed.

(** A chat message after some content sends one prompt, the refinement
    prompt for the kind of the last content, which carries the last
    content and the message word for word. *)
Theorem handleChat_sends_refinement ct message (st st' : State) ui x :
  lastContentType st = Some ct ->
  lastContent st <> "" ->
  session (service st) = Some x ->
  handleChat appName appDescription sdk message st = Some (st', ui) ->
  let prompt :=
    getRefinementPrompt ct (lastContent st) message
      (appName (appInfo (service st)))
      (appDescription (appInfo (service st))) in
  sentPrompts (service st') = (sentPrompts (service st) ++ [prompt])%list
  /\ includes (lastContent st) prompt = true
  /\ includes message prompt = true
  /\ lastContentType st' = Some ct.
Proof.
  intros Hct Hne Hx Hchat prompt.
  destruct (getRefinementPrompt_verbatim ct (lastContent st) message
              (appName (appInfo (service st)))
              (appDescription (appInfo (service st))))
    as (I1 & I2 & _).
  split; [|split; [exact I1|split; [exact I2|]]].
  - unfold handleChat in Hchat. rewrite Hct in Hchat.
    rewrite (truthy_nonempty _ Hne) in Hchat.
    unfold refineContent in Hchat. fold prompt in Hchat.
    pose proof (stream_cache sdk prompt ct (service st)) as (_ & _ & Hcalls).
    rewrite Hx in Hcalls.
    destruct (streamGeneration sdk prompt ct (service st))
      as [[text|m|] s1]; cbn [snd] in Hcalls;
      try discriminate; cbn [success negb] in Hchat;
      inversion Hchat; subst; cbn [service];
      now apply sentPrompts_calls.
  - unfold handleChat in Hchat. rewrite Hct in Hchat.
    rewrite (truthy_nonempty _ Hne) in Hchat.
    destruct (refineContent _ _ _ _ _ _ _) as [[[r|] s1] n];
      [|discriminate].
    destruct (success r); cbn [negb] in Hchat;
      inversion Hchat; subst; cbn [lastContentType];
      solve [reflexivity | exact Hct].
Qed.

End HandlerFacts.

(** *** Concrete runs *)

Definition freshState : @AppState unit :=
  {| service := readyService; lastContent := "";
     lastContentType := None; generatedMetadata := emptyMetadata |}.

Definition afterTitles : @AppState unit :=
  {| service := cachedTitle; lastContent := "1. Old title";
     lastContentType := Some title; generatedMetadata := emptyMetadata |}.

Lemma handleContent_outcomes_witness :
  exists st' ui,
    handleContent promptOf (scriptedSdk twoDeltas) title freshState
      = Some (st', ui)
    /\ lastContentType st' = Some title
    /\ generatedContent (service st') !! title = Some (lastContent st').
Proof.
  destruct (handleContent promptOf (scriptedSdk twoDeltas) title freshState)
    as [[st' ui]|] eqn:H; [|vm_compute in H; discriminate].
  exists st', ui. split; [reflexivity|].
  destruct (handleContent_outcomes promptOf (scriptedSdk twoDeltas)
              title freshState st' ui H) as [(H1 & H2 & _)|(H1 & _ & H3)].
  - vm_compute in H. inversion H; subst st'. discriminate.
  - split; assumption.
Defined.

Lemma chat_refused_after_failed_generation_witness :
  exists st',
    fst (generate promptOf (scriptedSdk deltaThenError) title false
           (service freshState))
    = Some {| content := ""; success := false; error := Some "boom" |}
    /\ handleChat nameOf descriptionOf (scriptedSdk deltaThenError)
         "shorter please" st' = Some (st', refusal).
Proof.
  destruct (handleContent promptOf (scriptedSdk deltaThenError) title
              freshState) as [[st' ui]|] eqn:H;
    [|vm_compute in H; discriminate].
  exists st'. split; [vm_compute; reflexivity|].
  apply (chat_refused_after_failed_generation promptOf nameOf descriptionOf
           (scriptedSdk deltaThenError) title "shorter please" freshState
           st' ui
           {| content := ""; success := false; error := Some "boom" |});
    [reflexivity | exact H | vm_compute; reflexivity | reflexivity].
Defined.

Lemma handleChat_sends_refinement_witness :
  exists st' : @AppState unit,
    sentPrompts (service st')
    = (sentPrompts (service afterTitles)
         ++ [getRefinementPrompt title "1. Old title" "shorter please"
               "CalAI" "Track calories from a photo of your meal."])%list
    /\ lastContentType st' = Some title.
Proof.
  destruct (handleChat nameOf descriptionOf (scriptedSdk twoDeltas)
              "shorter please" afterTitles) as [[st' ui]|] eqn:H;
    [|vm_compute in H; discriminate].
  exists st'.
  destruct (handleChat_sends_refinement nameOf descriptionOf
              (scriptedSdk twoDeltas) title "shorter please" afterTitles
              st' ui readySession)
    as (H1 & _ & _ & H4);
    [reflexivity | discriminate | reflexivity | exact H |].
  split; [exact H1|exact H4].
Defined.

End OrchestratorFacts.
